(** * TradingDatabase: the persistence layer of the trading bot

    A shallow embedding of [src/database.py]: the three append-only tables
    (trades, market_scans, bot_status), the writers [log_trade],
    [log_market_scan], [log_bot_status], the readers [get_trades],
    [get_market_scans], [get_bot_status], [get_latest_scan],
    [get_latest_status], the CSV import and the module-level registry
    [get_db].

    Conventions of the model.
    - A timestamp text ['%Y-%m-%d %H:%M:%S'] is represented by the number of
      seconds it denotes (the text order and the date-time order agree on
      such texts); a date ['YYYY-MM-DD'] by its day number, so that
      [f"{start_date} 00:00:00"] is [86400 * d] and [f"{end_date} 23:59:59"]
      is [86400 * d + 86399].
    - A REAL column holds an integer number of smallest units; the only
      arithmetic the module performs on such values is the running sum of
      [get_trades].
    - Every call into sqlite3 / pandas I/O may raise: the environment is a
      list of pending faults, one entry consumed per call.  Python keeps the
      mutations made before an exception, hence the monad returns the state
      next to the outcome. *)

From Stdlib Require Import ZArith List String Ascii Bool Lia Permutation Sorted.
Import ListNotations.
Open Scope string_scope.
Open Scope list_scope.
Open Scope Z_scope.

(** ** Rows and tables *)

Record trade := mkTrade {
  t_id : Z;
  t_timestamp : Z;
  t_pair : string;
  t_action : string;
  t_price : Z;
  t_quantity : Z;
  t_net_profit : option Z;
  t_profit_pct : option Z;
  t_order_id : option string;
  t_strategy : option string;
  t_created_at : Z
}.

Record market_scan := mkScan {
  s_id : Z;
  s_timestamp : Z;
  s_pair : string;
  s_signal : string;
  s_price : Z;
  s_strategy : option string;
  s_interval : option string;
  s_indicators : option string;
  s_created_at : Z
}.

Record bot_status_row := mkStatus {
  b_id : Z;
  b_timestamp : Z;
  b_status : string;
  b_account_value : option Z;
  b_active_pairs : option string;
  b_message : option string;
  b_created_at : Z
}.

(** The content of the SQLite file.  Each table is kept in rowid order; the
    [seq_*] fields are the AUTOINCREMENT counters (last identifier handed
    out). *)
Record database := mkDatabase {
  trades : list trade;
  market_scans : list market_scan;
  bot_status : list bot_status_row;
  seq_trades : Z;
  seq_market_scans : Z;
  seq_bot_status : Z
}.

Definition empty_database : database := mkDatabase [] [] [] 0 0 0.

(** ** Exceptions, events and the store *)

Inductive exn :=
| SqliteError (msg : string)
| IOError (msg : string)
| ValueError (msg : string)
| IntegrityError (msg : string)
| DatabaseError (cause : exn).

Inductive event :=
| EvConnect
| EvPragma
| EvDDL
| EvInsert (table : string)
| EvSelect (table : string)
| EvCommit
| EvRollback
| EvClose
| EvReadCsv.

Definition event_eqb (a b : event) : bool :=
  match a, b with
  | EvConnect, EvConnect | EvPragma, EvPragma | EvDDL, EvDDL
  | EvCommit, EvCommit | EvRollback, EvRollback | EvClose, EvClose
  | EvReadCsv, EvReadCsv => true
  | EvInsert x, EvInsert y | EvSelect x, EvSelect y => String.eqb x y
  | _, _ => false
  end.

(** A [TradingDatabase] object together with the file it is bound to and the
    environment of the calls made on it.
    - [conn]  : [self.conn] is not [None];
    - [work]  : the table contents seen through the open connection
                (committed rows plus the rows of the open transaction);
    - [disk]  : the committed content of [db_file];
    - [clock] : what [datetime.utcnow()] returns;
    - [faults]: the outcome of the next calls into the storage layer
                ([Some e]: the call raises [e]; [None] or no entry: it
                succeeds);
    - [trace] : the storage calls made so far, oldest first. *)
Record store := mkStore {
  db_file : string;
  conn : bool;
  work : database;
  disk : database;
  clock : Z;
  faults : list (option exn);
  trace : list event
}.

Definition set_conn (c : bool) (s : store) : store :=
  mkStore (db_file s) c (work s) (disk s) (clock s) (faults s) (trace s).
Definition set_work (w : database) (s : store) : store :=
  mkStore (db_file s) (conn s) w (disk s) (clock s) (faults s) (trace s).
Definition set_disk (d : database) (s : store) : store :=
  mkStore (db_file s) (conn s) (work s) d (clock s) (faults s) (trace s).
Definition set_faults (f : list (option exn)) (s : store) : store :=
  mkStore (db_file s) (conn s) (work s) (disk s) (clock s) f (trace s).
Definition log_event (ev : event) (s : store) : store :=
  mkStore (db_file s) (conn s) (work s) (disk s) (clock s) (faults s)
          (trace s ++ [ev]).

(** ** The state-and-exception monad *)

Inductive result (A : Type) :=
| Ok (a : A)
| Raise (e : exn).
Arguments Ok {A} a.
Arguments Raise {A} e.

Definition M (A : Type) : Type := store -> result A * store.

Definition ret {A} (a : A) : M A := fun s => (Ok a, s).
Definition raise {A} (e : exn) : M A := fun s => (Raise e, s).
Definition bind {A B} (m : M A) (k : A -> M B) : M B :=
  fun s => match m s with
           | (Ok a, s') => k a s'
           | (Raise e, s') => (Raise e, s')
           end.
(** [try: body except Exception as e: handler e] *)
Definition try_except {A} (body : M A) (handler : exn -> M A) : M A :=
  fun s => match body s with
           | (Ok a, s') => (Ok a, s')
           | (Raise e, s') => handler e s'
           end.
Definition gets {A} (f : store -> A) : M A := fun s => (Ok (f s), s).
Definition modify (f : store -> store) : M unit := fun s => (Ok tt, f s).

Notation "x <- m ;; k" := (bind m (fun x => k))
  (at level 61, m at next level, right associativity).
Notation "m ;; k" := (bind m (fun _ => k))
  (at level 61, right associativity).

(** ** The storage layer (sqlite3) *)

Definition next_fault (fs : list (option exn)) : option exn :=
  match fs with
  | Some e :: _ => Some e
  | _ => None
  end.

(** One call into the storage layer: it is recorded in the trace, consumes
    one entry of the environment and raises when that entry is a fault. *)
Definition storage_call (ev : event) : M unit :=
  fun s =>
    let s' := log_event ev (set_faults (tl (faults s)) s) in
    match next_fault (faults s) with
    | Some e => (Raise e, s')
    | None => (Ok tt, s')
    end.

(** [self.conn = sqlite3.connect(self.db_file)]: the new connection sees the
    committed content of the file. *)
Definition sqlite3_connect : M unit :=
  storage_call EvConnect ;;
  modify (fun s => set_conn true (set_work (disk s) s)).

(** [cursor.execute(INSERT ...)]: [ins] adds the row to the connection's view
    and returns [cursor.lastrowid]. *)
Definition cursor_execute_insert (table : string)
           (ins : database -> database * Z) : M Z :=
  storage_call (EvInsert table) ;;
  w <- gets work ;;
  let (w', rowid) := ins w in
  modify (set_work w') ;;
  ret rowid.

(** [self.conn.commit()]: the rows of the open transaction become the
    committed content. *)
Definition conn_commit : M unit :=
  storage_call EvCommit ;;
  modify (fun s => set_disk (work s) s).

(** [self.conn.rollback()]: the open transaction is dropped.  A rollback is
    taken not to fail. *)
Definition conn_rollback : M unit :=
  modify (fun s => log_event EvRollback (set_work (disk s) s)).

(** [self.conn.close()]: the open transaction, if any, is abandoned. *)
Definition conn_close : M unit :=
  modify (fun s => log_event EvClose (set_work (disk s) s)).

(** [datetime.utcnow().strftime("%Y-%m-%d %H:%M:%S")] *)
Definition utcnow : M Z := gets clock.

(** ** TradingDatabase.connect / close / create_tables *)

(** [connect]: open the file, then [PRAGMA foreign_keys = ON]; a failure is
    logged and raised again.  When the PRAGMA fails, [self.conn] is already
    set. *)
Definition connect : M unit :=
  try_except
    (sqlite3_connect ;;
     storage_call EvPragma)
    (fun e => raise e).

(** [close]: [if self.conn: self.conn.close(); self.conn = None] *)
Definition close : M unit :=
  c <- gets conn ;;
  if c then
    conn_close ;;
    modify (set_conn false)
  else ret tt.

(** [create_tables]: three [CREATE TABLE IF NOT EXISTS], three
    [CREATE INDEX IF NOT EXISTS], one commit; none of them changes a row. *)
Definition create_tables : M unit :=
  try_except
    (storage_call EvDDL ;; storage_call EvDDL ;; storage_call EvDDL ;;
     storage_call EvDDL ;; storage_call EvDDL ;; storage_call EvDDL ;;
     conn_commit)
    (fun e => raise e).

(** [if not self.conn: self.connect()] *)
Definition ensure_connection : M unit :=
  c <- gets conn ;;
  if c then ret tt else connect.

(** [if self.conn: self.conn.rollback()] followed by [raise] *)
Definition rollback_and_reraise {A} (e : exn) : M A :=
  c <- gets conn ;;
  (if c then conn_rollback else ret tt) ;;
  raise e.

(** ** log_trade *)

(** [INSERT INTO trades (...) VALUES (...)]: the row gets the next
    AUTOINCREMENT identifier, which is also [cursor.lastrowid]. *)
Definition insert_trade (timestamp : Z) (pair action : string)
           (price quantity : Z) (net_profit profit_pct : option Z)
           (order_id strategy : option string) (created_at : Z)
           (d : database) : database * Z :=
  let rowid := seq_trades d + 1 in
  (mkDatabase
     (trades d ++ [mkTrade rowid timestamp pair action price quantity
                           net_profit profit_pct order_id strategy created_at])
     (market_scans d) (bot_status d)
     rowid (seq_market_scans d) (seq_bot_status d),
   rowid).

(** [created_at] is the same as [timestamp] for new entries. *)
Definition log_trade (pair action : string) (price quantity : Z)
           (net_profit profit_pct : option Z)
           (order_id strategy : option string) : M Z :=
  try_except
    (ensure_connection ;;
     timestamp <- utcnow ;;
     trade_id <- cursor_execute_insert "trades"
                   (insert_trade timestamp pair action price quantity
                                 net_profit profit_pct order_id strategy
                                 timestamp) ;;
     conn_commit ;;
     ret trade_id)
    rollback_and_reraise.

(** ** Ordering rows by timestamp

    [DataFrame.sort_values('timestamp')] is modelled by a stable insertion
    sort on an integer key; a descending sort is the ascending sort on the
    negated key, so that rows with equal timestamps keep their relative
    order (pandas' default sort promises no order among them).

    [ORDER BY timestamp DESC] leaves the order of rows with equal timestamps
    to the plan SQLite picks, and for the schema of [create_tables] it picks
    two:
    - it walks an index on [timestamp] backwards (market_scans always;
      trades unless a pair is given): among equal timestamps the row
      inserted later comes first;
    - it collects the rows in rowid order and sorts them in a temporary
      b-tree (bot_status, which has no such index; trades when a pair is
      given, found through the index on [pair]): rows with equal timestamps
      stay in rowid order.
    The statements below that speak of order, of LIMIT or of running totals
    hold for any order of equal timestamps, or assume there are none. *)

Section Sorting.
Context {A : Type}.
Variable key : A -> Z.

Fixpoint insert_by (x : A) (l : list A) : list A :=
  match l with
  | [] => [x]
  | y :: r => if key x <=? key y then x :: y :: r else y :: insert_by x r
  end.

Definition sort_by (l : list A) : list A := fold_right insert_by [] l.
End Sorting.

(** [df.sort_values('timestamp', ascending=...)] *)
Definition sort_values {A} (timestamp : A -> Z) (ascending : bool)
           (l : list A) : list A :=
  if ascending then sort_by timestamp l
  else sort_by (fun r => - timestamp r) l.

(** How SQLite answers [ORDER BY timestamp DESC]. *)
Inductive plan :=
| IndexBackwards
| TempBTree.

(** [ORDER BY timestamp DESC] over rows given in rowid order. *)
Definition order_by_timestamp_desc {A} (p : plan) (timestamp : A -> Z)
           (l : list A) : list A :=
  match p with
  | IndexBackwards => rev (sort_by timestamp l)
  | TempBTree => sort_by (fun r => - timestamp r) l
  end.

(** ** Query building blocks shared by the readers *)

(** Python truthiness of an optional string argument ([if pair:]). *)
Definition truthy (a : option string) : bool :=
  match a with
  | Some (String _ _) => true
  | _ => false
  end.

(** [AND column = ?], added only when the argument is truthy. *)
Definition eq_filter (arg : option string) (column : string) : bool :=
  match arg with
  | Some (String c r) => String.eqb column (String c r)
  | _ => true
  end.

(** [AND timestamp >= ?] / [AND timestamp <= ?] *)
Definition in_date_range (start_date end_date : option Z) (ts : Z) : bool :=
  (match start_date with
   | Some d => 86400 * d <=? ts
   | None => true
   end)
  &&
  (match end_date with
   | Some d => ts <=? 86400 * d + 86399
   | None => true
   end).

(** [if limit: query += " LIMIT ?"]; SQLite reads a negative LIMIT as no
    limit. *)
Definition apply_limit {A} (limit : option Z) (l : list A) : list A :=
  match limit with
  | None => l
  | Some n => if n =? 0 then l
              else if n <? 0 then l
              else firstn (Z.to_nat n) l
  end.

(** [cursor.execute(query, params)] for a SELECT, followed by the fetch: one
    call into the storage layer, answered from the connection's view. *)
Definition cursor_execute_select {A} (table : string)
           (sel : database -> list A) : M (list A) :=
  storage_call (EvSelect table) ;;
  w <- gets work ;;
  ret (sel w).

(** [pd.read_sql_query(query, self.conn, params)]: pandas runs the SELECT
    and, when it raises, rolls the connection back and raises its own
    [DatabaseError] from the cause. *)
Definition read_sql_query {A} (table : string) (sel : database -> list A)
  : M (list A) :=
  try_except
    (storage_call (EvSelect table))
    (fun e => conn_rollback ;; raise (DatabaseError e)) ;;
  w <- gets work ;;
  ret (sel w).

(** ** get_trades *)

Definition where_trades (pair action : option string)
           (start_date end_date : option Z) (r : trade) : bool :=
  eq_filter pair (t_pair r) && eq_filter action (t_action r)
  && in_date_range start_date end_date (t_timestamp r).

(** The plan for a query on trades: through the index on [pair] when a pair
    is given, else along the index on [timestamp]. *)
Definition trades_plan (pair : option string) : plan :=
  if truthy pair then TempBTree else IndexBackwards.

Definition select_trades (pair action : option string)
           (start_date end_date : option Z) (limit : option Z)
           (d : database) : list trade :=
  apply_limit limit
    (order_by_timestamp_desc (trades_plan pair) t_timestamp
       (filter (where_trades pair action start_date end_date) (trades d))).

(** A row of the returned frame: the stored columns and the derived
    [cumulative_net_profit]. *)
Record trade_view := mkTradeView {
  tv_trade : trade;
  cumulative_net_profit : Z
}.

Definition tv_timestamp (v : trade_view) : Z := t_timestamp (tv_trade v).

Definition fillna0 (x : option Z) : Z :=
  match x with
  | Some z => z
  | None => 0
  end.

Fixpoint cumsum_from (acc : Z) (l : list Z) : list Z :=
  match l with
  | [] => []
  | x :: r => (acc + x) :: cumsum_from (acc + x) r
  end.

Definition cumsum (l : list Z) : list Z := cumsum_from 0 l.

(** [df_sorted['cumulative_net_profit'] =
      df_sorted['net_profit'].fillna(0).cumsum()] *)
Definition with_cumulative (df_sorted : list trade) : list trade_view :=
  map (fun p => mkTradeView (fst p) (snd p))
      (combine df_sorted (cumsum (map (fun r => fillna0 (t_net_profit r))
                                      df_sorted))).

(** The part of [get_trades] after the query: sort oldest first, attach the
    running total, sort back newest first.  An empty frame is returned as it
    is. *)
Definition cumulative_frame (df : list trade) : list trade_view :=
  match df with
  | [] => []
  | _ =>
      let df_sorted := sort_values t_timestamp true df in
      sort_values tv_timestamp false (with_cumulative df_sorted)
  end.

(** The [try] block of [get_trades]. *)
Definition get_trades_try (pair action : option string)
           (start_date end_date : option Z) (limit : option Z)
  : M (list trade_view) :=
  ensure_connection ;;
  df <- read_sql_query "trades"
          (select_trades pair action start_date end_date limit) ;;
  ret (cumulative_frame df).

Definition get_trades (pair action : option string)
           (start_date end_date : option Z) (limit : option Z)
  : M (list trade_view) :=
  try_except
    (get_trades_try pair action start_date end_date limit)
    (fun _ => ret []).

(** ** Serialising the active-pair list *)

Definition comma : ascii := ","%char.

(** [','.join(l)] *)
Fixpoint join_comma (l : list string) : string :=
  match l with
  | [] => ""
  | [x] => x
  | x :: r => (x ++ String comma (join_comma r))%string
  end.

(** [s.split(',')] *)
Fixpoint split_comma (s : string) : list string :=
  match s with
  | EmptyString => [""]
  | String c r =>
      if Ascii.eqb c comma then "" :: split_comma r
      else match split_comma r with
           | h :: t => String c h :: t
           | [] => [String c ""]
           end
  end.

(** The [active_pairs] argument of [log_bot_status]: a list of symbols, or
    any other object, of which only its truth value and its [str()] are
    used. *)
Inductive py_pairs :=
| PyList (l : list string)
| PyOther (truth : bool) (str : string).

Definition pairs_truthy (a : option py_pairs) : bool :=
  match a with
  | None => false
  | Some (PyList []) => false
  | Some (PyList (_ :: _)) => true
  | Some (PyOther t _) => t
  end.

Definition active_pairs_str (active_pairs : option py_pairs)
  : option string :=
  if pairs_truthy active_pairs then
    match active_pairs with
    | Some (PyList l) => Some (join_comma l)
    | Some (PyOther _ s) => Some s
    | None => None
    end
  else None.

(** ** log_bot_status *)

Definition insert_bot_status (timestamp : Z) (status : string)
           (account_value : option Z) (active_pairs message : option string)
           (created_at : Z) (d : database) : database * Z :=
  let rowid := seq_bot_status d + 1 in
  (mkDatabase
     (trades d) (market_scans d)
     (bot_status d ++ [mkStatus rowid timestamp status account_value
                                active_pairs message created_at])
     (seq_trades d) (seq_market_scans d) rowid,
   rowid).

Definition log_bot_status (status : string) (account_value : option Z)
           (active_pairs : option py_pairs) (message : option string) : M Z :=
  try_except
    (ensure_connection ;;
     timestamp <- utcnow ;;
     status_id <- cursor_execute_insert "bot_status"
                    (insert_bot_status timestamp status account_value
                                       (active_pairs_str active_pairs)
                                       message timestamp) ;;
     conn_commit ;;
     ret status_id)
    rollback_and_reraise.

(** ** get_bot_status / get_latest_status *)

Definition where_bot_status (status : option string)
           (start_date end_date : option Z) (r : bot_status_row) : bool :=
  eq_filter status (b_status r)
  && in_date_range start_date end_date (b_timestamp r).

Definition select_bot_status (status : option string)
           (start_date end_date : option Z) (limit : option Z)
           (d : database) : list bot_status_row :=
  apply_limit limit
    (order_by_timestamp_desc TempBTree b_timestamp
       (filter (where_bot_status status start_date end_date) (bot_status d))).

(** [parse_active_pairs] of [get_bot_status]:
    [if pd.isna(pairs_str) or not pairs_str: return []] *)
Definition parse_active_pairs (pairs_str : option string) : list string :=
  match pairs_str with
  | None => []
  | Some EmptyString => []
  | Some s => split_comma s
  end.

Record status_view := mkStatusView {
  stv_row : bot_status_row;
  active_pairs_list : list string
}.

(** The [try] block of [get_bot_status]. *)
Definition get_bot_status_try (status : option string)
           (start_date end_date : option Z) (limit : option Z)
  : M (list status_view) :=
  ensure_connection ;;
  df <- read_sql_query "bot_status"
          (select_bot_status status start_date end_date limit) ;;
  ret (map (fun r => mkStatusView r (parse_active_pairs (b_active_pairs r)))
           df).

Definition get_bot_status (status : option string)
           (start_date end_date : option Z) (limit : option Z)
  : M (list status_view) :=
  try_except
    (get_bot_status_try status start_date end_date limit)
    (fun _ => ret []).

(** [SELECT * FROM bot_status ORDER BY timestamp DESC LIMIT 1] and
    [cursor.fetchone()] *)
Definition select_latest_status (d : database) : list bot_status_row :=
  firstn 1 (order_by_timestamp_desc TempBTree b_timestamp (bot_status d)).

(** [if status_dict.get('active_pairs'): ... split(',') else: []] *)
Definition latest_active_pairs_list (active_pairs : option string)
  : list string :=
  if truthy active_pairs
  then match active_pairs with
       | Some s => split_comma s
       | None => []
       end
  else [].

(** What [get_latest_status] makes of [cursor.fetchone()]. *)
Definition latest_status_of (rows : list bot_status_row)
  : option status_view :=
  match rows with
  | result :: _ =>
      Some (mkStatusView result
              (latest_active_pairs_list (b_active_pairs result)))
  | [] => None
  end.

(** The [try] block of [get_latest_status]. *)
Definition get_latest_status_try : M (option status_view) :=
  ensure_connection ;;
  rows <- cursor_execute_select "bot_status" select_latest_status ;;
  ret (latest_status_of rows).

Definition get_latest_status : M (option status_view) :=
  try_except get_latest_status_try (fun _ => ret None).

(** ** Market scans, CSV import and the registry

    [json.dumps], [json.loads] and [pd.to_datetime] are library functions;
    the module is modelled for any behaviour of them.  [json_loads] and
    [to_datetime] answer [None] where the Python function raises. *)

(** The [indicators] argument: a dict from indicator name to a number or a
    text, in insertion order. *)
Inductive indicator_value :=
| IndNumber (z : Z)
| IndText (s : string).

Definition indicators := list (string * indicator_value).

(** The ['indicators'] entry of the dict returned by [get_latest_scan]: the
    stored value as it is ([None] or a text) unless it was parsed. *)
Inductive indicators_field :=
| FieldNone
| FieldText (s : string)
| FieldDict (d : indicators).

Record scan_view := mkScanView {
  sv_row : market_scan;
  indicators_dict : indicators
}.

Record scan_dict := mkScanDict {
  sd_row : market_scan;
  sd_indicators : indicators_field
}.

(** A record of the frame read from a CSV file.  Cells are taken to have the
    type of their column; an empty cell (NaN) is [None].  The field of a
    column that the file does not have is never looked at. *)
Record csv_record := mkCsvRecord {
  c_timestamp : string;
  c_pair : option string;
  c_action : option string;
  c_price : option Z;
  c_quantity : option Z;
  c_profit : option Z;
  c_net_profit : option Z;
  c_profit_pct : option Z;
  c_order_id : option string;
  c_strategy : option string
}.

Record csv_frame := mkCsvFrame {
  columns : list string;
  records : list csv_record
}.

Definition has_column (df_columns : list string) (col : string) : bool :=
  existsb (String.eqb col) df_columns.

Definition required_columns : list string :=
  ["timestamp"; "pair"; "action"; "price"; "quantity"].

Definition optional_columns : list string :=
  ["net_profit"; "profit_pct"; "order_id"; "strategy"].

(** What the operating system offers to a new [TradingDatabase]. *)
Record os_env := mkEnv {
  cwd : string;
  files : string -> database;
  os_clock : Z;
  os_faults : list (option exn)
}.

(** A Python object reference: the identity of the object and its state. *)
Record handle := mkHandle {
  h_id : nat;
  h_store : store
}.

(** The interpreter state around [get_db]: the module global
    [_db_instance], the environment and the next free object identity. *)
Record process := mkProcess {
  _db_instance : option handle;
  env : os_env;
  next_object : nat
}.

Section Library.
Variable json_dumps : indicators -> string.
Variable json_loads : string -> option indicators.
Variable to_datetime : string -> option Z.

(** *** log_market_scan *)

(** [indicators_str = None; if indicators: indicators_str = json.dumps(..)] *)
Definition indicators_str (ind : option indicators) : option string :=
  match ind with
  | Some (e :: d) => Some (json_dumps (e :: d))
  | _ => None
  end.

Definition insert_market_scan (timestamp : Z) (pair signal : string)
           (price : Z) (strategy interval ind : option string)
           (created_at : Z) (d : database) : database * Z :=
  let rowid := seq_market_scans d + 1 in
  (mkDatabase
     (trades d)
     (market_scans d ++ [mkScan rowid timestamp pair signal price strategy
                                interval ind created_at])
     (bot_status d)
     (seq_trades d) rowid (seq_bot_status d),
   rowid).

Definition log_market_scan (pair signal : string) (price : Z)
           (strategy interval : option string) (ind : option indicators)
  : M Z :=
  try_except
    (ensure_connection ;;
     timestamp <- utcnow ;;
     scan_id <- cursor_execute_insert "market_scans"
                  (insert_market_scan timestamp pair signal price strategy
                                      interval (indicators_str ind)
                                      timestamp) ;;
     conn_commit ;;
     ret scan_id)
    rollback_and_reraise.

(** *** get_market_scans / get_latest_scan *)

Definition where_market_scans (pair signal : option string)
           (start_date end_date : option Z) (r : market_scan) : bool :=
  eq_filter pair (s_pair r) && eq_filter signal (s_signal r)
  && in_date_range start_date end_date (s_timestamp r).

Definition select_market_scans (pair signal : option string)
           (start_date end_date : option Z) (limit : option Z)
           (d : database) : list market_scan :=
  apply_limit limit
    (order_by_timestamp_desc IndexBackwards s_timestamp
       (filter (where_market_scans pair signal start_date end_date)
               (market_scans d))).

(** [parse_indicators] of [get_market_scans] *)
Definition parse_indicators (ind : option string) : indicators :=
  match ind with
  | None => []
  | Some EmptyString => []
  | Some s => match json_loads s with
              | Some d => d
              | None => []
              end
  end.

(** The [try] block of [get_market_scans]. *)
Definition get_market_scans_try (pair signal : option string)
           (start_date end_date : option Z) (limit : option Z)
  : M (list scan_view) :=
  ensure_connection ;;
  df <- read_sql_query "market_scans"
          (select_market_scans pair signal start_date end_date limit) ;;
  ret (map (fun r => mkScanView r (parse_indicators (s_indicators r))) df).

Definition get_market_scans (pair signal : option string)
           (start_date end_date : option Z) (limit : option Z)
  : M (list scan_view) :=
  try_except
    (get_market_scans_try pair signal start_date end_date limit)
    (fun _ => ret []).

(** [SELECT * FROM market_scans [WHERE pair = ?]
     ORDER BY timestamp DESC LIMIT 1] *)
Definition select_latest_scan (pair : option string) (d : database)
  : list market_scan :=
  firstn 1
    (order_by_timestamp_desc IndexBackwards s_timestamp
       (filter (fun r => eq_filter pair (s_pair r)) (market_scans d))).

(** [if scan_dict.get('indicators'):] parse it, an unparsable text giving
    the empty dict; a NULL or empty text is left as it is. *)
Definition latest_indicators (ind : option string) : indicators_field :=
  match ind with
  | None => FieldNone
  | Some EmptyString => FieldText ""
  | Some s => match json_loads s with
              | Some d => FieldDict d
              | None => FieldDict []
              end
  end.

(** What [get_latest_scan] makes of [cursor.fetchone()]. *)
Definition latest_scan_of (rows : list market_scan) : option scan_dict :=
  match rows with
  | result :: _ =>
      Some (mkScanDict result (latest_indicators (s_indicators result)))
  | [] => None
  end.

(** The [try] block of [get_latest_scan]. *)
Definition get_latest_scan_try (pair : option string)
  : M (option scan_dict) :=
  ensure_connection ;;
  rows <- cursor_execute_select "market_scans" (select_latest_scan pair) ;;
  ret (latest_scan_of rows).

Definition get_latest_scan (pair : option string) : M (option scan_dict) :=
  try_except (get_latest_scan_try pair) (fun _ => ret None).

(** *** import_from_csv *)

(** [df['timestamp'] = pd.to_datetime(df['timestamp'])] *)
Fixpoint convert_timestamps (rs : list csv_record)
  : option (list (Z * csv_record)) :=
  match rs with
  | [] => Some []
  | r :: rest =>
      match to_datetime (c_timestamp r), convert_timestamps rest with
      | Some t, Some out => Some ((t, r) :: out)
      | _, _ => None
      end
  end.

(** The net profit a record contributes: the ['profit'] column, when the
    file has one, is copied over ['net_profit']. *)
Definition record_net_profit (df_columns : list string) (r : csv_record)
  : option Z :=
  if has_column df_columns "profit" then c_profit r else c_net_profit r.

Definition mapped_columns (df_columns : list string) : list string :=
  if has_column df_columns "profit" && negb (has_column df_columns "net_profit")
  then df_columns ++ ["net_profit"]
  else df_columns.

(** The value bound for an optional column: [record.get(col)] when the
    column is part of the INSERT, NULL otherwise. *)
Definition optional_value {V} (cols : list string) (col : string)
           (v : option V) : option V :=
  if has_column cols col then v else None.

(** One [cursor.execute(query, values)] of the import loop.  The four
    NOT NULL columns reject an empty cell. *)
Definition insert_record (df_columns cols : list string) (created_at : Z)
           (tr : Z * csv_record) : M Z :=
  let (ts, r) := tr in
  match c_pair r, c_action r, c_price r, c_quantity r with
  | Some pair_, Some action, Some price, Some quantity =>
      cursor_execute_insert "trades"
        (insert_trade ts pair_ action price quantity
           (optional_value cols "net_profit" (record_net_profit df_columns r))
           (optional_value cols "profit_pct" (c_profit_pct r))
           (optional_value cols "order_id" (c_order_id r))
           (optional_value cols "strategy" (c_strategy r))
           created_at)
  | _, _, _, _ =>
      storage_call (EvInsert "trades") ;;
      raise (IntegrityError "NOT NULL constraint failed")
  end.

Fixpoint insert_records (df_columns cols : list string) (created_at : Z)
         (rs : list (Z * csv_record)) (count : Z) : M Z :=
  match rs with
  | [] => ret count
  | r :: rest =>
      insert_record df_columns cols created_at r ;;
      insert_records df_columns cols created_at rest (count + 1)
  end.

(** The [try] block of [import_from_csv].  [csv_file] stands for the frame
    that [pd.read_csv] builds from the file at that path. *)
Definition import_from_csv_try (csv_file : csv_frame) : M Z :=
  ensure_connection ;;
  storage_call EvReadCsv ;;
  let df := csv_file in
  if forallb (has_column (columns df)) required_columns then
    match convert_timestamps (records df) with
    | None => raise (ValueError "unknown datetime string format")
    | Some recs =>
        let df_columns := mapped_columns (columns df) in
        created_at <- utcnow ;;
        let cols :=
          ["timestamp"; "pair"; "action"; "price"; "quantity"; "created_at"]
          ++ filter (has_column df_columns) optional_columns in
        count <- insert_records df_columns cols created_at recs 0 ;;
        conn_commit ;;
        ret count
    end
  else ret 0.

Definition import_from_csv (csv_file : csv_frame) : M Z :=
  try_except
    (import_from_csv_try csv_file)
    (fun _ =>
       c <- gets conn ;;
       (if c then conn_rollback else ret tt) ;;
       ret 0).

(** *** The operations as data *)

Inductive write_op :=
| LogTrade (pair action : string) (price quantity : Z)
           (net_profit profit_pct : option Z)
           (order_id strategy : option string)
| LogMarketScan (pair signal : string) (price : Z)
                (strategy interval : option string) (ind : option indicators)
| LogBotStatus (status : string) (account_value : option Z)
               (active_pairs : option py_pairs) (message : option string).

Definition run_write (op : write_op) : M Z :=
  match op with
  | LogTrade p a pr q np pp oi st => log_trade p a pr q np pp oi st
  | LogMarketScan p sg pr st iv ind => log_market_scan p sg pr st iv ind
  | LogBotStatus st av ap msg => log_bot_status st av ap msg
  end.

(** The table an operation writes to, and the rows it holds. *)
Definition write_table (op : write_op) : string :=
  match op with
  | LogTrade _ _ _ _ _ _ _ _ => "trades"
  | LogMarketScan _ _ _ _ _ _ => "market_scans"
  | LogBotStatus _ _ _ _ => "bot_status"
  end.

(** The INSERT an operation executes at time [now]. *)
Definition write_insert (op : write_op) (now : Z)
  : database -> database * Z :=
  match op with
  | LogTrade p a pr q np pp oi st =>
      insert_trade now p a pr q np pp oi st now
  | LogMarketScan p sg pr st iv ind =>
      insert_market_scan now p sg pr st iv (indicators_str ind) now
  | LogBotStatus st av ap msg =>
      insert_bot_status now st av (active_pairs_str ap) msg now
  end.

Inductive read_op :=
| GetTrades (pair action : option string) (start_date end_date : option Z)
            (limit : option Z)
| GetMarketScans (pair signal : option string)
                 (start_date end_date : option Z) (limit : option Z)
| GetBotStatus (status : option string) (start_date end_date : option Z)
               (limit : option Z)
| GetLatestScan (pair : option string)
| GetLatestStatus.

Inductive read_result :=
| TradesFrame (df : list trade_view)
| ScansFrame (df : list scan_view)
| StatusFrame (df : list status_view)
| LatestScan (d : option scan_dict)
| LatestStatus (d : option status_view).

Definition run_read (op : read_op) : M read_result :=
  match op with
  | GetTrades p a sd ed l =>
      df <- get_trades p a sd ed l ;; ret (TradesFrame df)
  | GetMarketScans p sg sd ed l =>
      df <- get_market_scans p sg sd ed l ;; ret (ScansFrame df)
  | GetBotStatus st sd ed l =>
      df <- get_bot_status st sd ed l ;; ret (StatusFrame df)
  | GetLatestScan p =>
      d <- get_latest_scan p ;; ret (LatestScan d)
  | GetLatestStatus =>
      d <- get_latest_status ;; ret (LatestStatus d)
  end.

(** The [try] block of each reader. *)
Definition run_read_try (op : read_op) : M read_result :=
  match op with
  | GetTrades p a sd ed l =>
      df <- get_trades_try p a sd ed l ;; ret (TradesFrame df)
  | GetMarketScans p sg sd ed l =>
      df <- get_market_scans_try p sg sd ed l ;; ret (ScansFrame df)
  | GetBotStatus st sd ed l =>
      df <- get_bot_status_try st sd ed l ;; ret (StatusFrame df)
  | GetLatestScan p =>
      d <- get_latest_scan_try p ;; ret (LatestScan d)
  | GetLatestStatus =>
      d <- get_latest_status_try ;; ret (LatestStatus d)
  end.

Definition read_table (op : read_op) : string :=
  match op with
  | GetTrades _ _ _ _ _ => "trades"
  | GetMarketScans _ _ _ _ _ | GetLatestScan _ => "market_scans"
  | GetBotStatus _ _ _ _ | GetLatestStatus => "bot_status"
  end.

(** The answer of a reader whose [except] branch ran: [pd.DataFrame()] or
    [None]. *)
Definition empty_result (op : read_op) : read_result :=
  match op with
  | GetTrades _ _ _ _ _ => TradesFrame []
  | GetMarketScans _ _ _ _ _ => ScansFrame []
  | GetBotStatus _ _ _ _ => StatusFrame []
  | GetLatestScan _ => LatestScan None
  | GetLatestStatus => LatestStatus None
  end.

End Library.

(** ** TradingDatabase.__init__ and get_db *)

(** [os.path.join(os.getcwd(), "trading_bot.db")] *)
Definition default_db_file (e : os_env) : string :=
  (cwd e ++ "/trading_bot.db")%string.

(** [TradingDatabase(db_file)]: the object starts without a connection on the
    file it names, then connects and creates the tables; a failure of either
    is raised to the caller. *)
Definition TradingDatabase_init (e : os_env) (db_file : option string)
  : result unit * store :=
  let path := match db_file with
              | None => default_db_file e
              | Some p => p
              end in
  try_except (connect ;; create_tables) (fun ex => raise ex)
    (mkStore path false (files e path) (files e path) (os_clock e)
             (os_faults e) []).

Definition set_os_faults (f : list (option exn)) (e : os_env) : os_env :=
  mkEnv (cwd e) (files e) (os_clock e) f.

Definition get_db (db_file : option string) (p : process)
  : result handle * process :=
  match _db_instance p with
  | Some h => (Ok h, p)
  | None =>
      match TradingDatabase_init (env p) db_file with
      | (Ok _, s) =>
          let h := mkHandle (next_object p) s in
          (Ok h, mkProcess (Some h) (set_os_faults (faults s) (env p))
                           (S (next_object p)))
      | (Raise ex, s) =>
          (Raise ex, mkProcess None (set_os_faults (faults s) (env p))
                               (S (next_object p)))
      end
  end.

(** * Vocabulary of the statements *)

(** Keys never decrease from [a] to [b]. *)
Definition key_le {A} (key : A -> Z) (a b : A) : Prop := key a <= key b.

(** Newest first: timestamps never increase along the list. *)
Definition newest_first {A} (timestamp : A -> Z) : list A -> Prop :=
  StronglySorted (fun a b => timestamp b <= timestamp a).

(** Oldest first: timestamps never decrease along the list. *)
Definition oldest_first {A} (timestamp : A -> Z) : list A -> Prop :=
  StronglySorted (fun a b => timestamp a <= timestamp b).

(** The prefix sum the specification speaks of: the sum of the net profits,
    an absent one counting as zero, of the first [i + 1] rows of [rows]. *)
Definition prefix_sum (rows : list trade) (i : nat) : Z :=
  fold_right Z.add 0
    (map (fun r => fillna0 (t_net_profit r)) (firstn (S i) rows)).

(** The storage layer fails on none of the calls to come. *)
Definition fault_free (fs : list (option exn)) : Prop :=
  Forall (fun f => f = None) fs.

(** No transaction is open: the connection's view is the committed
    content. *)
Definition consistent (s : store) : Prop := work s = disk s.

(** A result-count cap is in force: [limit] is a positive number. *)
Definition capped (limit : option Z) : bool :=
  match limit with
  | Some n => 0 <? n
  | None => false
  end.

(** The row [log_trade] writes at time [now] under identifier [rowid]. *)
Definition logged_trade (rowid now : Z) (pair action : string)
           (price quantity : Z) (net_profit profit_pct : option Z)
           (order_id strategy : option string) : trade :=
  mkTrade rowid now pair action price quantity net_profit profit_pct
          order_id strategy now.

(** The row [log_market_scan] writes at time [now] under identifier
    [rowid], with [ind] in the [indicators] column. *)
Definition logged_scan (rowid now : Z) (pair signal : string) (price : Z)
           (strategy interval ind : option string) : market_scan :=
  mkScan rowid now pair signal price strategy interval ind now.

(** The row [log_bot_status] writes at time [now] under identifier [rowid],
    with [pairs] in the [active_pairs] column. *)
Definition logged_status (rowid now : Z) (status : string)
           (account_value : option Z) (pairs message : option string)
  : bot_status_row :=
  mkStatus rowid now status account_value pairs message now.

(** The shape all five SELECTs share: the rows of [tbl] that pass [f],
    newest first in the order of plan [p], cut to [limit]. *)
Definition query_rows {A} (p : plan) (ts : A -> Z) (f : A -> bool)
           (limit : option Z) (tbl : list A) : list A :=
  apply_limit limit (order_by_timestamp_desc p ts (filter f tbl)).

(** The first fault waiting in the environment, if any. *)
Fixpoint first_fault (fs : list (option exn)) : option exn :=
  match fs with
  | [] => None
  | Some e :: _ => Some e
  | None :: r => first_fault r
  end.

(** [ev] is an INSERT sent to [table]. *)
Definition is_insert (table : string) (ev : event) : bool :=
  event_eqb (EvInsert table) ev.

(** Number of INSERT statements sent to [table] among [evs]. *)
Definition inserts_in (table : string) (evs : list event) : nat :=
  List.length (filter (is_insert table) evs).

(** The symbol contains the delimiter of the stored list. *)
Fixpoint has_comma (s : string) : bool :=
  match s with
  | EmptyString => false
  | String c r => Ascii.eqb c comma || has_comma r
  end.

(** No symbol of the list contains the delimiter. *)
Definition comma_free (l : list string) : bool :=
  forallb (fun x => negb (has_comma x)) l.

(** ** Concrete stores, files and processes *)

(** A toy JSON codec, enough to run the scan operations. *)
Definition sample_dumps (d : indicators) : string := "{...}".

Definition sample_loads (s : string) : option indicators :=
  if String.eqb s "{...}" then Some [("rsi", IndNumber 30)] else None.

Definition sample_datetime (s : string) : option Z :=
  if String.eqb s "2023-11-14 22:13:20" then Some 1700000000 else None.

(** A new store, connected, whose storage layer does not fail. *)
Definition fresh_store : store :=
  mkStore "trading_bot.db" true empty_database empty_database 1700000000 [] [].

Definition eth_trade : trade :=
  mkTrade 1 1699990000 "ETHUSDT" "BUY" 2000 3 None None None None 1699990000.

Definition btc_trade_1 : trade :=
  mkTrade 1 1699990000 "BTCUSDT" "BUY" 50000 1 (Some 5) None None
          (Some "TEST") 1699990000.

Definition btc_trade_2 : trade :=
  mkTrade 2 1699995000 "BTCUSDT" "SELL" 51000 1 (Some 7) None None
          (Some "TEST") 1699995000.

(** A closed handle on a file that holds one ETHUSDT trade. *)
Definition eth_store : store :=
  let d := mkDatabase [eth_trade] [] [] 1 0 0 in
  mkStore "trading_bot.db" false d d 1700000000 [None; None] [].

(** A connected handle on a file that holds one BTCUSDT trade. *)
Definition btc_store : store :=
  let d := mkDatabase [btc_trade_1] [] [] 1 0 0 in
  mkStore "trading_bot.db" true d d 1700000000 [] [].

(** A connected handle on a file that holds two BTCUSDT trades. *)
Definition two_trades_store : store :=
  let d := mkDatabase [btc_trade_1; btc_trade_2] [] [] 2 0 0 in
  mkStore "trading_bot.db" true d d 1700000000 [] [].

(** A closed handle whose third storage call, the INSERT, will fail once. *)
Definition flaky_store : store :=
  mkStore "trading_bot.db" false empty_database empty_database 1700000000
          [None; None; Some (SqliteError "database is locked")] [].

(** A connected handle whose next storage call fails. *)
Definition failing_store : store :=
  let d := mkDatabase [btc_trade_1] [] [] 1 0 0 in
  mkStore "trading_bot.db" true d d 1700000000
          [Some (SqliteError "disk I/O error")] [].

(** A file without the [price] column. *)
Definition csv_without_price : csv_frame :=
  mkCsvFrame
    ["timestamp"; "pair"; "action"; "quantity"]
    [mkCsvRecord "2023-11-14 22:13:20" (Some "BTCUSDT") (Some "BUY") None
                 (Some 1) None None None None None].

(** A process that has not created its store yet. *)
Definition new_process : process :=
  mkProcess None
            (mkEnv "/home/bot" (fun _ => empty_database) 1700000000 [])
            0.

(** ** Readings of the claims that the code does not meet *)

(** The reading of C2 under which the running total ranges over all the
    trades matching the filters, whatever the cap. *)
Definition cumulative_over_filtered_set (pair action : option string)
           (start_date end_date limit : option Z) (s : store) : Prop :=
  forall views s',
    get_trades pair action start_date end_date limit s = (Ok views, s') ->
    let asc := sort_values t_timestamp true
                 (filter (where_trades pair action start_date end_date)
                         (trades (work s'))) in
    forall v, In v views ->
              exists i, nth_error asc i = Some (tv_trade v)
                        /\ cumulative_net_profit v = prefix_sum asc i.

(** The reading of C3 under which a failed write is retried once: the call
    raises only after two failures of the storage layer. *)
Definition raises_only_on_second_failure (write : M Z) (s : store) : Prop :=
  forall e,
    fst (write s) = Raise e ->
    (2 <= List.length (filter (fun f => match f with
                                        | Some _ => true
                                        | None => false
                                        end)
                              (faults s)))%nat.

(** The reading of C4 under which a list is either rejected or read back as
    it was written. *)
Definition rejected_or_lossless (l : list string) (s : store) : Prop :=
  match log_bot_status "RUNNING" None (Some (PyList l)) None s with
  | (Raise _, _) => True
  | (Ok _, s1) =>
      exists row s2,
        get_latest_status s1 = (Ok (Some (mkStatusView row l)), s2)
  end.

(** The reading of C9 under which [get_latest_scan] too gives back an empty
    mapping for a scan logged with an empty one. *)
Definition latest_scan_recovers_empty_mapping (s : store) : Prop :=
  exists row s2,
    get_latest_scan sample_loads (Some "BTCUSDT")
      (snd (log_market_scan sample_dumps "BTCUSDT" "HOLD" 50000 None None
                            (Some []) s))
    = (Ok (Some (mkScanDict row (FieldDict []))), s2).

(** ** Vocabulary of the further properties *)

(** The net profit of a list of trades, an absent one counting as zero. *)
Definition net_profit_sum (rows : list trade) : Z :=
  fold_right Z.add 0 (map (fun r => fillna0 (t_net_profit r)) rows).

(** The events a reader may send to the storage layer: opening the
    connection, a SELECT on its table, and the rollback pandas issues when
    that SELECT fails. *)
Definition read_only_event (table : string) (ev : event) : Prop :=
  ev = EvConnect \/ ev = EvPragma \/ ev = EvSelect table \/ ev = EvRollback.

(** The readers that go through [pd.read_sql_query]; the two latest-of-type
    queries use a cursor of their own. *)
Definition frame_reader (op : read_op) : bool :=
  match op with
  | GetTrades _ _ _ _ _ | GetMarketScans _ _ _ _ _ | GetBotStatus _ _ _ _ =>
      true
  | GetLatestScan _ | GetLatestStatus => false
  end.

(** The calls [TradingDatabase.__init__] makes when nothing fails. *)
Definition init_trace : list event :=
  [EvConnect; EvPragma; EvDDL; EvDDL; EvDDL; EvDDL; EvDDL; EvDDL; EvCommit].

(** The location a new handle is bound to. *)
Definition chosen_db_file (e : os_env) (db_file : option string) : string :=
  match db_file with
  | None => default_db_file e
  | Some f => f
  end.

(** A process whose storage refuses the first connection. *)
Definition unlucky_process : process :=
  mkProcess None
            (mkEnv "/home/bot" (fun _ => empty_database) 1700000000
                   [Some (SqliteError "unable to open database file")])
            0.

(** A connected handle on a file with three scans, two of them on BTCUSDT,
    and two status records. *)
Definition scan_btc_old : market_scan :=
  mkScan 1 1699990000 "BTCUSDT" "HOLD" 50000 (Some "TEST") (Some "1h") None
         1699990000.

Definition scan_eth : market_scan :=
  mkScan 2 1699999000 "ETHUSDT" "BUY" 2000 (Some "TEST") (Some "1h") None
         1699999000.

Definition scan_btc_new : market_scan :=
  mkScan 3 1699995000 "BTCUSDT" "BUY" 51000 (Some "TEST") (Some "1h")
         (Some "{...}") 1699995000.

Definition status_started : bot_status_row :=
  mkStatus 1 1699990000 "STARTED" (Some 10000) (Some "BTCUSDT,ETHUSDT") None
           1699990000.

Definition status_running : bot_status_row :=
  mkStatus 2 1699995000 "RUNNING" (Some 10100) None (Some "ok") 1699995000.

Definition scans_store : store :=
  let d := mkDatabase [btc_trade_1; btc_trade_2]
                      [scan_btc_old; scan_eth; scan_btc_new]
                      [status_started; status_running] 2 3 2 in
  mkStore "trading_bot.db" true d d 1700000000 [] [].

(** The identifiers in use in the table an operation writes to. *)
Definition table_ids (op : write_op) (d : database) : list Z :=
  match op with
  | LogTrade _ _ _ _ _ _ _ _ => map t_id (trades d)
  | LogMarketScan _ _ _ _ _ _ => map s_id (market_scans d)
  | LogBotStatus _ _ _ _ => map b_id (bot_status d)
  end.

(** No identifier in use exceeds the AUTOINCREMENT counter of its table. *)
Definition ids_within_counters (d : database) : Prop :=
  Forall (fun i => i <= seq_trades d) (map t_id (trades d))
  /\ Forall (fun i => i <= seq_market_scans d) (map s_id (market_scans d))
  /\ Forall (fun i => i <= seq_bot_status d) (map b_id (bot_status d)).

(** The rows of the three tables that were there before are still there, in
    place: [old] is [new] without the rows appended at the end. *)
Definition appended_only (old new : database) : Prop :=
  (exists rows, trades new = trades old ++ rows)
  /\ (exists rows, market_scans new = market_scans old ++ rows)
  /\ (exists rows, bot_status new = bot_status old ++ rows).

(** [d] with [rows] appended to the trades table and the counter moved on by
    their number. *)
Definition append_trades (rows : list trade) (d : database) : database :=
  mkDatabase (trades d ++ rows) (market_scans d) (bot_status d)
             (seq_trades d + Z.of_nat (List.length rows))
             (seq_market_scans d) (seq_bot_status d).

(** The column list of the INSERT that [import_from_csv] builds. *)
Definition import_columns (df_columns : list string) : list string :=
  ["timestamp"; "pair"; "action"; "price"; "quantity"; "created_at"]
  ++ filter (has_column df_columns) optional_columns.

(** The trade a record of the file becomes under identifier [rowid], when
    none of its four NOT NULL cells is empty. *)
Definition imported_trade (df_columns : list string) (created_at rowid : Z)
           (tr : Z * csv_record) : option trade :=
  let cols := import_columns df_columns in
  match c_pair (snd tr), c_action (snd tr), c_price (snd tr),
        c_quantity (snd tr) with
  | Some p, Some a, Some pr, Some q =>
      Some (mkTrade rowid (fst tr) p a pr q
              (optional_value cols "net_profit"
                 (record_net_profit df_columns (snd tr)))
              (optional_value cols "profit_pct" (c_profit_pct (snd tr)))
              (optional_value cols "order_id" (c_order_id (snd tr)))
              (optional_value cols "strategy" (c_strategy (snd tr)))
              created_at)
  | _, _, _, _ => None
  end.

(** The trades the records of a file become, in the order of the file, under
    consecutive identifiers from [rowid] on. *)
Fixpoint imported_trades (df_columns : list string) (created_at rowid : Z)
         (rs : list (Z * csv_record)) : option (list trade) :=
  match rs with
  | [] => Some []
  | tr :: rest =>
      match imported_trade df_columns created_at rowid tr,
            imported_trades df_columns created_at (rowid + 1) rest with
      | Some row, Some rows => Some (row :: rows)
      | _, _ => None
      end
  end.

(** A file with two complete records and a [profit] column. *)
Definition csv_two_trades : csv_frame :=
  mkCsvFrame
    ["timestamp"; "pair"; "action"; "price"; "quantity"; "profit"]
    [mkCsvRecord "2023-11-14 22:13:20" (Some "BTCUSDT") (Some "BUY")
                 (Some 50000) (Some 1) None None None None None;
     mkCsvRecord "2023-11-14 22:13:20" (Some "BTCUSDT") (Some "SELL")
                 (Some 51000) (Some 1) (Some 7) None None None None].

(** A file whose second record has no price. *)
Definition csv_with_gap : csv_frame :=
  mkCsvFrame
    ["timestamp"; "pair"; "action"; "price"; "quantity"]
    [mkCsvRecord "2023-11-14 22:13:20" (Some "BTCUSDT") (Some "BUY")
                 (Some 50000) (Some 1) None None None None None;
     mkCsvRecord "2023-11-14 22:13:20" (Some "BTCUSDT") (Some "SELL")
                 None (Some 1) None None None None None].

(** None of the four NOT NULL cells of the record is empty. *)
Definition record_complete (r : csv_record) : bool :=
  match c_pair r, c_action r, c_price r, c_quantity r with
  | Some _, Some _, Some _, Some _ => true
  | _, _, _, _ => false
  end.

(** * Properties *)

(** ** Sorting *)

Section SortingFacts.
Context {A : Type}.
Variable key : A -> Z.

Lemma insert_by_perm (x : A) (l : list A) :
  Permutation (insert_by key x l) (x :: l).
Proof.
  induction l as [|y r IH]; simpl.
  - apply Permutation_refl.
  - destruct (key x <=? key y).
    + apply Permutation_refl.
    + apply perm_trans with (y :: x :: r).
      * apply perm_skip, IH.
      * apply perm_swap.
Qed.

Lemma sort_by_perm (l : list A) : Permutation (sort_by key l) l.
Proof.
  induction l as [|x r IH]; simpl.
  - apply perm_nil.
  - apply perm_trans with (x :: sort_by key r).
    + apply insert_by_perm.
    + apply perm_skip, IH.
Qed.

Lemma insert_by_sorted (x : A) (l : list A) :
  StronglySorted (key_le key) l ->
  StronglySorted (key_le key) (insert_by key x l).
Proof.
  induction l as [|y r IH]; intros Hs; simpl.
  - constructor; [constructor | constructor].
  - inversion Hs as [|? ? Hr Hall]; subst.
    destruct (Z.leb_spec (key x) (key y)) as [Hle | Hgt].
    + constructor; [exact Hs |].
      constructor; [exact Hle |].
      eapply Forall_impl; [| exact Hall].
      unfold key_le; intros; lia.
    + constructor; [apply IH; exact Hr |].
      eapply Permutation_Forall.
      * apply Permutation_sym, insert_by_perm.
      * constructor; [unfold key_le; lia | exact Hall].
Qed.

Lemma sort_by_sorted (l : list A) :
  StronglySorted (key_le key) (sort_by key l).
Proof.
  induction l as [|x r IH]; simpl.
  - constructor.
  - apply insert_by_sorted, IH.
Qed.

Lemma sort_by_length (l : list A) : List.length (sort_by key l) = List.length l.
Proof. apply Permutation_length, sort_by_perm. Qed.
End SortingFacts.

Lemma sort_values_perm {A} (ts : A -> Z) (asc : bool) (l : list A) :
  Permutation (sort_values ts asc l) l.
Proof. destruct asc; apply sort_by_perm. Qed.

Lemma sort_values_ascending {A} (ts : A -> Z) (l : list A) :
  oldest_first ts (sort_values ts true l).
Proof. apply (sort_by_sorted ts). Qed.

Lemma StronglySorted_weaken {A} (R R' : A -> A -> Prop) (l : list A) :
  (forall a b, R a b -> R' a b) ->
  StronglySorted R l -> StronglySorted R' l.
Proof.
  intros HR Hs. induction Hs as [|a l0 _ IH Hall].
  - constructor.
  - constructor; [exact IH |].
    eapply Forall_impl; [| exact Hall]. intros b Hb. apply HR, Hb.
Qed.

Lemma sort_values_descending {A} (ts : A -> Z) (l : list A) :
  newest_first ts (sort_values ts false l).
Proof.
  unfold newest_first, sort_values.
  apply StronglySorted_weaken with (R := key_le (fun r => - ts r)).
  - unfold key_le; intros a b Hab; lia.
  - apply sort_by_sorted.
Qed.

Lemma StronglySorted_snoc {A} (R : A -> A -> Prop) (l : list A) (x : A) :
  StronglySorted R l -> Forall (fun y => R y x) l ->
  StronglySorted R (l ++ [x]).
Proof.
  intros Hs. induction Hs as [|a l0 _ IH Hall]; intros Hx; simpl.
  - repeat constructor.
  - inversion Hx as [|? ? Hax Hx']; subst.
    constructor; [apply IH; exact Hx' |].
    apply Forall_app. split; [exact Hall | repeat constructor; exact Hax].
Qed.

Lemma StronglySorted_rev {A} (R : A -> A -> Prop) (l : list A) :
  StronglySorted R l -> StronglySorted (fun a b => R b a) (rev l).
Proof.
  intros Hs. induction Hs as [|a l0 _ IH Hall]; [constructor |].
  simpl. apply StronglySorted_snoc; [exact IH |].
  apply Forall_rev. exact Hall.
Qed.

Lemma order_by_desc_perm {A} (p : plan) (ts : A -> Z) (l : list A) :
  Permutation (order_by_timestamp_desc p ts l) l.
Proof.
  destruct p; simpl.
  - eapply perm_trans; [apply Permutation_sym, Permutation_rev |].
    apply sort_by_perm.
  - apply sort_by_perm.
Qed.

Lemma order_by_desc_sorted {A} (p : plan) (ts : A -> Z) (l : list A) :
  newest_first ts (order_by_timestamp_desc p ts l).
Proof.
  destruct p; simpl.
  - apply (StronglySorted_rev (key_le ts)), sort_by_sorted.
  - apply (sort_values_descending ts l).
Qed.

(** ** The running total *)

Lemma cumsum_from_nth (l : list Z) (acc : Z) (i : nat) (c : Z) :
  nth_error (cumsum_from acc l) i = Some c ->
  c = acc + fold_right Z.add 0 (firstn (S i) l).
Proof.
  revert acc i. induction l as [|x r IH]; intros acc i H.
  - destruct i; discriminate.
  - destruct i as [|i]; simpl in H.
    + inversion H; subst. destruct r; simpl; lia.
    + apply IH in H. rewrite H.
      change (firstn (S (S i)) (x :: r)) with (x :: firstn (S i) r).
      simpl fold_right. lia.
Qed.

Lemma cumsum_from_length (l : list Z) (acc : Z) :
  List.length (cumsum_from acc l) = List.length l.
Proof.
  revert acc. induction l as [|x r IH]; intros acc; simpl; [reflexivity |].
  now rewrite IH.
Qed.

Lemma with_cumulative_from_nth (rows : list trade) (acc : Z) (i : nat)
      (v : trade_view) :
  nth_error
    (map (fun p => mkTradeView (fst p) (snd p))
       (combine rows
          (cumsum_from acc (map (fun r => fillna0 (t_net_profit r)) rows))))
    i = Some v ->
  nth_error rows i = Some (tv_trade v)
  /\ cumulative_net_profit v
     = acc + fold_right Z.add 0
               (map (fun r => fillna0 (t_net_profit r)) (firstn (S i) rows)).
Proof.
  revert i acc. induction rows as [|x r IH]; intros i acc H.
  - destruct i; discriminate.
  - destruct i as [|i]; simpl in H.
    + inversion H; subst; simpl. split; [reflexivity |].
      destruct r; simpl; lia.
    + apply IH in H. destruct H as [H1 H2]. split; [exact H1 |].
      rewrite H2.
      change (firstn (S (S i)) (x :: r)) with (x :: firstn (S i) r).
      simpl. lia.
Qed.

Lemma with_cumulative_nth (rows : list trade) (i : nat) (v : trade_view) :
  nth_error (with_cumulative rows) i = Some v ->
  nth_error rows i = Some (tv_trade v)
  /\ cumulative_net_profit v = prefix_sum rows i.
Proof.
  intros H. apply with_cumulative_from_nth in H.
  destruct H as [H1 H2]. split; [exact H1 |].
  unfold prefix_sum. rewrite H2. lia.
Qed.

Lemma with_cumulative_length (rows : list trade) :
  List.length (with_cumulative rows) = List.length rows.
Proof.
  unfold with_cumulative, cumsum.
  rewrite length_map, length_combine, cumsum_from_length, length_map.
  apply Nat.min_id.
Qed.

(** ** Running the operations symbolically *)

Ltac unfold_monad :=
  unfold try_except, bind, ret, raise, gets, modify in *.

Ltac unfold_storage :=
  unfold ensure_connection, connect, rollback_and_reraise,
    cursor_execute_insert, cursor_execute_select, read_sql_query,
    conn_commit, conn_rollback,
    conn_close, sqlite3_connect, storage_call, utcnow in *.

Ltac store_simpl :=
  cbn [fst snd db_file conn work disk clock faults trace
       set_conn set_work set_disk set_faults log_event] in *.

(** Split on whether the handle holds a connection and on the outcome of
    each storage call met on the way. *)
Ltac run_cases :=
  repeat (store_simpl;
          match goal with
          | H : conn ?s = _ |- context [conn ?s] => rewrite H
          | H : next_fault ?f = _ |- context [next_fault ?f] => rewrite H
          | |- context [if conn ?s then _ else _] =>
              destruct (conn s) eqn:?
          | |- context [match next_fault ?f with _ => _ end] =>
              destruct (next_fault f) eqn:?
          end);
  store_simpl.

Lemma fault_free_next (fs : list (option exn)) :
  fault_free fs -> next_fault fs = None.
Proof.
  intros H. destruct fs as [|[e|] r]; try reflexivity.
  inversion H; discriminate.
Qed.

Lemma fault_free_tl (fs : list (option exn)) :
  fault_free fs -> fault_free (tl fs).
Proof.
  intros H. destruct fs as [|f r]; [exact H |].
  inversion H; assumption.
Qed.

(** ** What a successful [get_trades] returns *)

Lemma get_trades_try_frame pair action start_date end_date limit s :
  match get_trades_try pair action start_date end_date limit s with
  | (Ok views, s') =>
      views = cumulative_frame
                (select_trades pair action start_date end_date limit (work s'))
  | (Raise _, _) => True
  end.
Proof.
  unfold get_trades_try. unfold_storage. unfold_monad.
  run_cases; try exact I; reflexivity.
Qed.

Lemma get_trades_of_try pair action start_date end_date limit s views s' :
  get_trades_try pair action start_date end_date limit s = (Ok views, s') ->
  get_trades pair action start_date end_date limit s = (Ok views, s').
Proof.
  intros H. unfold get_trades, try_except. rewrite H. reflexivity.
Qed.

Lemma cumulative_frame_sorted (df : list trade) :
  cumulative_frame df
  = sort_values tv_timestamp false
      (with_cumulative (sort_values t_timestamp true df)).
Proof. destruct df; reflexivity. Qed.

Lemma apply_limit_uncapped {A} (limit : option Z) (l : list A) :
  capped limit = false -> apply_limit limit l = l.
Proof.
  destruct limit as [n|]; simpl; [| reflexivity].
  intros H. destruct (Z.eqb_spec n 0); [reflexivity |].
  destruct (Z.ltb_spec n 0); [reflexivity |].
  apply Z.ltb_ge in H. lia.
Qed.

Lemma apply_limit_cases {A} (limit : option Z) (l : list A) :
  (capped limit = false /\ apply_limit limit l = l)
  \/ (exists n, limit = Some n /\ 0 < n
                /\ apply_limit limit l = firstn (Z.to_nat n) l).
Proof.
  destruct limit as [n|]; [| left; split; reflexivity].
  unfold apply_limit, capped.
  destruct (Z.eqb_spec n 0) as [-> | Hn0]; [left; split; reflexivity |].
  destruct (Z.ltb_spec n 0) as [Hneg | Hpos].
  - left. split; [| reflexivity]. apply Z.ltb_ge. lia.
  - right. exists n. split; [reflexivity |]. split; [lia | reflexivity].
Qed.

Lemma StronglySorted_app_cross {A} (R : A -> A -> Prop) (l1 l2 : list A) :
  StronglySorted R (l1 ++ l2) ->
  forall a b, In a l1 -> In b l2 -> R a b.
Proof.
  induction l1 as [|x l1 IH]; intros Hs a b Ha Hb; [contradiction |].
  simpl in Hs. inversion Hs as [|? ? Hs' Hall]; subst.
  destruct Ha as [<- | Ha].
  - rewrite Forall_forall in Hall. apply Hall, in_or_app. right. exact Hb.
  - apply (IH Hs' a b Ha Hb).
Qed.

Lemma StronglySorted_app_left {A} (R : A -> A -> Prop) (l1 l2 : list A) :
  StronglySorted R (l1 ++ l2) -> StronglySorted R l1.
Proof.
  induction l1 as [|x l1 IH]; intros Hs; [constructor |].
  simpl in Hs. inversion Hs as [|? ? Hs' Hall]; subst.
  constructor; [apply IH; exact Hs' |].
  rewrite Forall_forall in *. intros y Hy. apply Hall, in_or_app.
  left. exact Hy.
Qed.

(** What every SELECT of the module returns: matching rows only, newest
    first, no more than a positive [limit], and what the limit cuts off is
    never newer than what it keeps. *)
Lemma query_rows_spec {A} (p : plan) (ts : A -> Z) (f : A -> bool)
      (limit : option Z) (tbl : list A) :
  newest_first ts (query_rows p ts f limit tbl)
  /\ (forall r, In r (query_rows p ts f limit tbl) ->
                In r tbl /\ f r = true)
  /\ (forall n, limit = Some n -> 0 < n ->
                (List.length (query_rows p ts f limit tbl) <= Z.to_nat n)%nat)
  /\ exists rest,
       Permutation (query_rows p ts f limit tbl ++ rest) (filter f tbl)
       /\ (capped limit = false -> rest = [])
       /\ forall a b, In a (query_rows p ts f limit tbl) -> In b rest ->
                      ts b <= ts a.
Proof.
  unfold query_rows.
  pose proof (order_by_desc_perm p ts (filter f tbl)) as Hperm.
  pose proof (order_by_desc_sorted p ts (filter f tbl)) as Hsorted.
  set (o := order_by_timestamp_desc p ts (filter f tbl)) in *.
  destruct (apply_limit_cases limit o) as [[Hcap ->] | [n [-> [Hn ->]]]].
  - split; [exact Hsorted |].
    split.
    { intros r Hr. apply filter_In.
      apply (Permutation_in _ Hperm). exact Hr. }
    split.
    { intros n -> Hn. unfold capped in Hcap. apply Z.ltb_ge in Hcap. lia. }
    exists []. rewrite app_nil_r.
    split; [exact Hperm |]. split; [reflexivity |].
    intros a b _ [].
  - pose proof (firstn_skipn (Z.to_nat n) o) as Hsplit.
    split.
    { unfold newest_first in *. rewrite <- Hsplit in Hsorted.
      apply (StronglySorted_app_left _ _ _ Hsorted). }
    split.
    { intros r Hr. apply filter_In.
      apply (Permutation_in _ Hperm). rewrite <- Hsplit.
      apply in_or_app. left. exact Hr. }
    split.
    { intros m Hm _. inversion Hm; subst. apply firstn_le_length. }
    exists (skipn (Z.to_nat n) o).
    split; [rewrite Hsplit; exact Hperm |].
    split.
    { intros Hcap. unfold capped in Hcap. apply Z.ltb_ge in Hcap. lia. }
    intros a b Ha Hb. unfold newest_first in Hsorted.
    rewrite <- Hsplit in Hsorted.
    apply (StronglySorted_app_cross _ _ _ Hsorted a b Ha Hb).
Qed.

(** Without a cap, every matching row of the table is returned. *)
Lemma query_rows_uncapped_in {A} (p : plan) (ts : A -> Z) (f : A -> bool)
      (tbl : list A) (r : A) :
  In r tbl -> f r = true -> In r (query_rows p ts f None tbl).
Proof.
  intros Hr Hf. unfold query_rows, apply_limit.
  apply (Permutation_in _ (Permutation_sym (order_by_desc_perm p ts _))).
  apply filter_In. split; assumption.
Qed.

(** C2 (as amended).  For every successful [get_trades] there is an
    arrangement [asc] of the rows the query returned, oldest first, such
    that the answer holds exactly the rows of [asc], each with the prefix sum
    of net profit (absent counted as zero) over [asc] up to that row, and
    the answer is in newest-first order.  The rows of [asc] are the trades
    matching the filters, cut to the result-count cap when one is given:
    what the cap leaves out ([rest]) is never newer than what it keeps, and
    without a cap nothing is left out.  Nothing is said on the order of rows
    with equal timestamps. *)
Theorem get_trades_cumulative_prefix_sum
        pair action start_date end_date limit s views s' :
  get_trades_try pair action start_date end_date limit s = (Ok views, s') ->
  get_trades pair action start_date end_date limit s = (Ok views, s')
  /\ newest_first tv_timestamp views
  /\ exists asc rest,
       oldest_first t_timestamp asc
       /\ Permutation (asc ++ rest)
            (filter (where_trades pair action start_date end_date)
                    (trades (work s')))
       /\ (capped limit = false -> rest = [])
       /\ (forall n, limit = Some n -> 0 < n ->
                     (List.length asc <= Z.to_nat n)%nat)
       /\ (forall a b, In a asc -> In b rest ->
                       t_timestamp b <= t_timestamp a)
       /\ Permutation views (with_cumulative asc)
       /\ (forall i v, nth_error (with_cumulative asc) i = Some v ->
                       nth_error asc i = Some (tv_trade v)
                       /\ cumulative_net_profit v = prefix_sum asc i).
Proof.
  intros H.
  pose proof (get_trades_try_frame pair action start_date end_date limit s)
    as Hframe.
  rewrite H in Hframe.
  rewrite cumulative_frame_sorted in Hframe.
  change (select_trades pair action start_date end_date limit (work s'))
    with (query_rows (trades_plan pair) t_timestamp
            (where_trades pair action start_date end_date) limit
            (trades (work s'))) in Hframe.
  set (df := query_rows (trades_plan pair) t_timestamp
               (where_trades pair action start_date end_date) limit
               (trades (work s'))) in *.
  destruct (query_rows_spec (trades_plan pair) t_timestamp
              (where_trades pair action start_date end_date) limit
              (trades (work s')))
    as (_ & _ & Hlen & rest & Hperm & Hcap & Hcut).
  fold df in Hlen, Hperm, Hcut.
  pose proof (sort_values_perm t_timestamp true df) as Hasc.
  split; [apply get_trades_of_try; exact H |].
  split; [rewrite Hframe; apply sort_values_descending |].
  exists (sort_values t_timestamp true df), rest.
  split; [apply sort_values_ascending |].
  split.
  { eapply perm_trans; [| exact Hperm].
    apply Permutation_app_tail. exact Hasc. }
  split; [exact Hcap |].
  split.
  { intros n Hn Hpos. rewrite (Permutation_length Hasc).
    apply (Hlen n Hn Hpos). }
  split.
  { intros a b Ha Hb. apply Hcut; [| exact Hb].
    apply (Permutation_in _ Hasc). exact Ha. }
  split; [rewrite Hframe; apply sort_values_perm |].
  intros i v Hv. apply with_cumulative_nth. exact Hv.
Qed.

(** ** Round trip of a trade *)

Lemma filter_none {A} (f : A -> bool) (l : list A) :
  (forall x, In x l -> f x = false) -> filter f l = [].
Proof.
  induction l as [|x r IH]; intros H; simpl; [reflexivity |].
  rewrite (H x (or_introl eq_refl)). apply IH.
  intros y Hy. apply H. right. exact Hy.
Qed.

Lemma apply_limit_singleton {A} (limit : option Z) (x : A) :
  apply_limit limit [x] = [x].
Proof.
  destruct limit as [n|]; simpl; [| reflexivity].
  destruct (Z.eqb_spec n 0); [reflexivity |].
  destruct (Z.ltb_spec n 0); [reflexivity |].
  destruct (Z.to_nat n) as [|k] eqn:E; [lia |].
  simpl. destruct k; reflexivity.
Qed.

Lemma select_trades_fresh_row pair action start_date end_date limit
      (rows : list trade) (row : trade) ms bs q1 q2 q3 :
  (forall r, In r rows ->
             where_trades pair action start_date end_date r = false) ->
  where_trades pair action start_date end_date row = true ->
  select_trades pair action start_date end_date limit
    (mkDatabase (rows ++ [row]) ms bs q1 q2 q3) = [row].
Proof.
  intros Hnone Hrow. unfold select_trades. cbn [trades].
  rewrite filter_app, (filter_none _ _ Hnone). cbn [filter app].
  rewrite Hrow. unfold order_by_timestamp_desc.
  destruct (trades_plan pair); cbn [sort_by fold_right insert_by rev app];
    apply apply_limit_singleton.
Qed.

Lemma cumulative_frame_singleton (row : trade) :
  cumulative_frame [row] = [mkTradeView row (fillna0 (t_net_profit row))].
Proof. reflexivity. Qed.

(** C1 (as amended).  On a store with no open transaction and a storage
    layer that does not fail, where no trade already stored matches the
    filter: [log_trade] followed by [get_trades] with a filter that matches
    the new trade (pair and action equal or not given, date range around the
    time of the write, any cap) returns exactly one row, whose identifier is
    the one [log_trade] returned and whose pair, action, price, quantity and
    optional fields are the inputs. *)
Theorem log_trade_get_trades_round_trip
        (s : store) (pair action : string) (price quantity : Z)
        (net_profit profit_pct : option Z) (order_id strategy : option string)
        (fpair faction : option string) (start_date end_date limit : option Z) :
  consistent s ->
  fault_free (faults s) ->
  eq_filter fpair pair = true ->
  eq_filter faction action = true ->
  in_date_range start_date end_date (clock s) = true ->
  (forall r, In r (trades (disk s)) ->
             where_trades fpair faction start_date end_date r = false) ->
  exists s1 s2,
    let trade_id := seq_trades (disk s) + 1 in
    log_trade pair action price quantity net_profit profit_pct order_id
              strategy s = (Ok trade_id, s1)
    /\ get_trades fpair faction start_date end_date limit s1
       = (Ok [mkTradeView
                (logged_trade trade_id (clock s) pair action price quantity
                              net_profit profit_pct order_id strategy)
                (fillna0 net_profit)],
          s2).
Proof.
  intros Hcons Hff Hp Ha Hd Hnone.
  pose proof (fault_free_next _ Hff) as N0.
  pose proof (fault_free_tl _ Hff) as Hff1.
  pose proof (fault_free_next _ Hff1) as N1.
  pose proof (fault_free_tl _ Hff1) as Hff2.
  pose proof (fault_free_next _ Hff2) as N2.
  pose proof (fault_free_tl _ Hff2) as Hff3.
  pose proof (fault_free_next _ Hff3) as N3.
  pose proof (fault_free_tl _ Hff3) as Hff4.
  pose proof (fault_free_next _ Hff4) as N4.
  assert (Hrow : forall i,
             where_trades fpair faction start_date end_date
               (logged_trade i (clock s) pair action price quantity
                             net_profit profit_pct order_id strategy) = true).
  { intros i. unfold where_trades, logged_trade. cbn [t_pair t_action t_timestamp].
    rewrite Hp, Ha, Hd. reflexivity. }
  unfold consistent in Hcons.
  unfold log_trade, get_trades, get_trades_try, insert_trade.
  unfold_storage. unfold_monad. store_simpl.
  destruct (conn s) eqn:Hc;
    repeat (store_simpl;
            first [rewrite N0 | rewrite N1 | rewrite N2 | rewrite N3
                  | rewrite N4]);
    store_simpl; try rewrite Hcons;
    (eexists; eexists; split; [reflexivity |]);
    repeat (store_simpl;
            first [rewrite Hc | rewrite N0 | rewrite N1 | rewrite N2
                  | rewrite N3 | rewrite N4]);
    store_simpl;
    rewrite select_trades_fresh_row by (first [exact Hnone | apply Hrow]);
    reflexivity.
Qed.

(** ** Faults met by an operation *)

Lemma first_fault_step (fs : list (option exn)) :
  first_fault fs = match next_fault fs with
                   | Some e => Some e
                   | None => first_fault (tl fs)
                   end.
Proof. destruct fs as [|[e|] r]; reflexivity. Qed.

Lemma first_fault_firstn_step (n : nat) (fs : list (option exn)) :
  first_fault (firstn (S n) fs)
  = match next_fault fs with
    | Some e => Some e
    | None => first_fault (firstn n (tl fs))
    end.
Proof.
  destruct fs as [|[e|] r]; try reflexivity.
  simpl. destruct n; reflexivity.
Qed.

Lemma first_fault_firstn_0 (fs : list (option exn)) :
  first_fault (firstn 0 fs) = None.
Proof. reflexivity. Qed.

(** Close a goal about [first_fault] from the recorded outcomes of the
    storage calls. *)
Ltac solve_faults :=
  repeat match goal with
         | H : next_fault ?f = _ |- context [first_fault ?f] =>
             rewrite (first_fault_step f), H
         | H : next_fault ?f = _ |- context [first_fault (firstn (S ?n) ?f)] =>
             rewrite (first_fault_firstn_step n f), H
         end;
  try reflexivity; try discriminate.

Section LibraryFacts.
Variable json_dumps : indicators -> string.
Variable json_loads : string -> option indicators.
Variable to_datetime : string -> option Z.

Ltac unfold_writes :=
  unfold run_write, write_insert, log_trade, log_market_scan,
    log_bot_status, insert_trade, insert_market_scan, insert_bot_status
    in *.

Ltac unfold_reads :=
  unfold run_read, run_read_try, get_trades, get_trades_try,
    get_market_scans, get_market_scans_try, get_bot_status,
    get_bot_status_try, get_latest_scan, get_latest_scan_try,
    get_latest_status, get_latest_status_try in *.

(** C8.  A Recorder call on a store without an open transaction has two
    outcomes only.  Either it returns an identifier, and then the committed
    content is the old one with exactly one row more, at the end of the
    table of the call: the row holds the arguments of the call, the time of
    the call as timestamp and creation time, and the identifier returned,
    which is the next one of that table; the other two tables are as they
    were.  Or it raises the first failure of the storage layer and the
    committed content is untouched.  In both cases no transaction is left
    open. *)
Theorem write_commits_or_rolls_back (op : write_op) (s : store) :
  consistent s ->
  let (r, s') := run_write json_dumps op s in
  consistent s'
  /\ match r with
     | Ok rowid =>
         match op with
         | LogTrade p a pr q np pp oi st =>
             rowid = seq_trades (disk s) + 1
             /\ seq_trades (disk s') = rowid
             /\ trades (disk s')
                = trades (disk s)
                  ++ [logged_trade rowid (clock s) p a pr q np pp oi st]
             /\ market_scans (disk s') = market_scans (disk s)
             /\ bot_status (disk s') = bot_status (disk s)
         | LogMarketScan p sg pr st iv ind =>
             rowid = seq_market_scans (disk s) + 1
             /\ seq_market_scans (disk s') = rowid
             /\ market_scans (disk s')
                = market_scans (disk s)
                  ++ [logged_scan rowid (clock s) p sg pr st iv
                        (match ind with
                         | Some (e :: d) => Some (json_dumps (e :: d))
                         | _ => None
                         end)]
             /\ trades (disk s') = trades (disk s)
             /\ bot_status (disk s') = bot_status (disk s)
         | LogBotStatus st av ap msg =>
             rowid = seq_bot_status (disk s) + 1
             /\ seq_bot_status (disk s') = rowid
             /\ bot_status (disk s')
                = bot_status (disk s)
                  ++ [logged_status rowid (clock s) st av
                        (match ap with
                         | Some (PyList (x :: l)) =>
                             Some (join_comma (x :: l))
                         | Some (PyOther true str) => Some str
                         | _ => None
                         end)
                        msg]
             /\ trades (disk s') = trades (disk s)
             /\ market_scans (disk s') = market_scans (disk s)
         end
     | Raise e =>
         disk s' = disk s /\ first_fault (faults s) = Some e
     end.
Proof.
  unfold consistent. intros Hcons.
  destruct op as [p a pr q np pp oi st | p sg pr st iv ind | st av ap msg];
    unfold_writes; unfold_storage; unfold_monad;
    run_cases;
    (split; [first [reflexivity | exact Hcons] |]);
    try (split; [reflexivity | solve_faults]);
    try rewrite Hcons;
    cbn [trades market_scans bot_status seq_trades seq_market_scans
           seq_bot_status];
    unfold logged_trade, logged_scan, logged_status.
  all: try (repeat split; reflexivity).
  all: try (destruct ind as [[|e d]|]; repeat split; reflexivity).
  all: destruct ap as [[[|x l] | [|] str]|]; repeat split; reflexivity.
Qed.

(** From a store whose environment holds no fault, no storage call
    fails. *)
Ltac fault_contra Hff :=
  pose proof (fault_free_next _ Hff);
  pose proof (fault_free_next _ (fault_free_tl _ Hff));
  pose proof (fault_free_next _ (fault_free_tl _ (fault_free_tl _ Hff)));
  pose proof (fault_free_next _
                (fault_free_tl _ (fault_free_tl _ (fault_free_tl _ Hff))));
  congruence.

Ltac new_events :=
  eexists; split; [repeat rewrite <- app_assoc; reflexivity |];
  cbn [app List.length hd_error].

(** C3 (as amended).  A Recorder write opens a connection first when the
    handle holds none, and only then sends its INSERT; it sends the INSERT
    at most once.  When it returns, every storage call it made succeeded;
    when it raises, it raises the first failure it met: nothing is
    retried. *)
Theorem write_reconnects_and_never_retries (op : write_op) (s : store) :
  let (r, s') := run_write json_dumps op s in
  exists evs,
    trace s' = trace s ++ evs
    /\ (conn s = false -> hd_error evs = Some EvConnect)
    /\ (conn s = true -> ~ In EvConnect evs)
    /\ (inserts_in (write_table op) evs <= 1)%nat
    /\ match r with
       | Ok _ => first_fault (firstn (List.length evs) (faults s)) = None
       | Raise e => first_fault (faults s) = Some e
       end.
Proof.
  destruct op; unfold_writes; unfold_storage; unfold_monad;
    run_cases; new_events;
    (split; [intros; first [reflexivity | congruence] |]);
    (split; [intros Hc Hin;
             first [ discriminate Hc
                   | simpl in Hin;
                     repeat (destruct Hin as [Hin | Hin];
                             [discriminate Hin |]);
                     contradiction ] |]);
    (split; [unfold inserts_in; simpl; lia |]);
    solve_faults.
Qed.

(** C7.  A Query Engine operation never raises.  When a storage call it
    made failed, or more generally when its [try] block raised, it answers
    with the empty frame (or [None] for the latest-of-type queries). *)
Theorem read_failures_are_absorbed (op : read_op) (s : store) :
  let (r, s') := run_read json_loads op s in
  exists res evs,
    r = Ok res
    /\ trace s' = trace s ++ evs
    /\ (forall e,
          first_fault (firstn (List.length evs) (faults s)) = Some e ->
          res = empty_result op)
    /\ (forall e s'',
          run_read_try json_loads op s = (Raise e, s'') ->
          res = empty_result op).
Proof.
  destruct op; unfold_reads; unfold_storage; unfold_monad;
    run_cases; eexists; eexists;
    (split; [reflexivity |]);
    (split; [repeat rewrite <- app_assoc; reflexivity |]);
    cbn [app List.length];
    (split; [intros e0; solve_faults; intros; first [reflexivity | discriminate]
            | intros e0 s'' Hraise;
              first [reflexivity | discriminate Hraise]]).
Qed.

(** C10.  [close] leaves the handle without a connection and the committed
    content untouched.  Every Recorder or Query Engine operation called
    afterwards begins by opening a connection; when the storage layer does
    not fail, a write then commits its row and returns the identifier, a
    read runs its [try] block to the end, and the handle holds a live
    connection again. *)
Theorem operations_reconnect_after_close (s : store) :
  let s0 := snd (close s) in
  conn s0 = false
  /\ disk s0 = disk s
  /\ (forall op : write_op,
        let (r, s') := run_write json_dumps op s0 in
        (exists rest, trace s' = trace s0 ++ EvConnect :: rest)
        /\ (fault_free (faults s) ->
            conn s' = true
            /\ exists rowid,
                 r = Ok rowid
                 /\ (disk s', rowid)
                    = write_insert json_dumps op (clock s) (disk s)))
  /\ (forall op : read_op,
        let (r, s') := run_read json_loads op s0 in
        (exists rest, trace s' = trace s0 ++ EvConnect :: rest)
        /\ (fault_free (faults s) ->
            conn s' = true
            /\ work s' = disk s
            /\ exists res,
                 run_read_try json_loads op s0 = (Ok res, s')
                 /\ r = Ok res)).
Proof.
  unfold close. unfold_storage. unfold_monad.
  destruct (conn s) eqn:Hconn; store_simpl;
    (split; [first [reflexivity | exact Hconn] |]);
    (split; [reflexivity |]); split.
  all: intros op; destruct op;
    unfold_writes; unfold_reads; unfold_storage; unfold_monad;
    run_cases;
    (split; [eexists; repeat rewrite <- app_assoc; reflexivity |]);
    intros Hff; try (exfalso; fault_contra Hff);
    repeat split; eauto.
Qed.
End LibraryFacts.

(** ** The active-pair list *)

Lemma split_comma_plain (x : string) :
  has_comma x = false -> split_comma x = [x].
Proof.
  induction x as [|c r IH]; simpl; intros H; [reflexivity |].
  apply orb_false_iff in H. destruct H as [Hc Hr].
  rewrite Hc, (IH Hr). reflexivity.
Qed.

Lemma split_comma_app (x rest : string) :
  has_comma x = false ->
  split_comma (x ++ String comma rest)%string = x :: split_comma rest.
Proof.
  induction x as [|c r IH]; simpl; intros H; [reflexivity |].
  apply orb_false_iff in H. destruct H as [Hc Hr].
  rewrite Hc, (IH Hr). reflexivity.
Qed.

Lemma split_join_comma (l : list string) :
  l <> [] -> comma_free l = true -> split_comma (join_comma l) = l.
Proof.
  induction l as [|x r IH]; intros Hne Hcf; [congruence |].
  simpl in Hcf. apply andb_true_iff in Hcf. destruct Hcf as [Hx Hr].
  apply negb_true_iff in Hx.
  destruct r as [|y r'].
  - simpl. apply split_comma_plain, Hx.
  - change (join_comma (x :: y :: r'))
      with (x ++ String comma (join_comma (y :: r')))%string.
    rewrite split_comma_app by exact Hx.
    rewrite IH; [reflexivity | discriminate | exact Hr].
Qed.

Lemma join_comma_nonempty (l : list string) :
  l <> [] -> l <> [""] ->
  exists c r, join_comma l = String c r.
Proof.
  intros Hne Hne'. destruct l as [|x [|y r']]; [congruence | |].
  - destruct x as [|c r]; [congruence |]. simpl. eauto.
  - change (join_comma (x :: y :: r'))
      with (x ++ String comma (join_comma (y :: r')))%string.
    destruct x as [|c r]; simpl; eauto.
Qed.

(** Serialising and parsing back a list of symbols, for both readers. *)
Lemma active_pairs_str_parse (l : list string) :
  comma_free l = true -> l <> [""] ->
  parse_active_pairs (active_pairs_str (Some (PyList l))) = l
  /\ latest_active_pairs_list (active_pairs_str (Some (PyList l))) = l.
Proof.
  intros Hcf Hne.
  destruct l as [|x r]; [split; reflexivity |].
  assert (Hnil : x :: r <> []) by discriminate.
  destruct (join_comma_nonempty (x :: r) Hnil Hne) as [c [t Hj]].
  pose proof (split_join_comma (x :: r) Hnil Hcf) as Hs.
  unfold active_pairs_str, latest_active_pairs_list, parse_active_pairs,
    pairs_truthy, truthy.
  rewrite Hj in *. split; exact Hs.
Qed.

Lemma insert_by_before_last {A} (key : A -> Z) (y x : A) (l : list A) :
  key y <= key x ->
  insert_by key y (l ++ [x]) = insert_by key y l ++ [x].
Proof.
  intros Hyx. induction l as [|z r IH]; simpl.
  - destruct (Z.leb_spec (key y) (key x)); [reflexivity | lia].
  - destruct (key y <=? key z); [reflexivity |]. rewrite IH. reflexivity.
Qed.

Lemma sort_by_snoc_max {A} (key : A -> Z) (l : list A) (x : A) :
  (forall r, In r l -> key r <= key x) ->
  sort_by key (l ++ [x]) = sort_by key l ++ [x].
Proof.
  induction l as [|y r IH]; intros H; [reflexivity |].
  simpl. rewrite IH by (intros z Hz; apply H; right; exact Hz).
  apply insert_by_before_last. apply H. left. reflexivity.
Qed.

(** The newest row comes first: when every row of [rows] is strictly older
    than [x], ordering [rows ++ [x]] newest first puts [x] in front,
    whatever the plan. *)
Lemma order_by_desc_newest {A} (p : plan) (ts : A -> Z) (rows : list A)
      (x : A) :
  (forall r, In r rows -> ts r < ts x) ->
  order_by_timestamp_desc p ts (rows ++ [x])
  = x :: order_by_timestamp_desc p ts rows.
Proof.
  intros H. destruct p; unfold order_by_timestamp_desc.
  - rewrite sort_by_snoc_max.
    + rewrite rev_app_distr. reflexivity.
    + intros r Hr. specialize (H r Hr). lia.
  - induction rows as [|y r IH]; [reflexivity |].
    simpl. rewrite IH by (intros z Hz; apply H; right; exact Hz).
    simpl.
    pose proof (H y (or_introl eq_refl)) as Hy.
    destruct (Z.leb_spec (- ts y) (- ts x)); [lia | reflexivity].
Qed.

(** *** Runs on a storage layer that does not fail *)

Ltac no_faults Hff :=
  pose proof (fault_free_next _ Hff);
  pose proof (fault_free_next _ (fault_free_tl _ Hff));
  pose proof (fault_free_next _ (fault_free_tl _ (fault_free_tl _ Hff)));
  pose proof (fault_free_next _
                (fault_free_tl _ (fault_free_tl _ (fault_free_tl _ Hff)))).

Lemma log_bot_status_fault_free
      (s : store) (status : string) (account_value : option Z)
      (active_pairs : option py_pairs) (message : option string) :
  consistent s ->
  fault_free (faults s) ->
  exists s1,
    log_bot_status status account_value active_pairs message s
    = (Ok (seq_bot_status (disk s) + 1), s1)
    /\ disk s1
       = fst (insert_bot_status (clock s) status account_value
                (active_pairs_str active_pairs) message (clock s) (disk s))
    /\ work s1 = disk s1
    /\ conn s1 = true
    /\ fault_free (faults s1).
Proof.
  unfold consistent. intros Hcons Hff. no_faults Hff.
  unfold log_bot_status, insert_bot_status. unfold_storage. unfold_monad.
  destruct (conn s) eqn:Hc; run_cases; rewrite ?Hcons;
    eexists; (split; [reflexivity |]); store_simpl;
    (split; [reflexivity |]); (split; [reflexivity |]);
    (split; [first [reflexivity | exact Hc] |]);
    repeat apply fault_free_tl; exact Hff.
Qed.

Lemma get_bot_status_ready
      (status : option string) (start_date end_date limit : option Z)
      (s : store) :
  conn s = true ->
  fault_free (faults s) ->
  exists s2,
    get_bot_status status start_date end_date limit s
    = (Ok (map (fun r => mkStatusView r
                           (parse_active_pairs (b_active_pairs r)))
               (select_bot_status status start_date end_date limit
                                  (work s))),
       s2).
Proof.
  intros Hc Hff. no_faults Hff.
  unfold get_bot_status, get_bot_status_try. unfold_storage. unfold_monad.
  run_cases. eexists. reflexivity.
Qed.

Lemma get_latest_status_ready (s : store) :
  conn s = true ->
  fault_free (faults s) ->
  exists s2,
    get_latest_status s
    = (Ok (latest_status_of (select_latest_status (work s))), s2).
Proof.
  intros Hc Hff. no_faults Hff.
  unfold get_latest_status, get_latest_status_try.
  unfold_storage. unfold_monad.
  run_cases. eexists. reflexivity.
Qed.

Lemma filter_snoc {A} (f : A -> bool) (l : list A) (x : A) :
  f x = true -> filter f (l ++ [x]) = filter f l ++ [x].
Proof.
  intros H. rewrite filter_app. simpl. rewrite H. reflexivity.
Qed.

(** C4 (as amended).  [log_bot_status] neither rejects nor escapes a symbol
    that contains a comma.  For a list whose symbols contain no comma, and
    which is not the one-element list holding the empty symbol, written on a
    store without open transaction whose storage layer does not fail: the
    call commits one record, [get_bot_status] returns that record with the
    active-pair list that was passed, and so does [get_latest_status]
    whenever the record is the newest one, that is, whenever every other
    status record has a strictly earlier timestamp. *)
Theorem log_bot_status_active_pairs_round_trip
        (s : store) (status : string) (account_value : option Z)
        (l : list string) (message : option string) :
  consistent s ->
  fault_free (faults s) ->
  comma_free l = true ->
  l <> [""] ->
  exists s1 row,
    log_bot_status status account_value (Some (PyList l)) message s
    = (Ok (b_id row), s1)
    /\ bot_status (disk s1) = bot_status (disk s) ++ [row]
    /\ b_timestamp row = clock s
    /\ parse_active_pairs (b_active_pairs row) = l
    /\ latest_active_pairs_list (b_active_pairs row) = l
    /\ (exists views s2,
          get_bot_status None None None None s1 = (Ok views, s2)
          /\ In (mkStatusView row l) views
          /\ forall v, In v views -> stv_row v = row ->
                       active_pairs_list v = l)
    /\ ((forall r, In r (bot_status (disk s)) -> b_timestamp r < clock s) ->
        exists s2,
          get_latest_status s1 = (Ok (Some (mkStatusView row l)), s2)).
Proof.
  intros Hcons Hff Hcf Hne.
  destruct (active_pairs_str_parse l Hcf Hne) as [Hparse Hlatest].
  destruct (log_bot_status_fault_free s status account_value
              (Some (PyList l)) message Hcons Hff)
    as (s1 & Hlog & Hdisk & Hwork & Hconn & Hff1).
  cbn [insert_bot_status fst] in Hdisk.
  set (row := mkStatus (seq_bot_status (disk s) + 1) (clock s) status
                       account_value (active_pairs_str (Some (PyList l)))
                       message (clock s)) in *.
  assert (Htbl : bot_status (work s1) = bot_status (disk s) ++ [row])
    by (rewrite Hwork, Hdisk; reflexivity).
  exists s1, row.
  split; [exact Hlog |].
  split; [rewrite Hdisk; reflexivity |].
  split; [reflexivity |].
  split; [exact Hparse |].
  split; [exact Hlatest |].
  split.
  - destruct (get_bot_status_ready None None None None s1 Hconn Hff1)
      as [s2 Hget].
    eexists. exists s2. split; [exact Hget |]. split.
    + apply in_map_iff. exists row. split.
      * f_equal. exact Hparse.
      * change (select_bot_status None None None None (work s1))
          with (query_rows TempBTree b_timestamp
                  (where_bot_status None None None) None
                  (bot_status (work s1))).
        apply query_rows_uncapped_in; [| reflexivity].
        rewrite Htbl. apply in_or_app. right. left. reflexivity.
    + intros v Hv Hrow. apply in_map_iff in Hv.
      destruct Hv as [r [<- _]]. cbn [stv_row active_pairs_list] in *.
      subst r. exact Hparse.
  - intros Hold.
    destruct (get_latest_status_ready s1 Hconn Hff1) as [s2 Hget].
    exists s2. rewrite Hget. unfold select_latest_status.
    rewrite Htbl. rewrite order_by_desc_newest by exact Hold.
    cbn [firstn latest_status_of].
    change (b_active_pairs row) with (active_pairs_str (Some (PyList l))).
    rewrite Hlatest. reflexivity.
Qed.

(** ** The registry *)

Lemma TradingDatabase_init_db_file (e : os_env) (loc : option string) :
  db_file (snd (TradingDatabase_init e loc))
  = match loc with
    | None => default_db_file e
    | Some f => f
    end.
Proof.
  unfold TradingDatabase_init, create_tables.
  unfold_storage. unfold_monad.
  run_cases; reflexivity.
Qed.

(** C6.  When a call to [get_db] returns a handle, the next call returns the
    identical handle (same object, same state) and leaves the registry as it
    is, whatever location it is given; when the first call had to create the
    handle, the handle is bound to the location of that first call (or to
    the default one). *)
Theorem get_db_returns_first_handle
        (p p1 : process) (loc1 loc2 : option string) (h : handle) :
  get_db loc1 p = (Ok h, p1) ->
  get_db loc2 p1 = (Ok h, p1)
  /\ _db_instance p1 = Some h
  /\ (_db_instance p = None ->
      h_id h = next_object p
      /\ db_file (h_store h) = match loc1 with
                               | None => default_db_file (env p)
                               | Some f => f
                               end).
Proof.
  unfold get_db. intros H.
  destruct (_db_instance p) as [h0|] eqn:Hinst.
  - inversion H; subst. rewrite Hinst.
    split; [reflexivity |]. split; [reflexivity |]. discriminate.
  - pose proof (TradingDatabase_init_db_file (env p) loc1) as Hfile.
    destruct (TradingDatabase_init (env p) loc1) as [[u|ex] st];
      inversion H; subst; cbn [_db_instance h_id h_store snd] in *.
    split; [reflexivity |]. split; [reflexivity |].
    intros _. split; [reflexivity | exact Hfile].
Qed.

Section ImportAndScans.
Variable json_dumps : indicators -> string.
Variable json_loads : string -> option indicators.
Variable to_datetime : string -> option Z.

(** C5.  When the file lacks one of the required columns,
    [import_from_csv] returns 0 without raising, whatever the storage
    layer does; the committed content is untouched and no INSERT was sent
    to the trades table. *)
Theorem import_missing_required_column (csv_file : csv_frame) (s : store) :
  (exists col, In col required_columns
               /\ has_column (columns csv_file) col = false) ->
  exists s' evs,
    import_from_csv to_datetime csv_file s = (Ok 0, s')
    /\ disk s' = disk s
    /\ trace s' = trace s ++ evs
    /\ inserts_in "trades" evs = 0%nat.
Proof.
  intros [col [Hin Hcol]].
  assert (Hreq : forallb (has_column (columns csv_file)) required_columns
                 = false).
  { destruct (forallb (has_column (columns csv_file)) required_columns)
      eqn:E; [| reflexivity].
    rewrite forallb_forall in E. rewrite (E col Hin) in Hcol.
    discriminate. }
  unfold import_from_csv, import_from_csv_try. rewrite Hreq.
  unfold_storage. unfold_monad.
  run_cases; eexists; eexists;
    (split; [reflexivity |]); store_simpl; (split; [reflexivity |]);
    (split; [repeat rewrite <- app_assoc; reflexivity |]);
    reflexivity.
Qed.

Lemma log_market_scan_fault_free
      (s : store) (pair signal : string) (price : Z)
      (strategy interval : option string) (ind : option indicators) :
  consistent s ->
  fault_free (faults s) ->
  exists s1,
    log_market_scan json_dumps pair signal price strategy interval ind s
    = (Ok (seq_market_scans (disk s) + 1), s1)
    /\ disk s1
       = fst (insert_market_scan (clock s) pair signal price strategy
                interval (indicators_str json_dumps ind) (clock s) (disk s))
    /\ work s1 = disk s1
    /\ conn s1 = true
    /\ fault_free (faults s1).
Proof.
  unfold consistent. intros Hcons Hff. no_faults Hff.
  unfold log_market_scan, insert_market_scan. unfold_storage. unfold_monad.
  destruct (conn s) eqn:Hc; run_cases; rewrite ?Hcons;
    eexists; (split; [reflexivity |]); store_simpl;
    (split; [reflexivity |]); (split; [reflexivity |]);
    (split; [first [reflexivity | exact Hc] |]);
    repeat apply fault_free_tl; exact Hff.
Qed.

Lemma get_market_scans_ready
      (pair signal : option string) (start_date end_date limit : option Z)
      (s : store) :
  conn s = true ->
  fault_free (faults s) ->
  exists s2,
    get_market_scans json_loads pair signal start_date end_date limit s
    = (Ok (map (fun r => mkScanView r
                           (parse_indicators json_loads (s_indicators r)))
               (select_market_scans pair signal start_date end_date limit
                                    (work s))),
       s2).
Proof.
  intros Hc Hff. no_faults Hff.
  unfold get_market_scans, get_market_scans_try.
  unfold_storage. unfold_monad.
  run_cases. eexists. reflexivity.
Qed.

Lemma get_latest_scan_ready (pair : option string) (s : store) :
  conn s = true ->
  fault_free (faults s) ->
  exists s2,
    get_latest_scan json_loads pair s
    = (Ok (latest_scan_of json_loads (select_latest_scan pair (work s))),
       s2).
Proof.
  intros Hc Hff. no_faults Hff.
  unfold get_latest_scan, get_latest_scan_try.
  unfold_storage. unfold_monad.
  run_cases. eexists. reflexivity.
Qed.

Lemma eq_filter_same (x : string) : eq_filter (Some x) x = true.
Proof. destruct x as [|c r]; [reflexivity |]. apply String.eqb_refl. Qed.

(** C9 (as amended).  On a store without open transaction whose storage
    layer does not fail, a scan logged with an empty indicator mapping and a
    status logged with an empty active-pair list are written exactly as with
    the argument omitted: the call returns the same identifier and leaves
    the same store, and the record it commits holds NULL in the structured
    column.  Reading that record back, [get_market_scans] gives the empty
    mapping, [get_bot_status] and [get_latest_status] give the empty list,
    while [get_latest_scan] reports the field as absent ([None]) rather
    than as an empty mapping; the two latest-of-type readers return the
    record whenever every other record of its table has a strictly earlier
    timestamp.  Hence no reader tells an empty input from an omitted
    one. *)
Theorem empty_input_equals_omitted_input
        (s : store) (pair signal : string)
        (price : Z) (strategy interval : option string)
        (status : string) (account_value : option Z)
        (message : option string) :
  consistent s ->
  fault_free (faults s) ->
  (exists s1 row,
     row = logged_scan (seq_market_scans (disk s) + 1) (clock s) pair signal
                       price strategy interval None
     /\ log_market_scan json_dumps pair signal price strategy interval
                        (Some []) s
        = (Ok (s_id row), s1)
     /\ log_market_scan json_dumps pair signal price strategy interval
                        None s
        = (Ok (s_id row), s1)
     /\ market_scans (disk s1) = market_scans (disk s) ++ [row]
     /\ (exists views s2,
           get_market_scans json_loads None None None None None s1
           = (Ok views, s2)
           /\ In (mkScanView row []) views
           /\ forall v, In v views -> sv_row v = row ->
                        indicators_dict v = [])
     /\ ((forall r, In r (market_scans (disk s)) ->
                    s_timestamp r < clock s) ->
         exists s2,
           get_latest_scan json_loads (Some pair) s1
           = (Ok (Some (mkScanDict row FieldNone)), s2)))
  /\ (exists s1 row,
        row = logged_status (seq_bot_status (disk s) + 1) (clock s) status
                            account_value None message
        /\ log_bot_status status account_value (Some (PyList [])) message s
           = (Ok (b_id row), s1)
        /\ log_bot_status status account_value None message s
           = (Ok (b_id row), s1)
        /\ bot_status (disk s1) = bot_status (disk s) ++ [row]
        /\ (exists views s2,
              get_bot_status None None None None s1 = (Ok views, s2)
              /\ In (mkStatusView row []) views
              /\ forall v, In v views -> stv_row v = row ->
                           active_pairs_list v = [])
        /\ ((forall r, In r (bot_status (disk s)) ->
                       b_timestamp r < clock s) ->
            exists s2,
              get_latest_status s1
              = (Ok (Some (mkStatusView row [])), s2))).
Proof.
  intros Hcons Hff. split.
  - destruct (log_market_scan_fault_free s pair signal price strategy
                interval None Hcons Hff)
      as (s1 & Hlog & Hdisk & Hwork & Hconn & Hff1).
    cbn [insert_market_scan indicators_str fst] in Hdisk.
    set (row := logged_scan (seq_market_scans (disk s) + 1) (clock s) pair
                            signal price strategy interval None) in *.
    assert (Htbl : market_scans (work s1) = market_scans (disk s) ++ [row])
      by (rewrite Hwork, Hdisk; reflexivity).
    exists s1, row.
    split; [reflexivity |].
    split; [exact Hlog |].
    split; [exact Hlog |].
    split; [rewrite Hdisk; reflexivity |].
    split.
    + destruct (get_market_scans_ready None None None None None s1
                  Hconn Hff1) as [s2 Hget].
      eexists. exists s2. split; [exact Hget |]. split.
      * apply in_map_iff. exists row. split; [reflexivity |].
        change (select_market_scans None None None None None (work s1))
          with (query_rows IndexBackwards s_timestamp
                  (where_market_scans None None None None) None
                  (market_scans (work s1))).
        apply query_rows_uncapped_in; [| reflexivity].
        rewrite Htbl. apply in_or_app. right. left. reflexivity.
      * intros v Hv Hrow. apply in_map_iff in Hv.
        destruct Hv as [r [<- _]]. cbn [sv_row indicators_dict] in *.
        subst r. reflexivity.
    + intros Hold.
      destruct (get_latest_scan_ready (Some pair) s1 Hconn Hff1)
        as [s2 Hget].
      exists s2. rewrite Hget. unfold select_latest_scan.
      rewrite Htbl. rewrite filter_snoc by apply eq_filter_same.
      rewrite order_by_desc_newest.
      * reflexivity.
      * intros r Hr. apply filter_In in Hr. apply Hold, Hr.
  - destruct (log_bot_status_fault_free s status account_value None message
                Hcons Hff)
      as (s1 & Hlog & Hdisk & Hwork & Hconn & Hff1).
    cbn [insert_bot_status active_pairs_str pairs_truthy fst] in Hdisk.
    set (row := logged_status (seq_bot_status (disk s) + 1) (clock s)
                              status account_value None message) in *.
    assert (Htbl : bot_status (work s1) = bot_status (disk s) ++ [row])
      by (rewrite Hwork, Hdisk; reflexivity).
    exists s1, row.
    split; [reflexivity |].
    split; [exact Hlog |].
    split; [exact Hlog |].
    split; [rewrite Hdisk; reflexivity |].
    split.
    + destruct (get_bot_status_ready None None None None s1 Hconn Hff1)
        as [s2 Hget].
      eexists. exists s2. split; [exact Hget |]. split.
      * apply in_map_iff. exists row. split; [reflexivity |].
        change (select_bot_status None None None None (work s1))
          with (query_rows TempBTree b_timestamp
                  (where_bot_status None None None) None
                  (bot_status (work s1))).
        apply query_rows_uncapped_in; [| reflexivity].
        rewrite Htbl. apply in_or_app. right. left. reflexivity.
      * intros v Hv Hrow. apply in_map_iff in Hv.
        destruct Hv as [r [<- _]]. cbn [stv_row active_pairs_list] in *.
        subst r. reflexivity.
    + intros Hold.
      destruct (get_latest_status_ready s1 Hconn Hff1) as [s2 Hget].
      exists s2. rewrite Hget. unfold select_latest_status.
      rewrite Htbl. rewrite order_by_desc_newest by exact Hold.
      reflexivity.
Qed.
End ImportAndScans.

(** ** No transaction stays open

    [consistent] is the state in which every method of the class leaves the
    store: the constructor establishes it, and the readers, [close] and the
    CSV import keep it; so do the writers, as shown with their atomicity
    above. *)

Lemma TradingDatabase_init_consistent (e : os_env) (loc : option string) :
  consistent (snd (TradingDatabase_init e loc)).
Proof.
  unfold consistent, TradingDatabase_init, create_tables.
  unfold_storage. unfold_monad.
  run_cases; reflexivity.
Qed.

Lemma close_consistent (s : store) :
  consistent s -> consistent (snd (close s)).
Proof.
  unfold consistent, close. unfold_storage. unfold_monad.
  intros H. destruct (conn s); store_simpl; [reflexivity | exact H].
Qed.

Section InvariantFacts.
Variable json_loads : string -> option indicators.
Variable to_datetime : string -> option Z.

Lemma run_read_consistent (op : read_op) (s : store) :
  consistent s -> consistent (snd (run_read json_loads op s)).
Proof.
  unfold consistent. intros H.
  destruct op;
    unfold run_read, get_trades, get_trades_try, get_market_scans,
      get_market_scans_try, get_bot_status, get_bot_status_try,
      get_latest_scan, get_latest_scan_try, get_latest_status,
      get_latest_status_try;
    unfold_storage; unfold_monad;
    run_cases; first [reflexivity | exact H].
Qed.

(** The import loop touches neither the committed content nor the
    connection. *)
Lemma insert_records_keeps_disk (df_columns cols : list string)
      (created_at : Z) (rs : list (Z * csv_record)) (count : Z) (s : store) :
  disk (snd (insert_records df_columns cols created_at rs count s)) = disk s
  /\ conn (snd (insert_records df_columns cols created_at rs count s))
     = conn s.
Proof.
  revert count s. induction rs as [|[ts r] rest IH]; intros count s.
  - split; reflexivity.
  - cbn [insert_records]. unfold bind.
    destruct (insert_record df_columns cols created_at (ts, r) s)
      as [x s1] eqn:E.
    assert (Hs1 : disk s1 = disk s /\ conn s1 = conn s).
    { revert E. unfold insert_record, insert_trade.
      destruct (c_pair r), (c_action r), (c_price r), (c_quantity r);
        unfold_storage; unfold_monad;
        destruct (next_fault (faults s));
        intros E; inversion E; subst; split; reflexivity. }
    destruct Hs1 as [Hd Hc].
    destruct x as [u | ex]; cbn [snd].
    + destruct (IH (count + 1) s1) as [IHd IHc].
      split; [ etransitivity; [exact IHd | exact Hd]
             | etransitivity; [exact IHc | exact Hc] ].
    + split; assumption.
Qed.

(** The [try] block of the import either ends with everything committed, or
    raises on a handle that holds a connection (which the handler rolls
    back) or that never got one. *)
Lemma import_from_csv_try_outcome (csv_file : csv_frame) (s : store) :
  consistent s ->
  let (r, s1) := import_from_csv_try to_datetime csv_file s in
  match r with
  | Ok _ => work s1 = disk s1
  | Raise _ => conn s1 = true \/ work s1 = disk s1
  end.
Proof.
  unfold consistent. intros H.
  unfold import_from_csv_try, ensure_connection, connect, sqlite3_connect,
    storage_call, utcnow.
  unfold_monad.
  destruct (forallb (has_column (columns csv_file)) required_columns);
    [destruct (convert_timestamps to_datetime (records csv_file))
       as [recs|] |];
    run_cases;
    try match goal with
        | |- context [insert_records ?a ?b ?c ?d ?e ?st] =>
            pose proof (insert_records_keeps_disk a b c d e st) as Hk;
            destruct (insert_records a b c d e st) as [y s2];
            cbn [snd] in Hk; destruct Hk as [Hd Hc]; store_simpl;
            destruct y as [m | ex0];
            [unfold conn_commit, storage_call; unfold_monad; store_simpl;
             destruct (next_fault (faults s2)); store_simpl |]
        end;
    first [ reflexivity
          | exact H
          | left; first [reflexivity | assumption | congruence]
          | right; exact H ].
Qed.

Lemma import_from_csv_consistent (csv_file : csv_frame) (s : store) :
  consistent s ->
  consistent (snd (import_from_csv to_datetime csv_file s)).
Proof.
  intros H.
  pose proof (import_from_csv_try_outcome csv_file s H) as Hout.
  unfold consistent, import_from_csv, try_except.
  destruct (import_from_csv_try to_datetime csv_file s) as [[n | ex] s1];
    cbn [snd]; [exact Hout |].
  unfold conn_rollback. unfold_monad.
  destruct (conn s1) eqn:Hc1; store_simpl;
    [reflexivity | destruct Hout as [Ht | Hw]; [discriminate Ht | exact Hw]].
Qed.
End InvariantFacts.

(** * Concrete runs *)

(** C1: the round trip on [eth_store], whose only trade is on another pair. *)
Lemma log_trade_get_trades_round_trip_witness :
  exists s1 s2,
    log_trade "BTCUSDT" "BUY" 50000 1 None None None (Some "TEST") eth_store
    = (Ok 2, s1)
    /\ get_trades (Some "BTCUSDT") None None None None s1
       = (Ok [mkTradeView
                (logged_trade 2 1700000000 "BTCUSDT" "BUY" 50000 1 None None
                              None (Some "TEST"))
                0],
          s2).
Proof.
  apply (log_trade_get_trades_round_trip eth_store "BTCUSDT" "BUY" 50000 1
           None None None (Some "TEST") (Some "BTCUSDT") None None None None).
  - reflexivity.
  - repeat constructor.
  - reflexivity.
  - reflexivity.
  - reflexivity.
  - intros r [<- | []]. reflexivity.
Defined.

(** C1 as stated fails when the store already holds a matching trade: after
    logging a second BTCUSDT trade, [get_trades(pair="BTCUSDT")] does not
    return exactly one row. *)
Lemma log_trade_get_trades_not_one_row :
  ~ exists v s2,
      get_trades (Some "BTCUSDT") None None None None
        (snd (log_trade "BTCUSDT" "BUY" 50000 1 None None None (Some "TEST")
                        btc_store))
      = (Ok [v], s2).
Proof.
  intros [v [s2 H]]. vm_compute in H. discriminate H.
Qed.

(** C2 as stated fails under a cap: with two trades of net profit 5 and 7 and
    [limit=1], the only row returned carries 7, not the prefix sum 12 over the
    filtered set. *)
Lemma get_trades_limit_truncates_cumulative :
  ~ cumulative_over_filtered_set None None None None (Some 1)
      two_trades_store.
Proof.
  intros H.
  specialize (H [mkTradeView btc_trade_2 7]
                (snd (get_trades None None None None (Some 1)
                                 two_trades_store))
                eq_refl
                (mkTradeView btc_trade_2 7) (or_introl eq_refl)).
  destruct H as [i [Hn Hc]].
  destruct i as [|[|i]]; vm_compute in Hn, Hc.
  - discriminate Hn.
  - discriminate Hc.
  - destruct i; discriminate Hn.
Qed.

(** C2: the running totals on [two_trades_store] without a cap. *)
Lemma get_trades_cumulative_prefix_sum_witness :
  exists views s',
    get_trades_try None None None None None two_trades_store = (Ok views, s')
    /\ views = [mkTradeView btc_trade_2 12; mkTradeView btc_trade_1 5]
    /\ newest_first tv_timestamp views
    /\ exists asc rest,
         oldest_first t_timestamp asc
         /\ Permutation (asc ++ rest) [btc_trade_1; btc_trade_2]
         /\ rest = []
         /\ Permutation views (with_cumulative asc).
Proof.
  exists [mkTradeView btc_trade_2 12; mkTradeView btc_trade_1 5].
  exists (snd (get_trades_try None None None None None two_trades_store)).
  assert (H : get_trades_try None None None None None two_trades_store
              = (Ok [mkTradeView btc_trade_2 12; mkTradeView btc_trade_1 5],
                 snd (get_trades_try None None None None None
                                     two_trades_store)))
    by reflexivity.
  destruct (get_trades_cumulative_prefix_sum _ _ _ _ _ _ _ _ H)
    as (_ & Hsorted & asc & rest & Hasc & Hperm & Hcap & _ & _ & Hviews & _).
  split; [exact H |]. split; [reflexivity |]. split; [exact Hsorted |].
  exists asc, rest.
  split; [exact Hasc |]. split; [exact Hperm |].
  split; [apply Hcap; reflexivity | exact Hviews].
Defined.

(** C3 as stated fails: on a closed handle the connection is re-opened, the
    INSERT fails once and [log_trade] raises at once, although the storage
    layer would have accepted a second attempt. *)
Lemma log_trade_raises_on_first_failure :
  ~ raises_only_on_second_failure
      (log_trade "BTCUSDT" "BUY" 50000 1 None None None None) flaky_store.
Proof.
  intros H.
  specialize (H (SqliteError "database is locked") eq_refl).
  vm_compute in H. lia.
Qed.

(** C3: the same run, event by event. *)
Lemma write_reconnects_and_never_retries_witness :
  conn flaky_store = false
  /\ fst (run_write sample_dumps
            (LogTrade "BTCUSDT" "BUY" 50000 1 None None None None)
            flaky_store)
     = Raise (SqliteError "database is locked")
  /\ trace (snd (run_write sample_dumps
                   (LogTrade "BTCUSDT" "BUY" 50000 1 None None None None)
                   flaky_store))
     = [EvConnect; EvPragma; EvInsert "trades"; EvRollback]
  /\ let (r, s') :=
       run_write sample_dumps
         (LogTrade "BTCUSDT" "BUY" 50000 1 None None None None) flaky_store in
     exists evs,
       trace s' = trace flaky_store ++ evs
       /\ (conn flaky_store = false -> hd_error evs = Some EvConnect)
       /\ (conn flaky_store = true -> ~ In EvConnect evs)
       /\ (inserts_in
             (write_table
                (LogTrade "BTCUSDT" "BUY" 50000 1 None None None None))
             evs <= 1)%nat
       /\ match r with
          | Ok _ =>
              first_fault (firstn (List.length evs) (faults flaky_store))
              = None
          | Raise e => first_fault (faults flaky_store) = Some e
          end.
Proof.
  split; [reflexivity |]. split; [reflexivity |]. split; [reflexivity |].
  exact (write_reconnects_and_never_retries sample_dumps
           (LogTrade "BTCUSDT" "BUY" 50000 1 None None None None)
           flaky_store).
Defined.

(** C4 as stated fails: a symbol with a comma is accepted as it is and comes
    back as two symbols. *)
Lemma log_bot_status_comma_symbol_is_split :
  ~ rejected_or_lossless ["BTC,USDT"] fresh_store.
Proof.
  unfold rejected_or_lossless.
  intros H. vm_compute in H. destruct H as [row [s2 H]]. discriminate H.
Qed.

(** C4: two plain symbols on a new store. *)
Lemma log_bot_status_active_pairs_round_trip_witness :
  consistent fresh_store
  /\ fault_free (faults fresh_store)
  /\ comma_free ["BTCUSDT"; "ETHUSDT"] = true
  /\ exists s1 s2 row,
       log_bot_status "RUNNING" (Some 10000)
                      (Some (PyList ["BTCUSDT"; "ETHUSDT"]))
                      (Some "Test status") fresh_store
       = (Ok (b_id row), s1)
       /\ bot_status (disk s1) = [row]
       /\ get_latest_status s1
          = (Ok (Some (mkStatusView row ["BTCUSDT"; "ETHUSDT"])), s2).
Proof.
  split; [reflexivity |]. split; [constructor |]. split; [reflexivity |].
  destruct (log_bot_status_active_pairs_round_trip fresh_store "RUNNING"
              (Some 10000) ["BTCUSDT"; "ETHUSDT"] (Some "Test status"))
    as (s1 & row & Hlog & Htbl & _ & _ & _ & _ & Hlatest).
  - reflexivity.
  - constructor.
  - reflexivity.
  - discriminate.
  - destruct Hlatest as [s2 Hget]; [intros r [] |].
    exists s1, s2, row.
    split; [exact Hlog |]. split; [exact Htbl | exact Hget].
Defined.

(** C5: importing [csv_without_price] into [btc_store]. *)
Lemma import_missing_required_column_witness :
  (exists col, In col required_columns
               /\ has_column (columns csv_without_price) col = false)
  /\ exists s' evs,
       import_from_csv sample_datetime csv_without_price btc_store
       = (Ok 0, s')
       /\ disk s' = disk btc_store
       /\ trace s' = trace btc_store ++ evs
       /\ inserts_in "trades" evs = 0%nat.
Proof.
  assert (H : exists col, In col required_columns
                          /\ has_column (columns csv_without_price) col
                             = false).
  { exists "price". split; [simpl; tauto | reflexivity]. }
  split; [exact H |].
  exact (import_missing_required_column sample_datetime csv_without_price
           btc_store H).
Defined.

(** C6: [get_db("a.db")] then [get_db("b.db")]. *)
Lemma get_db_returns_first_handle_witness :
  let h := fst (get_db (Some "a.db") new_process) in
  let p1 := snd (get_db (Some "a.db") new_process) in
  exists h0,
    h = Ok h0
    /\ get_db (Some "b.db") p1 = (Ok h0, p1)
    /\ _db_instance p1 = Some h0
    /\ db_file (h_store h0) = "a.db".
Proof.
  cbv zeta.
  destruct (get_db (Some "a.db") new_process) as [r p1] eqn:E.
  destruct r as [h0 | ex]; [| vm_compute in E; discriminate E].
  destruct (get_db_returns_first_handle new_process p1 (Some "a.db")
              (Some "b.db") h0 E) as (H2 & Hinst & Hfirst).
  exists h0. cbn [fst snd].
  split; [reflexivity |]. split; [exact H2 |]. split; [exact Hinst |].
  apply Hfirst. reflexivity.
Defined.

(** C7: a read on a store whose next storage call fails. *)
Lemma read_failures_are_absorbed_witness :
  fst (run_read sample_loads (GetTrades (Some "BTCUSDT") None None None None)
                failing_store)
  = Ok (TradesFrame [])
  /\ let (r, s') :=
       run_read sample_loads (GetTrades (Some "BTCUSDT") None None None None)
                failing_store in
     exists res evs,
       r = Ok res
       /\ trace s' = trace failing_store ++ evs
       /\ (forall e,
             first_fault (firstn (List.length evs) (faults failing_store))
             = Some e ->
             res = empty_result
                     (GetTrades (Some "BTCUSDT") None None None None))
       /\ (forall e s'',
             run_read_try sample_loads
               (GetTrades (Some "BTCUSDT") None None None None) failing_store
             = (Raise e, s'') ->
             res = empty_result
                     (GetTrades (Some "BTCUSDT") None None None None)).
Proof.
  split; [reflexivity |].
  exact (read_failures_are_absorbed sample_loads
           (GetTrades (Some "BTCUSDT") None None None None) failing_store).
Defined.

(** C8: a write that succeeds and a write that fails. *)
Lemma write_commits_or_rolls_back_witness :
  consistent btc_store
  /\ consistent failing_store
  /\ (exists s',
        run_write sample_dumps
          (LogMarketScan "BTCUSDT" "BUY" 50000 (Some "TEST") (Some "1h")
                         (Some [("rsi", IndNumber 30)]))
          btc_store = (Ok 1, s')
        /\ consistent s'
        /\ market_scans (disk s')
           = [logged_scan 1 1700000000 "BTCUSDT" "BUY" 50000 (Some "TEST")
                          (Some "1h") (Some "{...}")]
        /\ trades (disk s') = [btc_trade_1]
        /\ bot_status (disk s') = [])
  /\ (exists s',
        run_write sample_dumps
          (LogTrade "BTCUSDT" "SELL" 51000 1 (Some 7) None None None)
          failing_store = (Raise (SqliteError "disk I/O error"), s')
        /\ consistent s'
        /\ disk s' = disk failing_store).
Proof.
  split; [reflexivity |]. split; [reflexivity |]. split.
  - pose proof (write_commits_or_rolls_back sample_dumps
                  (LogMarketScan "BTCUSDT" "BUY" 50000 (Some "TEST")
                                 (Some "1h") (Some [("rsi", IndNumber 30)]))
                  btc_store eq_refl) as H.
    cbv beta iota delta [run_write] in H.
    destruct (log_market_scan sample_dumps "BTCUSDT" "BUY" 50000
                (Some "TEST") (Some "1h") (Some [("rsi", IndNumber 30)])
                btc_store) as [r s'] eqn:E.
    assert (Hr : r = Ok 1) by (injection E as <- _; reflexivity).
    subst r. destruct H as (Hc & _ & _ & Hscans & Htrades & Hstatus).
    exists s'. split; [exact E |]. split; [exact Hc |].
    split; [exact Hscans |]. split; [exact Htrades | exact Hstatus].
  - pose proof (write_commits_or_rolls_back sample_dumps
                  (LogTrade "BTCUSDT" "SELL" 51000 1 (Some 7) None None None)
                  failing_store eq_refl) as H.
    cbv beta iota delta [run_write] in H.
    destruct (log_trade "BTCUSDT" "SELL" 51000 1 (Some 7) None None None
                failing_store) as [r s'] eqn:E.
    assert (Hr : r = Raise (SqliteError "disk I/O error"))
      by (injection E as <- _; reflexivity).
    subst r. destruct H as (Hc & Hdisk & _).
    exists s'. split; [exact E |]. split; [exact Hc | exact Hdisk].
Defined.

(** C9 as stated fails for [get_latest_scan]: the scan logged with an empty
    mapping comes back with ['indicators'] equal to [None]. *)
Lemma get_latest_scan_keeps_null_indicators :
  ~ latest_scan_recovers_empty_mapping fresh_store.
Proof.
  intros [row [s2 H]]. vm_compute in H. discriminate H.
Qed.

(** C9: a scan logged with an empty mapping on a new store. *)
Lemma empty_input_equals_omitted_input_witness :
  consistent fresh_store
  /\ fault_free (faults fresh_store)
  /\ exists s1 s2,
       log_market_scan sample_dumps "BTCUSDT" "HOLD" 50000 None None
                       (Some []) fresh_store
       = (Ok 1, s1)
       /\ log_market_scan sample_dumps "BTCUSDT" "HOLD" 50000 None None
                          None fresh_store
          = (Ok 1, s1)
       /\ get_latest_scan sample_loads (Some "BTCUSDT") s1
          = (Ok (Some (mkScanDict
                         (logged_scan 1 1700000000 "BTCUSDT" "HOLD" 50000
                                      None None None)
                         FieldNone)),
             s2).
Proof.
  split; [reflexivity |]. split; [constructor |].
  destruct (empty_input_equals_omitted_input sample_dumps sample_loads
              fresh_store "BTCUSDT" "HOLD" 50000 None None
              "RUNNING" None None)
    as [(s1 & row & Hrow & Hempty & Hnone & _ & _ & Hlatest) _].
  - reflexivity.
  - constructor.
  - destruct Hlatest as [s2 Hget]; [intros r [] |].
    subst row. exists s1, s2.
    split; [exact Hempty |]. split; [exact Hnone | exact Hget].
Defined.

(** C10: a write and a read on [btc_store] after [close]. *)
Lemma operations_reconnect_after_close_witness :
  fault_free (faults btc_store)
  /\ conn (snd (close btc_store)) = false
  /\ fst (run_write sample_dumps
            (LogTrade "BTCUSDT" "SELL" 51000 1 (Some 7) None None None)
            (snd (close btc_store)))
     = Ok 2
  /\ fst (run_read sample_loads (GetTrades None None None None None)
                   (snd (close btc_store)))
     = Ok (TradesFrame [mkTradeView btc_trade_1 5])
  /\ conn (snd (run_read sample_loads (GetLatestStatus)
                         (snd (close btc_store))))
     = true.
Proof.
  assert (Hff : fault_free (faults btc_store)) by constructor.
  destruct (operations_reconnect_after_close sample_dumps sample_loads
              btc_store) as (Hclosed & _ & Hwrite & Hread).
  split; [exact Hff |]. split; [exact Hclosed |].
  split; [reflexivity |]. split; [reflexivity |].
  specialize (Hread GetLatestStatus).
  destruct (run_read sample_loads GetLatestStatus (snd (close btc_store)))
    as [r s'].
  destruct Hread as [_ Hok]. apply Hok. exact Hff.
Defined.

(** * Further properties of the module *)

(** ** Constructor, close and registry *)

(** X1.  [TradingDatabase(db_file)] is bound to the given file, or to
    [trading_bot.db] in the current directory when none is given.  Whether
    it returns or raises, the rows already in that file are untouched and no
    transaction is left open.  When it returns, the handle is connected and
    the nine storage calls (connect, PRAGMA, six CREATE ... IF NOT EXISTS,
    commit) all succeeded; when it raises, it raises the first failure. *)
Theorem TradingDatabase_init_outcome (e : os_env) (loc : option string) :
  let (r, s) := TradingDatabase_init e loc in
  db_file s = chosen_db_file e loc
  /\ disk s = files e (chosen_db_file e loc)
  /\ consistent s
  /\ match r with
     | Ok _ =>
         conn s = true
         /\ trace s = init_trace
         /\ first_fault (firstn 9 (os_faults e)) = None
     | Raise ex => first_fault (os_faults e) = Some ex
     end.
Proof.
  unfold TradingDatabase_init, create_tables, consistent, chosen_db_file.
  unfold_storage. unfold_monad.
  run_cases;
    (split; [reflexivity |]); (split; [reflexivity |]);
    (split; [reflexivity |]);
    first [ split; [reflexivity |]; split; [reflexivity |]; solve_faults
          | solve_faults ].
Qed.

(** X2.  [close] never raises and never touches the committed rows.  It
    leaves the handle without a connection; rows of a transaction still
    open on the connection are dropped.  It sends one close to the storage
    layer when a connection was held and nothing otherwise, so a second
    [close] changes nothing. *)
Theorem close_is_idempotent (s : store) :
  let (r, s1) := close s in
  r = Ok tt
  /\ conn s1 = false
  /\ disk s1 = disk s
  /\ (conn s = true -> work s1 = disk s)
  /\ trace s1 = trace s ++ (if conn s then [EvClose] else [])
  /\ close s1 = (Ok tt, s1).
Proof.
  unfold close. unfold_storage. unfold_monad.
  destruct (conn s) eqn:Hc; store_simpl.
  - repeat split; reflexivity.
  - rewrite Hc. rewrite app_nil_r.
    repeat split; try reflexivity; try assumption. discriminate.
Qed.

Lemma TradingDatabase_init_raises (e : os_env) (loc : option string)
      (ex : exn) (st : store) :
  TradingDatabase_init e loc = (Raise ex, st) ->
  first_fault (os_faults e) = Some ex.
Proof.
  unfold TradingDatabase_init, create_tables.
  unfold_storage. unfold_monad.
  run_cases; intros H; inversion H; subst; solve_faults.
Qed.

(** X3.  A failed construction is not remembered by [get_db]: the call
    raises the first storage failure and leaves [_db_instance] empty, so the
    next call constructs a handle again, bound to the location of that next
    call, and gives it a new identity. *)
Theorem get_db_failure_is_not_cached
        (p p1 : process) (loc1 : option string) (ex : exn) :
  get_db loc1 p = (Raise ex, p1) ->
  _db_instance p = None
  /\ _db_instance p1 = None
  /\ first_fault (os_faults (env p)) = Some ex
  /\ forall loc2 h p2,
       get_db loc2 p1 = (Ok h, p2) ->
       db_file (h_store h) = chosen_db_file (env p1) loc2
       /\ h_id h = S (next_object p)
       /\ _db_instance p2 = Some h.
Proof.
  unfold get_db. intros H.
  destruct (_db_instance p) as [h0|] eqn:Hinst; [discriminate H |].
  destruct (TradingDatabase_init (env p) loc1) as [[u|ex0] st] eqn:Einit;
    inversion H; subst.
  pose proof (TradingDatabase_init_raises _ _ _ _ Einit) as Hfault.
  split; [reflexivity |]. split; [reflexivity |]. split; [exact Hfault |].
  intros loc2 h p2 H2. cbn [_db_instance env next_object] in H2.
  pose proof (TradingDatabase_init_db_file
                (set_os_faults (faults st) (env p)) loc2) as Hfile.
  destruct (TradingDatabase_init (set_os_faults (faults st) (env p)) loc2)
    as [[u|ex1] st2]; inversion H2; subst.
  cbn [h_store h_id _db_instance env snd] in *.
  split; [exact Hfile |]. split; reflexivity.
Qed.

(** X3: a process whose first connection fails, then succeeds. *)
Lemma get_db_failure_is_not_cached_witness :
  fst (get_db (Some "a.db") unlucky_process)
  = Raise (SqliteError "unable to open database file")
  /\ _db_instance (snd (get_db (Some "a.db") unlucky_process)) = None
  /\ exists h p2,
       get_db (Some "b.db") (snd (get_db (Some "a.db") unlucky_process))
       = (Ok h, p2)
       /\ db_file (h_store h) = "b.db"
       /\ h_id h = 1%nat.
Proof.
  destruct (get_db (Some "a.db") unlucky_process) as [r p1] eqn:E.
  assert (Hr : r = Raise (SqliteError "unable to open database file")).
  { vm_compute in E. inversion E. reflexivity. }
  subst r.
  destruct (get_db_failure_is_not_cached unlucky_process p1 (Some "a.db")
              _ E) as (_ & Hnone & _ & Hnext).
  cbn [fst snd]. split; [reflexivity |]. split; [exact Hnone |].
  destruct (get_db (Some "b.db") p1) as [[h|ex] p2] eqn:E2.
  - destruct (Hnext (Some "b.db") h p2 E2) as (Hf & Hid & _).
    exists h, p2. split; [reflexivity |]. split; assumption.
  - exfalso. vm_compute in E. inversion E; subst. vm_compute in E2.
    discriminate E2.
Defined.

(** ** The readers *)

(** The newest matching row, as the two latest-of-type queries select it. *)
Lemma latest_row_spec {A} (p : plan) (ts : A -> Z) (f : A -> bool)
      (tbl : list A) :
  match firstn 1 (order_by_timestamp_desc p ts (filter f tbl)) with
  | [] => forall r, In r tbl -> f r = false
  | x :: _ =>
      In x tbl /\ f x = true
      /\ forall r, In r tbl -> f r = true -> ts r <= ts x
  end.
Proof.
  pose proof (order_by_desc_perm p ts (filter f tbl)) as Hperm.
  pose proof (order_by_desc_sorted p ts (filter f tbl)) as Hsorted.
  destruct (order_by_timestamp_desc p ts (filter f tbl)) as [|x o];
    cbn [firstn].
  - intros r Hr. destruct (f r) eqn:Hf; [| reflexivity].
    apply Permutation_nil in Hperm.
    assert (Hin : In r (filter f tbl)) by (apply filter_In; auto).
    rewrite Hperm in Hin. contradiction.
  - assert (Hx : In x (filter f tbl))
      by (apply (Permutation_in _ Hperm); left; reflexivity).
    apply filter_In in Hx. destruct Hx as [Hx Hfx].
    split; [exact Hx |]. split; [exact Hfx |].
    intros r Hr Hf.
    assert (Hin : In r (x :: o)).
    { apply (Permutation_in _ (Permutation_sym Hperm)).
      apply filter_In. auto. }
    inversion Hsorted as [|? ? _ Hall]; subst.
    destruct Hin as [<- | Hin]; [lia |].
    rewrite Forall_forall in Hall. apply Hall, Hin.
Qed.

Lemma filter_all {A} (l : list A) : filter (fun _ => true) l = l.
Proof.
  induction l as [|x r IH]; [reflexivity |]. simpl. rewrite IH. reflexivity.
Qed.

Lemma with_cumulative_trades (rows : list trade) :
  map tv_trade (with_cumulative rows) = rows.
Proof.
  unfold with_cumulative, cumsum. generalize 0 as acc.
  induction rows as [|x r IH]; intros acc; [reflexivity |].
  simpl. f_equal. apply IH.
Qed.

Lemma cumulative_frame_trades (df : list trade) :
  Permutation (map tv_trade (cumulative_frame df)) df.
Proof.
  rewrite cumulative_frame_sorted.
  eapply perm_trans.
  - apply Permutation_map, sort_values_perm.
  - rewrite with_cumulative_trades. apply sort_values_perm.
Qed.

(** X4.  The rows of a successful [get_trades] are stored trades that pass
    every filter given (pair, action, inclusive date range), each returned
    as often as it is stored; a positive [limit] bounds their number, and
    the trades it leaves out are never newer than the ones returned. *)
Theorem get_trades_returns_matching_trades
        pair action start_date end_date limit s views s' :
  get_trades_try pair action start_date end_date limit s = (Ok views, s') ->
  let matching := filter (where_trades pair action start_date end_date)
                         (trades (work s')) in
  (forall v, In v views ->
             In (tv_trade v) (trades (work s'))
             /\ where_trades pair action start_date end_date (tv_trade v)
                = true)
  /\ (forall n, limit = Some n -> 0 < n ->
                (List.length views <= Z.to_nat n)%nat)
  /\ exists rest,
       Permutation (map tv_trade views ++ rest) matching
       /\ (capped limit = false -> rest = [])
       /\ forall v b, In v views -> In b rest ->
                      t_timestamp b <= tv_timestamp v.
Proof.
  intros H matching.
  pose proof (get_trades_try_frame pair action start_date end_date limit s)
    as Hframe.
  rewrite H in Hframe.
  change (select_trades pair action start_date end_date limit (work s'))
    with (query_rows (trades_plan pair) t_timestamp
            (where_trades pair action start_date end_date) limit
            (trades (work s'))) in Hframe.
  destruct (query_rows_spec (trades_plan pair) t_timestamp
              (where_trades pair action start_date end_date) limit
              (trades (work s')))
    as (_ & Hin & Hlen & rest & Hperm & Hcap & Hnew).
  pose proof (cumulative_frame_trades
                (query_rows (trades_plan pair) t_timestamp
                   (where_trades pair action start_date end_date) limit
                   (trades (work s')))) as Hrows.
  rewrite <- Hframe in Hrows.
  split.
  { intros v Hv. apply Hin. apply (Permutation_in _ Hrows).
    apply in_map, Hv. }
  split.
  { intros n Hl Hn. rewrite <- (length_map tv_trade).
    rewrite (Permutation_length Hrows). apply (Hlen n Hl Hn). }
  exists rest. split.
  { eapply perm_trans; [| exact Hperm].
    apply Permutation_app_tail, Hrows. }
  split; [exact Hcap |].
  intros v b Hv Hb. unfold tv_timestamp. apply Hnew; [| exact Hb].
  apply (Permutation_in _ Hrows). apply in_map, Hv.
Qed.

(** X4: the newest of the two BTCUSDT trades under [limit=1]. *)
Lemma get_trades_returns_matching_trades_witness :
  exists views s',
    get_trades_try (Some "BTCUSDT") None None None (Some 1) two_trades_store
    = (Ok views, s')
    /\ (List.length views <= 1)%nat
    /\ forall v, In v views ->
                 where_trades (Some "BTCUSDT") None None None (tv_trade v)
                 = true.
Proof.
  destruct (get_trades_try (Some "BTCUSDT") None None None (Some 1)
                           two_trades_store) as [r s'] eqn:E.
  destruct r as [views | ex]; [| vm_compute in E; discriminate E].
  destruct (get_trades_returns_matching_trades _ _ _ _ _ _ _ _ E)
    as (Hin & Hlen & _).
  exists views, s'. split; [reflexivity |].
  split; [apply (Hlen 1 eq_refl); lia |].
  intros v Hv. apply Hin, Hv.
Defined.

Section ReaderFacts.
Variable json_loads : string -> option indicators.

Lemma get_market_scans_try_frame pair signal start_date end_date limit s :
  match get_market_scans_try json_loads pair signal start_date end_date
                             limit s with
  | (Ok views, s') =>
      views = map (fun r => mkScanView r
                              (parse_indicators json_loads (s_indicators r)))
                  (select_market_scans pair signal start_date end_date limit
                                       (work s'))
  | (Raise _, _) => True
  end.
Proof.
  unfold get_market_scans_try. unfold_storage. unfold_monad.
  run_cases; try exact I; reflexivity.
Qed.

Lemma get_bot_status_try_frame status start_date end_date limit s :
  match get_bot_status_try status start_date end_date limit s with
  | (Ok views, s') =>
      views = map (fun r => mkStatusView r
                              (parse_active_pairs (b_active_pairs r)))
                  (select_bot_status status start_date end_date limit
                                     (work s'))
  | (Raise _, _) => True
  end.
Proof.
  unfold get_bot_status_try. unfold_storage. unfold_monad.
  run_cases; try exact I; reflexivity.
Qed.

Lemma get_latest_scan_try_rows pair s :
  match get_latest_scan_try json_loads pair s with
  | (Ok res, s') =>
      res = latest_scan_of json_loads (select_latest_scan pair (work s'))
  | (Raise _, _) => True
  end.
Proof.
  unfold get_latest_scan_try. unfold_storage. unfold_monad.
  run_cases; try exact I; reflexivity.
Qed.

Lemma get_latest_status_try_rows s :
  match get_latest_status_try s with
  | (Ok res, s') => res = latest_status_of (select_latest_status (work s'))
  | (Raise _, _) => True
  end.
Proof.
  unfold get_latest_status_try. unfold_storage. unfold_monad.
  run_cases; try exact I; reflexivity.
Qed.

(** X5.  The rows of a successful [get_market_scans] are stored scans that
    pass every filter given (pair, signal, inclusive date range), newest
    first; a positive [limit] bounds their number and keeps the newest; each
    row carries in [indicators_dict] what [parse_indicators] makes of its
    stored text, the empty mapping when the text is NULL, empty or not
    valid JSON. *)
Theorem get_market_scans_returns_matching_scans
        pair signal start_date end_date limit s views s' :
  get_market_scans_try json_loads pair signal start_date end_date limit s
  = (Ok views, s') ->
  let matching := filter (where_market_scans pair signal start_date end_date)
                         (market_scans (work s')) in
  get_market_scans json_loads pair signal start_date end_date limit s
  = (Ok views, s')
  /\ newest_first s_timestamp (map sv_row views)
  /\ (forall v, In v views ->
                In (sv_row v) (market_scans (work s'))
                /\ where_market_scans pair signal start_date end_date
                     (sv_row v) = true
                /\ indicators_dict v
                   = parse_indicators json_loads (s_indicators (sv_row v))
                /\ (s_indicators (sv_row v) = None -> indicators_dict v = [])
                /\ (forall t, s_indicators (sv_row v) = Some t ->
                              json_loads t = None -> indicators_dict v = []))
  /\ (forall n, limit = Some n -> 0 < n ->
                (List.length views <= Z.to_nat n)%nat)
  /\ exists rest,
       Permutation (map sv_row views ++ rest) matching
       /\ (capped limit = false -> rest = [])
       /\ forall v b, In v views -> In b rest ->
                      s_timestamp b <= s_timestamp (sv_row v).
Proof.
  intros H matching.
  pose proof (get_market_scans_try_frame pair signal start_date end_date
                                         limit s) as Hframe.
  rewrite H in Hframe.
  change (select_market_scans pair signal start_date end_date limit (work s'))
    with (query_rows IndexBackwards s_timestamp
            (where_market_scans pair signal start_date end_date) limit
            (market_scans (work s'))) in Hframe.
  destruct (query_rows_spec IndexBackwards s_timestamp
              (where_market_scans pair signal start_date end_date) limit
              (market_scans (work s')))
    as (Hsorted & Hin & Hlen & rest & Hperm & Hcap & Hnew).
  assert (Hrows : map sv_row views
                  = query_rows IndexBackwards s_timestamp
                      (where_market_scans pair signal start_date end_date)
                      limit (market_scans (work s'))).
  { rewrite Hframe, map_map. cbn [sv_row]. apply map_id. }
  split.
  { unfold get_market_scans, try_except. rewrite H. reflexivity. }
  split; [rewrite Hrows; exact Hsorted |].
  split.
  { intros v Hv.
    assert (Hrow : In (sv_row v) (map sv_row views)) by (apply in_map, Hv).
    rewrite Hrows in Hrow. destruct (Hin _ Hrow) as [Ht Hf].
    assert (Hind : indicators_dict v
                   = parse_indicators json_loads (s_indicators (sv_row v))).
    { rewrite Hframe in Hv. apply in_map_iff in Hv.
      destruct Hv as [r [<- _]]. reflexivity. }
    split; [exact Ht |]. split; [exact Hf |]. split; [exact Hind |].
    split.
    - intros Hnull. rewrite Hind, Hnull. reflexivity.
    - intros t Ht' Hbad. rewrite Hind, Ht'. unfold parse_indicators.
      destruct t; [reflexivity |]. rewrite Hbad. reflexivity. }
  split.
  { intros n Hl Hn. rewrite <- (length_map sv_row), Hrows.
    apply (Hlen n Hl Hn). }
  exists rest. rewrite Hrows. split; [exact Hperm |].
  split; [exact Hcap |].
  intros v b Hv Hb. apply Hnew; [| exact Hb].
  rewrite <- Hrows. apply in_map, Hv.
Qed.

(** X6.  The rows of a successful [get_bot_status] are stored status records
    that pass the filters given (status, inclusive date range), newest
    first; a positive [limit] bounds their number and keeps the newest; each
    row carries in [active_pairs_list] the stored text split at its commas,
    the empty list when the text is NULL or empty. *)
Theorem get_bot_status_returns_matching_records
        status start_date end_date limit s views s' :
  get_bot_status_try status start_date end_date limit s = (Ok views, s') ->
  let matching := filter (where_bot_status status start_date end_date)
                         (bot_status (work s')) in
  get_bot_status status start_date end_date limit s = (Ok views, s')
  /\ newest_first b_timestamp (map stv_row views)
  /\ (forall v, In v views ->
                In (stv_row v) (bot_status (work s'))
                /\ where_bot_status status start_date end_date (stv_row v)
                   = true
                /\ active_pairs_list v
                   = match b_active_pairs (stv_row v) with
                     | Some (String c t) => split_comma (String c t)
                     | _ => []
                     end)
  /\ (forall n, limit = Some n -> 0 < n ->
                (List.length views <= Z.to_nat n)%nat)
  /\ exists rest,
       Permutation (map stv_row views ++ rest) matching
       /\ (capped limit = false -> rest = [])
       /\ forall v b, In v views -> In b rest ->
                      b_timestamp b <= b_timestamp (stv_row v).
Proof.
  intros H matching.
  pose proof (get_bot_status_try_frame status start_date end_date limit s)
    as Hframe.
  rewrite H in Hframe.
  change (select_bot_status status start_date end_date limit (work s'))
    with (query_rows TempBTree b_timestamp
            (where_bot_status status start_date end_date) limit
            (bot_status (work s'))) in Hframe.
  destruct (query_rows_spec TempBTree b_timestamp
              (where_bot_status status start_date end_date) limit
              (bot_status (work s')))
    as (Hsorted & Hin & Hlen & rest & Hperm & Hcap & Hnew).
  assert (Hrows : map stv_row views
                  = query_rows TempBTree b_timestamp
                      (where_bot_status status start_date end_date)
                      limit (bot_status (work s'))).
  { rewrite Hframe, map_map. cbn [stv_row]. apply map_id. }
  split.
  { unfold get_bot_status, try_except. rewrite H. reflexivity. }
  split; [rewrite Hrows; exact Hsorted |].
  split.
  { intros v Hv.
    assert (Hrow : In (stv_row v) (map stv_row views)) by (apply in_map, Hv).
    rewrite Hrows in Hrow. destruct (Hin _ Hrow) as [Ht Hf].
    assert (Hl : active_pairs_list v
                 = parse_active_pairs (b_active_pairs (stv_row v))).
    { rewrite Hframe in Hv. apply in_map_iff in Hv.
      destruct Hv as [r [<- _]]. reflexivity. }
    split; [exact Ht |]. split; [exact Hf |].
    rewrite Hl. unfold parse_active_pairs.
    destruct (b_active_pairs (stv_row v)) as [[|c t]|]; reflexivity. }
  split.
  { intros n Hl Hn. rewrite <- (length_map stv_row), Hrows.
    apply (Hlen n Hl Hn). }
  exists rest. rewrite Hrows. split; [exact Hperm |].
  split; [exact Hcap |].
  intros v b Hv Hb. apply Hnew; [| exact Hb].
  rewrite <- Hrows. apply in_map, Hv.
Qed.

(** X7.  When its read succeeds, [get_latest_scan(pair)] returns [None]
    exactly when no stored scan is on that pair; otherwise it returns a
    stored scan on that pair that no stored scan on that pair is newer than
    (any pair when [pair] is not given or empty).  Its ['indicators'] entry
    is the parsed mapping when the stored text is not empty, the empty
    mapping when that text is not valid JSON. *)
Theorem get_latest_scan_returns_newest (pair : option string) s res s' :
  get_latest_scan_try json_loads pair s = (Ok res, s') ->
  get_latest_scan json_loads pair s = (Ok res, s')
  /\ match res with
     | None =>
         forall r, In r (market_scans (work s')) ->
                   eq_filter pair (s_pair r) = false
     | Some d =>
         In (sd_row d) (market_scans (work s'))
         /\ eq_filter pair (s_pair (sd_row d)) = true
         /\ (forall r, In r (market_scans (work s')) ->
                       eq_filter pair (s_pair r) = true ->
                       s_timestamp r <= s_timestamp (sd_row d))
         /\ (forall c t, s_indicators (sd_row d) = Some (String c t) ->
                         sd_indicators d
                         = FieldDict (match json_loads (String c t) with
                                      | Some m => m
                                      | None => []
                                      end))
     end.
Proof.
  intros H.
  split; [unfold get_latest_scan, try_except; rewrite H; reflexivity |].
  pose proof (get_latest_scan_try_rows pair s) as Hrows.
  rewrite H in Hrows. subst res.
  pose proof (latest_row_spec IndexBackwards s_timestamp
                (fun r => eq_filter pair (s_pair r))
                (market_scans (work s'))) as Hlatest.
  unfold select_latest_scan, latest_scan_of.
  destruct (firstn 1
              (order_by_timestamp_desc IndexBackwards s_timestamp
                 (filter (fun r => eq_filter pair (s_pair r))
                         (market_scans (work s'))))) as [|x o].
  - exact Hlatest.
  - destruct Hlatest as (Hin & Hf & Hnew). cbn [sd_row sd_indicators].
    split; [exact Hin |]. split; [exact Hf |]. split; [exact Hnew |].
    intros c t Hs. rewrite Hs. unfold latest_indicators.
    destruct (json_loads (String c t)); reflexivity.
Qed.

(** X8.  When its read succeeds, [get_latest_status] returns [None] exactly
    when the status table is empty; otherwise it returns a stored record
    that no stored record is newer than, with [active_pairs_list] the stored
    text split at its commas, or the empty list for a NULL or empty text. *)
Theorem get_latest_status_returns_newest s res s' :
  get_latest_status_try s = (Ok res, s') ->
  get_latest_status s = (Ok res, s')
  /\ match res with
     | None => bot_status (work s') = []
     | Some v =>
         In (stv_row v) (bot_status (work s'))
         /\ (forall r, In r (bot_status (work s')) ->
                       b_timestamp r <= b_timestamp (stv_row v))
         /\ active_pairs_list v
            = match b_active_pairs (stv_row v) with
              | Some (String c t) => split_comma (String c t)
              | _ => []
              end
     end.
Proof.
  intros H.
  split; [unfold get_latest_status, try_except; rewrite H; reflexivity |].
  pose proof (get_latest_status_try_rows s) as Hrows.
  rewrite H in Hrows. subst res.
  pose proof (latest_row_spec TempBTree b_timestamp (fun _ => true)
                (bot_status (work s'))) as Hlatest.
  rewrite filter_all in Hlatest.
  unfold select_latest_status, latest_status_of.
  destruct (firstn 1 (order_by_timestamp_desc TempBTree b_timestamp
                        (bot_status (work s')))) as [|x o].
  - destruct (bot_status (work s')) as [|r l]; [reflexivity |].
    specialize (Hlatest r (or_introl eq_refl)). discriminate Hlatest.
  - destruct Hlatest as (Hin & _ & Hnew). cbn [stv_row active_pairs_list].
    split; [exact Hin |].
    split; [intros r Hr; apply Hnew; [exact Hr | reflexivity] |].
    unfold latest_active_pairs_list, truthy.
    destruct (b_active_pairs x) as [[|c t]|]; reflexivity.
Qed.

(** X9.  A Query Engine operation never writes: whatever the storage layer
    does, the committed rows and the location of the file are what they
    were.  The only calls it makes are the opening of a connection, one
    SELECT on its own table and, in the three frame readers, the rollback
    pandas issues when that SELECT fails.  On a handle that holds a
    connection the calls are exactly the SELECT, followed by the rollback
    when the SELECT of a frame reader fails. *)
Theorem run_read_is_read_only (op : read_op) (s : store) :
  let (r, s') := run_read json_loads op s in
  disk s' = disk s
  /\ db_file s' = db_file s
  /\ exists evs,
       trace s' = trace s ++ evs
       /\ Forall (read_only_event (read_table op)) evs
       /\ (In EvRollback evs -> frame_reader op = true)
       /\ (conn s = true ->
           evs = match next_fault (faults s) with
                 | Some _ =>
                     if frame_reader op
                     then [EvSelect (read_table op); EvRollback]
                     else [EvSelect (read_table op)]
                 | None => [EvSelect (read_table op)]
                 end).
Proof.
  destruct op;
    unfold run_read, get_trades, get_trades_try, get_market_scans,
      get_market_scans_try, get_bot_status, get_bot_status_try,
      get_latest_scan, get_latest_scan_try, get_latest_status,
      get_latest_status_try, read_table, frame_reader;
    unfold_storage; unfold_monad;
    run_cases;
    (split; [reflexivity |]); (split; [reflexivity |]);
    eexists; (split; [repeat rewrite <- app_assoc; reflexivity |]);
    cbn [app];
    (split; [repeat (first [ apply Forall_nil
                           | apply Forall_cons;
                             [unfold read_only_event; auto |] ]) |]);
    (split; [intros Hin; first [ reflexivity
                               | simpl in Hin;
                                 repeat (destruct Hin as [Hin | Hin];
                                         [discriminate Hin |]);
                                 contradiction ]
            | intros Hc; first [reflexivity | discriminate Hc]]).
Qed.
End ReaderFacts.

(** X5: the BTCUSDT scans of [scans_store]. *)
Lemma get_market_scans_returns_matching_scans_witness :
  exists views s',
    get_market_scans_try sample_loads (Some "BTCUSDT") None None None None
                         scans_store = (Ok views, s')
    /\ map sv_row views = [scan_btc_new; scan_btc_old]
    /\ newest_first s_timestamp (map sv_row views)
    /\ map indicators_dict views = [[("rsi", IndNumber 30)]; []].
Proof.
  destruct (get_market_scans_try sample_loads (Some "BTCUSDT") None None None
                                 None scans_store) as [r s'] eqn:E.
  destruct r as [views | ex]; [| vm_compute in E; discriminate E].
  destruct (get_market_scans_returns_matching_scans sample_loads _ _ _ _ _ _
              _ _ E) as (_ & Hsorted & _).
  exists views, s'. split; [reflexivity |].
  assert (Hv : views = [mkScanView scan_btc_new [("rsi", IndNumber 30)];
                        mkScanView scan_btc_old []]).
  { vm_compute in E. inversion E. reflexivity. }
  split; [rewrite Hv; reflexivity |]. split; [exact Hsorted |].
  rewrite Hv. reflexivity.
Defined.

(** X6: the status records of [scans_store]. *)
Lemma get_bot_status_returns_matching_records_witness :
  exists views s',
    get_bot_status_try None None None None scans_store = (Ok views, s')
    /\ map stv_row views = [status_running; status_started]
    /\ newest_first b_timestamp (map stv_row views)
    /\ map active_pairs_list views = [[]; ["BTCUSDT"; "ETHUSDT"]].
Proof.
  destruct (get_bot_status_try None None None None scans_store)
    as [r s'] eqn:E.
  destruct r as [views | ex]; [| vm_compute in E; discriminate E].
  destruct (get_bot_status_returns_matching_records _ _ _ _ _ _ _ E)
    as (_ & Hsorted & _).
  exists views, s'. split; [reflexivity |].
  assert (Hv : views = [mkStatusView status_running [];
                        mkStatusView status_started
                                     ["BTCUSDT"; "ETHUSDT"]]).
  { vm_compute in E. inversion E. reflexivity. }
  split; [rewrite Hv; reflexivity |]. split; [exact Hsorted |].
  rewrite Hv. reflexivity.
Defined.

(** X7: the latest BTCUSDT scan of [scans_store] is not the latest scan. *)
Lemma get_latest_scan_returns_newest_witness :
  exists d s',
    get_latest_scan_try sample_loads (Some "BTCUSDT") scans_store
    = (Ok (Some d), s')
    /\ sd_row d = scan_btc_new
    /\ forall r, In r (market_scans (work s')) ->
                 eq_filter (Some "BTCUSDT") (s_pair r) = true ->
                 s_timestamp r <= s_timestamp (sd_row d).
Proof.
  destruct (get_latest_scan_try sample_loads (Some "BTCUSDT") scans_store)
    as [r s'] eqn:E.
  assert (Hr : r = Ok (Some (mkScanDict scan_btc_new
                                        (FieldDict [("rsi", IndNumber 30)])))).
  { vm_compute in E. inversion E. reflexivity. }
  subst r.
  destruct (get_latest_scan_returns_newest sample_loads _ _ _ _ E)
    as (_ & _ & _ & Hnew & _).
  eexists. exists s'. split; [reflexivity |]. split; [reflexivity |].
  exact Hnew.
Defined.

(** X8: the latest status record of [scans_store]. *)
Lemma get_latest_status_returns_newest_witness :
  exists v s',
    get_latest_status_try scans_store = (Ok (Some v), s')
    /\ stv_row v = status_running
    /\ forall r, In r (bot_status (work s')) ->
                 b_timestamp r <= b_timestamp (stv_row v).
Proof.
  destruct (get_latest_status_try scans_store) as [r s'] eqn:E.
  assert (Hr : r = Ok (Some (mkStatusView status_running []))).
  { vm_compute in E. inversion E. reflexivity. }
  subst r.
  destruct (get_latest_status_returns_newest _ _ _ E) as (_ & _ & Hnew & _).
  eexists. exists s'. split; [reflexivity |]. split; [reflexivity |].
  exact Hnew.
Defined.

(** ** Edge arguments of the readers *)

Lemma eq_filter_empty (column : string) :
  eq_filter (Some "") column = eq_filter None column.
Proof. reflexivity. Qed.

Lemma apply_limit_nonpositive {A} (n : Z) (l : list A) :
  n <= 0 -> apply_limit (Some n) l = l.
Proof.
  intros Hn. apply apply_limit_uncapped. unfold capped.
  apply Z.ltb_ge. exact Hn.
Qed.

Lemma in_date_range_inverted (d1 d2 ts : Z) :
  d2 < d1 -> in_date_range (Some d1) (Some d2) ts = false.
Proof.
  intros H. unfold in_date_range.
  destruct (Z.leb_spec (86400 * d1) ts); [| reflexivity].
  destruct (Z.leb_spec ts (86400 * d2 + 86399)); [lia | reflexivity].
Qed.

(** X10.  Arguments that Python takes for false are ignored by the frame
    readers: an empty string for pair, action, signal or status filters
    nothing, and a [limit] of zero - or a negative one, which SQLite reads
    as no limit - returns every matching row.  So [limit=0] does not return
    an empty frame. *)
Theorem falsy_arguments_are_ignored
        (json_loads : string -> option indicators)
        (n : Z) (start_date end_date : option Z) (s : store) :
  n <= 0 ->
  get_trades (Some "") (Some "") start_date end_date (Some n) s
  = get_trades None None start_date end_date None s
  /\ get_bot_status (Some "") start_date end_date (Some n) s
     = get_bot_status None start_date end_date None s
  /\ get_market_scans json_loads (Some "") (Some "") start_date end_date
                      (Some n) s
     = get_market_scans json_loads None None start_date end_date None s
  /\ forall views s',
       get_trades_try None None start_date end_date (Some n) s
       = (Ok views, s') ->
       Permutation (map tv_trade views)
         (filter (fun r => in_date_range start_date end_date (t_timestamp r))
                 (trades (work s'))).
Proof.
  intros Hn.
  assert (Ht : forall d,
             select_trades (Some "") (Some "") start_date end_date (Some n) d
             = select_trades None None start_date end_date None d).
  { intros d. unfold select_trades. apply apply_limit_nonpositive, Hn. }
  assert (Hb : forall d,
             select_bot_status (Some "") start_date end_date (Some n) d
             = select_bot_status None start_date end_date None d).
  { intros d. unfold select_bot_status. apply apply_limit_nonpositive, Hn. }
  split.
  { unfold get_trades, get_trades_try. unfold_storage. unfold_monad.
    run_cases; rewrite ?Ht; reflexivity. }
  split.
  { unfold get_bot_status, get_bot_status_try. unfold_storage. unfold_monad.
    run_cases; rewrite ?Hb; reflexivity. }
  split.
  { assert (Hm : forall d,
               select_market_scans (Some "") (Some "") start_date end_date
                                   (Some n) d
               = select_market_scans None None start_date end_date None d).
    { intros d. unfold select_market_scans.
      apply apply_limit_nonpositive, Hn. }
    unfold get_market_scans, get_market_scans_try.
    unfold_storage. unfold_monad.
    run_cases; rewrite ?Hm; reflexivity. }
  intros views s' H.
  pose proof (get_trades_try_frame None None start_date end_date (Some n) s)
    as Hframe.
  rewrite H in Hframe. subst views.
  eapply perm_trans; [apply cumulative_frame_trades |].
  unfold select_trades. rewrite apply_limit_nonpositive by exact Hn.
  apply order_by_desc_perm.
Qed.

(** X10: [limit=0] on the store with two trades returns both. *)
Lemma falsy_arguments_are_ignored_witness :
  fst (get_trades (Some "") (Some "") None None (Some 0) two_trades_store)
  = Ok [mkTradeView btc_trade_2 12; mkTradeView btc_trade_1 5]
  /\ get_trades (Some "") (Some "") None None (Some 0) two_trades_store
     = get_trades None None None None None two_trades_store.
Proof.
  split; [reflexivity |].
  apply (falsy_arguments_are_ignored sample_loads 0 None None
           two_trades_store).
  lia.
Defined.

Lemma query_rows_no_match {A} (p : plan) (ts : A -> Z) (f : A -> bool)
      (limit : option Z) (tbl : list A) :
  (forall r, f r = false) -> query_rows p ts f limit tbl = [].
Proof.
  intros H. unfold query_rows.
  rewrite filter_none by (intros r _; apply H).
  assert (Hnil : order_by_timestamp_desc p ts (@nil A) = [])
    by (destruct p; reflexivity).
  rewrite Hnil.
  destruct (apply_limit_cases limit (@nil A))
    as [[_ ->] | [n [_ [_ ->]]]]; [reflexivity |].
  apply firstn_nil.
Qed.

(** X11.  A date range whose end lies before its start matches nothing: the
    three frame readers return an empty frame, whatever else is asked and
    whatever the storage layer does. *)
Theorem inverted_date_range_is_empty
        (json_loads : string -> option indicators)
        (pair action signal status : option string) (d1 d2 : Z)
        (limit : option Z) (s : store) :
  d2 < d1 ->
  fst (get_trades pair action (Some d1) (Some d2) limit s) = Ok []
  /\ fst (get_market_scans json_loads pair signal (Some d1) (Some d2) limit s)
     = Ok []
  /\ fst (get_bot_status status (Some d1) (Some d2) limit s) = Ok [].
Proof.
  intros Hd.
  assert (Ht : forall d,
             select_trades pair action (Some d1) (Some d2) limit d = []).
  { intros d. apply (query_rows_no_match (trades_plan pair) t_timestamp).
    intros r.
    unfold where_trades. rewrite in_date_range_inverted by exact Hd.
    apply andb_false_r. }
  assert (Hm : forall d,
             select_market_scans pair signal (Some d1) (Some d2) limit d
             = []).
  { intros d. apply (query_rows_no_match IndexBackwards s_timestamp). intros r.
    unfold where_market_scans. rewrite in_date_range_inverted by exact Hd.
    apply andb_false_r. }
  assert (Hb : forall d,
             select_bot_status status (Some d1) (Some d2) limit d = []).
  { intros d. apply (query_rows_no_match TempBTree b_timestamp). intros r.
    unfold where_bot_status. rewrite in_date_range_inverted by exact Hd.
    apply andb_false_r. }
  split; [| split].
  - unfold get_trades, get_trades_try. unfold_storage. unfold_monad.
    run_cases; rewrite ?Ht; reflexivity.
  - unfold get_market_scans, get_market_scans_try.
    unfold_storage. unfold_monad.
    run_cases; rewrite ?Hm; reflexivity.
  - unfold get_bot_status, get_bot_status_try.
    unfold_storage. unfold_monad.
    run_cases; rewrite ?Hb; reflexivity.
Qed.

(** X11: the range from day 19676 back to day 19675 on [two_trades_store]. *)
Lemma inverted_date_range_is_empty_witness :
  19675 < 19676
  /\ fst (get_trades None None (Some 19676) (Some 19675) None
                     two_trades_store) = Ok [].
Proof.
  split; [lia |].
  apply (inverted_date_range_is_empty sample_loads None None None None
           19676 19675 None two_trades_store).
  lia.
Defined.

(** ** The running total in presentation order *)

Lemma insert_by_last {A} (key : A -> Z) (x : A) (l : list A) :
  Forall (fun y => key y < key x) l -> insert_by key x l = l ++ [x].
Proof.
  induction l as [|y r IH]; intros H; [reflexivity |].
  inversion H as [|? ? Hy Hr]; subst. simpl.
  destruct (Z.leb_spec (key x) (key y)); [lia |].
  rewrite IH by exact Hr. reflexivity.
Qed.

Lemma sort_by_descending_of_strict {A} (ts : A -> Z) (l : list A) :
  StronglySorted (fun a b => ts a < ts b) l ->
  sort_by (fun r => - ts r) l = rev l.
Proof.
  intros Hs. induction Hs as [|a l' _ IH Hall]; [reflexivity |].
  simpl. rewrite IH. apply insert_by_last.
  apply Forall_rev. eapply Forall_impl; [| exact Hall].
  intros b Hb. simpl in Hb. lia.
Qed.

Lemma sorted_distinct_is_strict {A} (ts : A -> Z) (l : list A) :
  StronglySorted (key_le ts) l ->
  NoDup (map ts l) ->
  StronglySorted (fun a b => ts a < ts b) l.
Proof.
  intros Hs. induction Hs as [|a l' _ IH Hall]; intros Hnd; [constructor |].
  simpl in Hnd. inversion Hnd as [|? ? Hnotin Hnd']; subst.
  constructor; [apply IH; exact Hnd' |].
  rewrite Forall_forall in *. intros b Hb.
  pose proof (Hall b Hb) as Hle. unfold key_le in Hle.
  assert (ts a <> ts b).
  { intros Heq. apply Hnotin. rewrite Heq. apply in_map, Hb. }
  lia.
Qed.

Lemma StronglySorted_of_map {A B} (f : A -> B) (R : B -> B -> Prop)
      (l : list A) :
  StronglySorted R (map f l) ->
  StronglySorted (fun a b => R (f a) (f b)) l.
Proof.
  induction l as [|x r IH]; intros Hs; [constructor |].
  simpl in Hs. inversion Hs as [|? ? Hs' Hall]; subst.
  constructor; [apply IH; exact Hs' |].
  rewrite Forall_forall in *. intros y Hy. apply Hall, in_map, Hy.
Qed.

Lemma net_profit_sum_perm (l1 l2 : list trade) :
  Permutation l1 l2 -> net_profit_sum l1 = net_profit_sum l2.
Proof.
  unfold net_profit_sum.
  induction 1 as [| x l l' _ IH | x y l | l l' l'' _ IH1 _ IH2]; simpl;
    lia.
Qed.

Lemma with_cumulative_from_split (rows : list trade) (acc : Z)
      (l1 l2 : list trade_view) (v : trade_view) :
  map (fun p => mkTradeView (fst p) (snd p))
      (combine rows
         (cumsum_from acc (map (fun r => fillna0 (t_net_profit r)) rows)))
  = l1 ++ v :: l2 ->
  cumulative_net_profit v
  = acc + net_profit_sum (map tv_trade l1)
    + fillna0 (t_net_profit (tv_trade v)).
Proof.
  revert acc l1. induction rows as [|x r IH]; intros acc l1 H.
  - destruct l1; discriminate H.
  - simpl in H. destruct l1 as [|w l1'].
    + simpl in H. inversion H; subst. cbn. lia.
    + simpl in H. inversion H as [[Hw Hrest]].
      apply IH in Hrest. rewrite Hrest.
      unfold net_profit_sum. cbn. lia.
Qed.

(** X12.  When the rows a successful [get_trades] returns have pairwise
    distinct timestamps, the running total reads bottom-up in the returned
    frame: the [cumulative_net_profit] of a row is its own net profit plus
    the net profits of all the rows listed after it (absent counted as
    zero).  So the first row carries the total over the returned rows, and
    the last row - the one [DataFrame.iloc[-1]] picks - carries only its own
    net profit. *)
Theorem get_trades_cumulative_reads_bottom_up
        pair action start_date end_date limit s views s' :
  get_trades_try pair action start_date end_date limit s = (Ok views, s') ->
  NoDup (map tv_timestamp views) ->
  (forall before v after,
      views = before ++ v :: after ->
      cumulative_net_profit v
      = fillna0 (t_net_profit (tv_trade v))
        + net_profit_sum (map tv_trade after))
  /\ (forall v rest,
         views = v :: rest ->
         cumulative_net_profit v = net_profit_sum (map tv_trade views))
  /\ (forall before v,
         views = before ++ [v] ->
         cumulative_net_profit v = fillna0 (t_net_profit (tv_trade v))).
Proof.
  intros H Hnd.
  pose proof (get_trades_try_frame pair action start_date end_date limit s)
    as Hframe.
  rewrite H in Hframe. rewrite cumulative_frame_sorted in Hframe.
  set (df := select_trades pair action start_date end_date limit (work s'))
    in *.
  set (asc := sort_values t_timestamp true df) in *.
  assert (Hperm : Permutation views (with_cumulative asc))
    by (rewrite Hframe; apply sort_values_perm).
  assert (Hts : map tv_timestamp (with_cumulative asc)
                = map t_timestamp asc).
  { unfold tv_timestamp. rewrite <- (map_map tv_trade t_timestamp).
    rewrite with_cumulative_trades. reflexivity. }
  assert (Hstrict : StronglySorted
                      (fun a b => tv_timestamp a < tv_timestamp b)
                      (with_cumulative asc)).
  { apply (StronglySorted_of_map tv_trade
             (fun a b => t_timestamp a < t_timestamp b)).
    rewrite with_cumulative_trades.
    apply sorted_distinct_is_strict.
    - apply (sort_by_sorted t_timestamp).
    - rewrite <- Hts.
      apply (Permutation_NoDup (Permutation_map tv_timestamp Hperm) Hnd). }
  assert (Hrev : views = rev (with_cumulative asc)).
  { rewrite Hframe. unfold sort_values.
    apply sort_by_descending_of_strict, Hstrict. }
  assert (Hmain : forall before v after,
             views = before ++ v :: after ->
             cumulative_net_profit v
             = fillna0 (t_net_profit (tv_trade v))
               + net_profit_sum (map tv_trade after)).
  { intros before v after Hsplit.
    assert (HL : with_cumulative asc = rev after ++ v :: rev before).
    { rewrite <- (rev_involutive (with_cumulative asc)), <- Hrev, Hsplit.
      rewrite rev_app_distr. simpl. rewrite <- app_assoc. reflexivity. }
    unfold with_cumulative, cumsum in HL.
    apply with_cumulative_from_split in HL. rewrite HL.
    rewrite (net_profit_sum_perm (map tv_trade (rev after))
                                 (map tv_trade after)).
    - lia.
    - apply Permutation_map, Permutation_sym, Permutation_rev. }
  split; [exact Hmain |]. split.
  - intros v rest Hv. rewrite (Hmain [] v rest Hv). rewrite Hv.
    unfold net_profit_sum. cbn. reflexivity.
  - intros before v Hv. rewrite (Hmain before v [] Hv).
    unfold net_profit_sum. cbn. lia.
Qed.

(** X12: the two trades of [two_trades_store], net profits 5 and 7. *)
Lemma get_trades_cumulative_reads_bottom_up_witness :
  exists views s',
    get_trades_try None None None None None two_trades_store
    = (Ok views, s')
    /\ NoDup (map tv_timestamp views)
    /\ (forall v rest, views = v :: rest -> cumulative_net_profit v = 12)
    /\ (forall before v, views = before ++ [v] ->
                          cumulative_net_profit v = 5).
Proof.
  destruct (get_trades_try None None None None None two_trades_store)
    as [r s'] eqn:E.
  assert (Hr : r = Ok [mkTradeView btc_trade_2 12; mkTradeView btc_trade_1 5]).
  { vm_compute in E. inversion E. reflexivity. }
  subst r.
  assert (Hnd : NoDup (map tv_timestamp
                         [mkTradeView btc_trade_2 12;
                          mkTradeView btc_trade_1 5])).
  { repeat constructor; simpl; intuition discriminate. }
  destruct (get_trades_cumulative_reads_bottom_up _ _ _ _ _ _ _ _ E Hnd)
    as (_ & Hfirst & Hlast).
  eexists. exists s'. split; [reflexivity |]. split; [exact Hnd |].
  split.
  - intros v rest Hv. rewrite (Hfirst v rest Hv). reflexivity.
  - intros before v Hv. rewrite (Hlast before v Hv).
    destruct before as [|a [|b before]]; inversion Hv; subst;
      [reflexivity | destruct before; discriminate].
Defined.

(** ** The stored active-pair text *)

Lemma split_comma_not_nil (s : string) : split_comma s <> [].
Proof.
  destruct s as [|c r]; simpl; [discriminate |].
  destruct (Ascii.eqb c comma); [discriminate |].
  destruct (split_comma r); discriminate.
Qed.

Lemma join_comma_cons_char (c : ascii) (h : string) (t : list string) :
  join_comma (String c h :: t) = String c (join_comma (h :: t)).
Proof. destruct t; reflexivity. Qed.

(** Splitting at the commas and joining again gives the text back. *)
Lemma join_split_comma (s : string) : join_comma (split_comma s) = s.
Proof.
  induction s as [|c r IH]; [reflexivity |].
  simpl. destruct (Ascii.eqb_spec c comma) as [-> | Hc].
  - destruct (split_comma r) as [|h t] eqn:E.
    + exfalso. apply (split_comma_not_nil r E).
    + change (join_comma ("" :: h :: t))
        with (String comma (join_comma (h :: t))).
      rewrite IH. reflexivity.
  - destruct (split_comma r) as [|h t] eqn:E.
    + exfalso. apply (split_comma_not_nil r E).
    + rewrite join_comma_cons_char, IH. reflexivity.
Qed.

(** X13.  What [log_bot_status] stores for a list of symbols is stable under
    reading and writing back: the list a reader recovers from the stored
    text - even when commas inside symbols made it differ from the list
    written - is stored as the very same text and read back unchanged.  The
    one exception is the list holding only the empty symbol, stored as an
    empty text, which reads back as the empty list. *)
Theorem stored_active_pairs_are_stable (l : list string) :
  l <> [""] ->
  let read := parse_active_pairs (active_pairs_str (Some (PyList l))) in
  active_pairs_str (Some (PyList read)) = active_pairs_str (Some (PyList l))
  /\ parse_active_pairs (active_pairs_str (Some (PyList read))) = read
  /\ latest_active_pairs_list (active_pairs_str (Some (PyList l))) = read.
Proof.
  intros Hne. destruct l as [|x r]; [repeat split |].
  assert (Hnil : x :: r <> []) by discriminate.
  destruct (join_comma_nonempty (x :: r) Hnil Hne) as [c [t Hj]].
  assert (Hstored : active_pairs_str (Some (PyList (x :: r)))
                    = Some (String c t)).
  { unfold active_pairs_str. cbn [pairs_truthy]. rewrite Hj. reflexivity. }
  rewrite Hstored.
  cbn [parse_active_pairs latest_active_pairs_list truthy].
  assert (Hstable : active_pairs_str (Some (PyList (split_comma (String c t))))
                    = Some (String c t)).
  { unfold active_pairs_str.
    destruct (split_comma (String c t)) as [|h u] eqn:E.
    - exfalso. apply (split_comma_not_nil _ E).
    - cbn [pairs_truthy]. rewrite <- E, join_split_comma. reflexivity. }
  rewrite Hstable. repeat split.
Qed.

(** X13: a symbol with a comma. *)
Lemma stored_active_pairs_are_stable_witness :
  parse_active_pairs (active_pairs_str (Some (PyList ["BTC,USDT"; "ETH"])))
  = ["BTC"; "USDT"; "ETH"]
  /\ active_pairs_str (Some (PyList ["BTC"; "USDT"; "ETH"]))
     = active_pairs_str (Some (PyList ["BTC,USDT"; "ETH"])).
Proof.
  split; [reflexivity |].
  apply (stored_active_pairs_are_stable ["BTC,USDT"; "ETH"]).
  discriminate.
Defined.

(** ** Identifiers and append-only tables *)

Section WriterFacts.
Variable json_dumps : indicators -> string.

(** X14.  A Recorder call only appends: whether it returns or raises, every
    row committed before is still there, in place, in all three tables.
    When it returns, the identifier it hands out is larger than every
    identifier in use in its table, is the identifier of a committed row,
    and the identifiers stay within the table counters; so identifiers are
    never reused. *)
Theorem write_appends_with_a_new_identifier (op : write_op) (s : store) :
  consistent s ->
  ids_within_counters (disk s) ->
  let (r, s') := run_write json_dumps op s in
  appended_only (disk s) (disk s')
  /\ ids_within_counters (disk s')
  /\ match r with
     | Ok rowid =>
         Forall (fun i => i < rowid) (table_ids op (disk s))
         /\ table_ids op (disk s') = table_ids op (disk s) ++ [rowid]
     | Raise _ => disk s' = disk s
     end.
Proof.
  unfold consistent, ids_within_counters. intros Hcons (Ht & Hm & Hb).
  assert (Hsame : appended_only (disk s) (disk s)).
  { repeat split; exists []; rewrite app_nil_r; reflexivity. }
  assert (Hlt : forall (l : list Z) (q : Z),
             Forall (fun i => i <= q) l ->
             Forall (fun i => i < q + 1) l
             /\ Forall (fun i => i <= q + 1) (l ++ [q + 1])).
  { intros l q H. split.
    - eapply Forall_impl; [| exact H]. intros; simpl in *; lia.
    - apply Forall_app. split.
      + eapply Forall_impl; [| exact H]. intros; simpl in *; lia.
      + repeat constructor. lia. }
  destruct (Hlt _ _ Ht) as [Ht1 Ht2].
  destruct (Hlt _ _ Hm) as [Hm1 Hm2].
  destruct (Hlt _ _ Hb) as [Hb1 Hb2].
  destruct op;
    unfold run_write, log_trade, log_market_scan, log_bot_status,
      insert_trade, insert_market_scan, insert_bot_status, table_ids;
    unfold_storage; unfold_monad;
    run_cases; rewrite ?Hcons;
    cbn [trades market_scans bot_status seq_trades seq_market_scans
         seq_bot_status];
    rewrite ?map_app; cbn [map t_id s_id b_id];
    first
      [ (* the call raised: nothing changed *)
        split; [exact Hsame |]; split; [repeat split; assumption |];
        reflexivity
      | (* the call returned *)
        split;
        [ unfold appended_only;
          cbn [trades market_scans bot_status];
          repeat split;
          first [ eexists; reflexivity
                | exists []; rewrite app_nil_r; reflexivity ]
        | split; [repeat split; assumption |];
          split; [assumption | reflexivity] ] ].
Qed.
End WriterFacts.

(** X14: a second trade on [btc_store] gets identifier 2. *)
Lemma write_appends_with_a_new_identifier_witness :
  consistent btc_store
  /\ ids_within_counters (disk btc_store)
  /\ fst (run_write sample_dumps
            (LogTrade "BTCUSDT" "SELL" 51000 1 (Some 7) None None None)
            btc_store) = Ok 2
  /\ appended_only (disk btc_store)
       (disk (snd (run_write sample_dumps
                     (LogTrade "BTCUSDT" "SELL" 51000 1 (Some 7) None None
                               None)
                     btc_store))).
Proof.
  assert (Hc : consistent btc_store) by reflexivity.
  assert (Hi : ids_within_counters (disk btc_store)).
  { repeat split; repeat constructor. simpl. lia. }
  split; [exact Hc |]. split; [exact Hi |]. split; [reflexivity |].
  pose proof (write_appends_with_a_new_identifier sample_dumps
                (LogTrade "BTCUSDT" "SELL" 51000 1 (Some 7) None None None)
                btc_store Hc Hi) as H.
  destruct (run_write sample_dumps
              (LogTrade "BTCUSDT" "SELL" 51000 1 (Some 7) None None None)
              btc_store) as [r s'].
  exact (proj1 H).
Defined.

(** ** The CSV import *)

Lemma append_trades_cons (row : trade) (rows : list trade) (d : database) :
  append_trades rows
    (mkDatabase (trades d ++ [row]) (market_scans d) (bot_status d)
                (seq_trades d + 1) (seq_market_scans d) (seq_bot_status d))
  = append_trades (row :: rows) d.
Proof.
  unfold append_trades. cbn [trades market_scans bot_status seq_trades
                             seq_market_scans seq_bot_status List.length].
  rewrite <- app_assoc. cbn [app].
  f_equal. rewrite Nat2Z.inj_succ. lia.
Qed.

Lemma append_trades_nil (d : database) : append_trades [] d = d.
Proof.
  unfold append_trades. cbn [List.length Z.of_nat].
  rewrite app_nil_r, Z.add_0_r. destruct d; reflexivity.
Qed.

(** The import loop, run on a store: when it ends without raising, it has
    added to the connection's view the trades that the records become, in
    order, and counted them; no storage call it made failed. *)
Lemma insert_records_outcome (df_columns : list string) (created_at : Z)
      (rs : list (Z * csv_record)) (count : Z) (s : store) :
  match insert_records df_columns (import_columns df_columns) created_at rs
                       count s with
  | (Ok n, s') =>
      exists rows,
        imported_trades df_columns created_at (seq_trades (work s) + 1) rs
        = Some rows
        /\ work s' = append_trades rows (work s)
        /\ n = count + Z.of_nat (List.length rs)
  | (Raise _, _) => True
  end.
Proof.
  revert count s. induction rs as [|[ts r] rest IH]; intros count s.
  - cbn. exists []. rewrite append_trades_nil.
    repeat split; lia.
  - cbn [insert_records imported_trades]. unfold bind.
    unfold insert_record, imported_trade. cbn [fst snd].
    destruct (c_pair r) as [p|], (c_action r) as [a|], (c_price r) as [pr|],
      (c_quantity r) as [q|];
      unfold cursor_execute_insert, insert_trade, storage_call;
      unfold_monad; store_simpl;
      destruct (next_fault (faults s)); try exact I.
    match goal with
    | |- context [insert_records ?a ?b ?c rest ?n ?st] =>
        specialize (IH n st);
        destruct (insert_records a b c rest n st) as [[m|ex] s2]
    end; [| exact I].
    destruct IH as [rows [Hrows [Hwork Hm]]].
    store_simpl. cbn [seq_trades] in Hrows.
    rewrite Hrows. eexists. split; [reflexivity |].
    split.
    + rewrite Hwork. apply append_trades_cons.
    + rewrite Hm. cbn [List.length]. rewrite Nat2Z.inj_succ. lia.
Qed.

(** The import loop on a storage layer that does not fail, for records
    without an empty NOT NULL cell. *)
Lemma insert_records_fault_free (df_columns : list string) (created_at : Z)
      (rs : list (Z * csv_record)) (count : Z) (s : store)
      (rows : list trade) :
  fault_free (faults s) ->
  imported_trades df_columns created_at (seq_trades (work s) + 1) rs
  = Some rows ->
  exists s',
    insert_records df_columns (import_columns df_columns) created_at rs
                   count s
    = (Ok (count + Z.of_nat (List.length rs)), s')
    /\ fault_free (faults s')
    /\ work s' = append_trades rows (work s)
    /\ disk s' = disk s
    /\ conn s' = conn s.
Proof.
  revert count s rows. induction rs as [|[ts r] rest IH];
    intros count s rows Hff Hrows.
  - cbn in Hrows. inversion Hrows; subst. exists s.
    cbn. rewrite append_trades_nil, Z.add_0_r. repeat split. exact Hff.
  - cbn [imported_trades] in Hrows.
    unfold imported_trade in Hrows. cbn [fst snd] in Hrows.
    cbn [insert_records]. unfold bind. unfold insert_record.
    destruct (c_pair r) as [p|], (c_action r) as [a|], (c_price r) as [pr|],
      (c_quantity r) as [q|]; try discriminate Hrows.
    unfold cursor_execute_insert, insert_trade, storage_call.
    unfold_monad. store_simpl.
    rewrite (fault_free_next _ Hff).
    match type of Hrows with
    | match imported_trades ?a ?b ?c rest with _ => _ end = _ =>
        destruct (imported_trades a b c rest) as [rows'|] eqn:Hrest;
        [| discriminate Hrows]
    end.
    inversion Hrows; subst.
    match goal with
    | |- context [insert_records ?a ?b ?c rest ?n ?st] =>
        destruct (IH n st rows') as [s' (Hrun & Hff' & Hw & Hd & Hc)]
    end.
    + store_simpl. apply fault_free_tl, Hff.
    + store_simpl. cbn [seq_trades]. exact Hrest.
    + exists s'. rewrite Hrun. store_simpl.
      split; [f_equal; f_equal; cbn [List.length];
              rewrite Nat2Z.inj_succ; lia |].
      split; [exact Hff' |].
      split; [rewrite Hw; apply append_trades_cons |].
      split; assumption.
Qed.

Section ImportFacts.
Variable to_datetime : string -> option Z.

Lemma convert_timestamps_length (rs : list csv_record)
      (recs : list (Z * csv_record)) :
  convert_timestamps to_datetime rs = Some recs ->
  List.length recs = List.length rs /\ map snd recs = rs.
Proof.
  revert recs. induction rs as [|r rest IH]; intros recs H.
  - inversion H; subst. split; reflexivity.
  - cbn in H. destruct (to_datetime (c_timestamp r)) as [t|];
      [| discriminate H].
    destruct (convert_timestamps to_datetime rest) as [out|];
      [| discriminate H].
    inversion H; subst. destruct (IH out eq_refl) as [Hl Hm].
    cbn. rewrite Hl, Hm. split; reflexivity.
Qed.

(** What the [try] block of the import leaves behind. *)
Lemma import_from_csv_try_result (csv_file : csv_frame) (s : store) :
  consistent s ->
  match import_from_csv_try to_datetime csv_file s with
  | (Ok n, s1) =>
      work s1 = disk s1
      /\ ((n = 0 /\ disk s1 = disk s)
          \/ exists recs rows,
               convert_timestamps to_datetime (records csv_file) = Some recs
               /\ imported_trades (mapped_columns (columns csv_file))
                    (clock s) (seq_trades (disk s) + 1) recs = Some rows
               /\ disk s1 = append_trades rows (disk s)
               /\ n = Z.of_nat (List.length (records csv_file)))
  | (Raise _, s1) => disk s1 = disk s
  end.
Proof.
  unfold consistent. intros H.
  unfold import_from_csv_try, ensure_connection, connect, sqlite3_connect,
    storage_call, utcnow.
  unfold_monad.
  destruct (forallb (has_column (columns csv_file)) required_columns);
    [destruct (convert_timestamps to_datetime (records csv_file))
       as [recs|] eqn:Hconv |];
    run_cases;
    try match goal with
        | |- context [insert_records ?a ?b ?c ?d ?e ?st] =>
            pose proof (insert_records_keeps_disk a b c d e st) as Hk;
            pose proof (insert_records_outcome a c d e st) as Ho;
            unfold import_columns in Ho;
            destruct (insert_records a b c d e st) as [y s2];
            cbn [snd] in Hk; destruct Hk as [Hd Hc]; store_simpl;
            destruct y as [m | ex0];
            [unfold conn_commit, storage_call; unfold_monad; store_simpl;
             destruct (next_fault (faults s2)); store_simpl |]
        end;
    try (split; [first [reflexivity | exact H] | left; split; reflexivity]);
    try first [reflexivity | exact Hd].
  all: split; [reflexivity |]; right;
    destruct Ho as [rows [Hrows [Hwork Hm]]];
    exists recs, rows; rewrite ?H in *;
    (split; [reflexivity |]); (split; [exact Hrows |]);
    (split; [exact Hwork |]);
    rewrite Hm, <- (proj1 (convert_timestamps_length _ _ Hconv)); lia.
Qed.

(** X15.  [import_from_csv] never raises and is all or nothing: either it
    returns the number of records of the file and the committed trades are
    the old ones followed by one trade per record, in the order of the
    file, under consecutive new identifiers; or it returns 0 and the
    committed content is exactly what it was - also when a storage call
    fails, a timestamp cannot be parsed or a NOT NULL cell is empty half way
    through the file.  No transaction is left open. *)
Theorem import_from_csv_is_all_or_nothing (csv_file : csv_frame) (s : store) :
  consistent s ->
  let (r, s') := import_from_csv to_datetime csv_file s in
  consistent s'
  /\ exists n,
       r = Ok n
       /\ ((n = 0 /\ disk s' = disk s)
           \/ exists recs rows,
                convert_timestamps to_datetime (records csv_file) = Some recs
                /\ imported_trades (mapped_columns (columns csv_file))
                     (clock s) (seq_trades (disk s) + 1) recs = Some rows
                /\ disk s' = append_trades rows (disk s)
                /\ n = Z.of_nat (List.length (records csv_file))).
Proof.
  intros H.
  pose proof (import_from_csv_consistent to_datetime csv_file s H) as Hcons.
  pose proof (import_from_csv_try_result csv_file s H) as Htry.
  unfold import_from_csv, try_except in *.
  destruct (import_from_csv_try to_datetime csv_file s) as [[n | ex] s1].
  - cbn [snd] in Hcons. split; [exact Hcons |].
    exists n. split; [reflexivity |]. exact (proj2 Htry).
  - revert Hcons. unfold conn_rollback. unfold_monad.
    destruct (conn s1); store_simpl; intros Hcons;
      (split; [exact Hcons |]); exists 0; (split; [reflexivity |]);
      left; (split; [reflexivity | exact Htry]).
Qed.
End ImportFacts.

Lemma imported_trades_complete (df_columns : list string)
      (created_at rowid : Z) (recs : list (Z * csv_record)) :
  forallb record_complete (map snd recs) = true ->
  exists rows,
    imported_trades df_columns created_at rowid recs = Some rows.
Proof.
  revert rowid. induction recs as [|[ts r] rest IH]; intros rowid H.
  - exists []. reflexivity.
  - cbn in H. apply andb_true_iff in H. destruct H as [Hr Hrest].
    destruct (IH (rowid + 1) Hrest) as [rows Hrows].
    cbn [imported_trades]. rewrite Hrows.
    unfold imported_trade, record_complete in *. cbn [fst snd].
    destruct (c_pair r), (c_action r), (c_price r), (c_quantity r);
      try discriminate Hr.
    eexists. reflexivity.
Qed.

Lemma imported_trades_nth (df_columns : list string) (created_at rowid : Z)
      (recs : list (Z * csv_record)) (rows : list trade) :
  imported_trades df_columns created_at rowid recs = Some rows ->
  List.length rows = List.length recs
  /\ forall i tr, nth_error recs i = Some tr ->
                  exists row,
                    nth_error rows i = Some row
                    /\ imported_trade df_columns created_at
                         (rowid + Z.of_nat i) tr = Some row.
Proof.
  revert rowid rows. induction recs as [|tr0 rest IH]; intros rowid rows H.
  - inversion H; subst. split; [reflexivity |].
    intros i tr Hi. destruct i; discriminate Hi.
  - cbn [imported_trades] in H.
    destruct (imported_trade df_columns created_at rowid tr0) as [row0|]
      eqn:E0; [| discriminate H].
    destruct (imported_trades df_columns created_at (rowid + 1) rest)
      as [rows'|] eqn:Erest; [| discriminate H].
    inversion H; subst. destruct (IH _ _ Erest) as [Hlen Hnth].
    split; [cbn; rewrite Hlen; reflexivity |].
    intros i tr Hi. destruct i as [|i].
    + inversion Hi; subst. exists row0. rewrite Z.add_0_r.
      split; [reflexivity | exact E0].
    + cbn in Hi. destruct (Hnth i tr Hi) as [row [Hr Himp]].
      exists row. split; [exact Hr |].
      rewrite Nat2Z.inj_succ.
      replace (rowid + Z.succ (Z.of_nat i)) with (rowid + 1 + Z.of_nat i)
        by lia.
      exact Himp.
Qed.

Section ImportSuccess.
Variable to_datetime : string -> option Z.

(** X16.  On a storage layer that does not fail, a file that has the five
    required columns, whose timestamps all parse and whose records have no
    empty pair, action, price or quantity is imported whole:
    [import_from_csv] returns the number of records and commits one trade
    per record, in file order; the i-th record becomes the trade with the
    i-th new identifier, the parsed timestamp, the cells of the record (the
    ['profit'] column, when the file has one, giving the net profit; an
    optional column the file lacks giving NULL) and the time of the import
    as [created_at]. *)
Theorem import_from_csv_imports_every_record
        (csv_file : csv_frame) (s : store) (recs : list (Z * csv_record)) :
  consistent s ->
  fault_free (faults s) ->
  forallb (has_column (columns csv_file)) required_columns = true ->
  convert_timestamps to_datetime (records csv_file) = Some recs ->
  forallb record_complete (records csv_file) = true ->
  exists s' rows,
    import_from_csv to_datetime csv_file s
    = (Ok (Z.of_nat (List.length (records csv_file))), s')
    /\ disk s' = append_trades rows (disk s)
    /\ conn s' = true
    /\ List.length rows = List.length (records csv_file)
    /\ forall i tr, nth_error recs i = Some tr ->
                    exists row,
                      nth_error rows i = Some row
                      /\ imported_trade (mapped_columns (columns csv_file))
                           (clock s)
                           (seq_trades (disk s) + 1 + Z.of_nat i) tr
                         = Some row.
Proof.
  intros Hcons Hff Hreq Hconv Hcomplete.
  destruct (convert_timestamps_length to_datetime _ _ Hconv) as [Hlen Hsnd].
  rewrite <- Hsnd in Hcomplete.
  destruct (imported_trades_complete (mapped_columns (columns csv_file))
              (clock s) (seq_trades (disk s) + 1) recs Hcomplete)
    as [rows Hrows].
  destruct (imported_trades_nth _ _ _ _ _ Hrows) as [Hrl Hnth].
  pose proof (fault_free_next _ Hff) as N0.
  pose proof (fault_free_tl _ Hff) as Hff1.
  pose proof (fault_free_next _ Hff1) as N1.
  pose proof (fault_free_tl _ Hff1) as Hff2.
  pose proof (fault_free_next _ Hff2) as N2.
  pose proof (fault_free_tl _ Hff2) as Hff3.
  unfold consistent in Hcons.
  unfold import_from_csv, import_from_csv_try, try_except.
  rewrite Hreq, Hconv.
  fold (import_columns (mapped_columns (columns csv_file))).
  unfold ensure_connection, connect, sqlite3_connect, storage_call, utcnow.
  unfold_monad. store_simpl.
  destruct (conn s) eqn:Hc;
    repeat (store_simpl;
            first [rewrite N0 | rewrite N1 | rewrite N2]);
    store_simpl;
    match goal with
    | |- context [insert_records ?a ?b ?c recs ?n ?st] =>
        destruct (insert_records_fault_free a c recs n st rows)
          as [s2 (Hrun & Hff' & Hw & Hd & Hconn)];
        [ store_simpl; assumption
        | store_simpl; rewrite ?Hcons; exact Hrows
        | rewrite Hrun ]
    end;
    unfold conn_commit, storage_call; unfold_monad; store_simpl;
    rewrite (fault_free_next _ Hff'); store_simpl;
    eexists; exists rows;
    (split; [rewrite Z.add_0_l, Hlen; reflexivity |]);
    store_simpl; store_simpl;
    (split; [rewrite Hw; store_simpl; rewrite ?Hcons; reflexivity |]);
    (split; [rewrite Hconn; store_simpl; first [reflexivity | exact Hc] |]);
    (split; [rewrite Hrl; exact Hlen | exact Hnth]).
Qed.
End ImportSuccess.

(** X16: the two records of [csv_two_trades] imported into [btc_store]. *)
Lemma import_from_csv_imports_every_record_witness :
  exists s' rows,
    import_from_csv sample_datetime csv_two_trades btc_store = (Ok 2, s')
    /\ disk s' = append_trades rows (disk btc_store)
    /\ List.length rows = 2%nat.
Proof.
  destruct (import_from_csv_imports_every_record sample_datetime
              csv_two_trades btc_store
              [(1700000000,
                mkCsvRecord "2023-11-14 22:13:20" (Some "BTCUSDT")
                            (Some "BUY") (Some 50000) (Some 1) None None None
                            None None);
               (1700000000,
                mkCsvRecord "2023-11-14 22:13:20" (Some "BTCUSDT")
                            (Some "SELL") (Some 51000) (Some 1) (Some 7) None
                            None None None)])
    as [s' [rows (Hrun & Hdisk & _ & Hlen & _)]].
  - reflexivity.
  - constructor.
  - reflexivity.
  - reflexivity.
  - reflexivity.
  - exists s', rows. split; [exact Hrun |]. split; assumption.
Defined.

(** X15: a record with an empty price in the middle of the file leaves
    [btc_store] as it was. *)
Lemma import_from_csv_is_all_or_nothing_witness :
  consistent btc_store
  /\ fst (import_from_csv sample_datetime csv_with_gap btc_store) = Ok 0
  /\ disk (snd (import_from_csv sample_datetime csv_with_gap btc_store))
     = disk btc_store
  /\ consistent (snd (import_from_csv sample_datetime csv_with_gap
                                      btc_store)).
Proof.
  assert (Hc : consistent btc_store) by reflexivity.
  pose proof (import_from_csv_is_all_or_nothing sample_datetime csv_with_gap
                btc_store Hc) as H.
  destruct (import_from_csv sample_datetime csv_with_gap btc_store)
    as [r s'] eqn:E.
  destruct H as [Hcons _].
  split; [exact Hc |]. cbn [fst snd].
  split; [vm_compute in E; inversion E; reflexivity |].
  split; [vm_compute in E; inversion E; reflexivity | exact Hcons].
Defined.

(** ** Round trip of a market scan *)

Section ScanRoundTrip.
Variable json_dumps : indicators -> string.
Variable json_loads : string -> option indicators.

(** X17.  A scan logged with a non-empty indicator mapping comes back with
    that mapping whenever the JSON codec itself round-trips it: on a store
    without open transaction whose storage layer does not fail and whose
    other scans are strictly older, [get_latest_scan(pair)] returns the row
    just written, with the pair, signal, price, strategy and interval that
    were passed and the mapping as its ['indicators'] entry, and
    [parse_indicators] of [get_market_scans] recovers the same mapping from
    that row. *)
Theorem log_market_scan_round_trip
        (s : store) (pair signal : string) (price : Z)
        (strategy interval : option string) (d : indicators) :
  consistent s ->
  fault_free (faults s) ->
  (forall r, In r (market_scans (disk s)) -> s_timestamp r < clock s) ->
  d <> [] ->
  json_dumps d <> "" ->
  json_loads (json_dumps d) = Some d ->
  exists s1 s2,
    let row := mkScan (seq_market_scans (disk s) + 1) (clock s) pair signal
                      price strategy interval (Some (json_dumps d))
                      (clock s) in
    log_market_scan json_dumps pair signal price strategy interval (Some d) s
    = (Ok (s_id row), s1)
    /\ In row (market_scans (disk s1))
    /\ get_latest_scan json_loads (Some pair) s1
       = (Ok (Some (mkScanDict row (FieldDict d))), s2)
    /\ parse_indicators json_loads (s_indicators row) = d.
Proof.
  intros Hcons Hff Hold Hd Hne Hcodec.
  pose proof (fault_free_next _ Hff) as N0.
  pose proof (fault_free_tl _ Hff) as Hff1.
  pose proof (fault_free_next _ Hff1) as N1.
  pose proof (fault_free_tl _ Hff1) as Hff2.
  pose proof (fault_free_next _ Hff2) as N2.
  pose proof (fault_free_tl _ Hff2) as Hff3.
  pose proof (fault_free_next _ Hff3) as N3.
  pose proof (fault_free_tl _ Hff3) as Hff4.
  pose proof (fault_free_next _ Hff4) as N4.
  unfold consistent in Hcons.
  assert (Hstr : indicators_str json_dumps (Some d) = Some (json_dumps d)).
  { destruct d; [congruence | reflexivity]. }
  set (row := mkScan (seq_market_scans (disk s) + 1) (clock s) pair signal
                     price strategy interval (Some (json_dumps d))
                     (clock s)).
  assert (Hparse : parse_indicators json_loads (s_indicators row) = d
                   /\ latest_indicators json_loads (s_indicators row)
                      = FieldDict d).
  { unfold parse_indicators, latest_indicators. cbn [s_indicators row].
    destruct (json_dumps d) as [|c t] eqn:E; [congruence |].
    rewrite Hcodec. split; reflexivity. }
  assert (Hsel : forall ts bs q1 q2 q3,
             select_latest_scan (Some pair)
               (mkDatabase ts (market_scans (disk s) ++ [row]) bs q1 q2 q3)
             = [row]).
  { intros. unfold select_latest_scan. cbn [market_scans].
    rewrite filter_app. cbn [filter].
    assert (Hrow : eq_filter (Some pair) (s_pair row) = true).
    { cbn [s_pair row]. unfold eq_filter.
      destruct pair; [reflexivity | apply String.eqb_refl]. }
    rewrite Hrow.
    rewrite order_by_desc_newest; [reflexivity |].
    intros r Hr. apply filter_In in Hr. apply Hold, Hr. }
  cbv zeta.
  unfold log_market_scan, get_latest_scan, get_latest_scan_try,
    insert_market_scan.
  rewrite Hstr.
  unfold_storage. unfold_monad. store_simpl.
  destruct (conn s) eqn:Hc;
    repeat (store_simpl;
            first [rewrite N0 | rewrite N1 | rewrite N2 | rewrite N3
                  | rewrite N4]);
    store_simpl; try rewrite Hcons;
    (eexists; eexists; split; [reflexivity |]);
    (split; [store_simpl; cbn [market_scans]; apply in_or_app; right; left;
             reflexivity |]);
    repeat (store_simpl;
            first [rewrite Hc | rewrite N0 | rewrite N1 | rewrite N2
                  | rewrite N3 | rewrite N4]);
    store_simpl; fold row; rewrite Hsel;
    unfold latest_scan_of;
    rewrite (proj2 Hparse); (split; [reflexivity | exact (proj1 Hparse)]).
Qed.
End ScanRoundTrip.

(** X17: the sample scan of the module's self-test on a new store. *)
Lemma log_market_scan_round_trip_witness :
  exists s1 s2,
    log_market_scan sample_dumps "BTCUSDT" "BUY" 50000 (Some "TEST")
                    (Some "1h") (Some [("rsi", IndNumber 30)]) fresh_store
    = (Ok 1, s1)
    /\ get_latest_scan sample_loads (Some "BTCUSDT") s1
       = (Ok (Some (mkScanDict
                      (mkScan 1 1700000000 "BTCUSDT" "BUY" 50000 (Some "TEST")
                              (Some "1h") (Some "{...}") 1700000000)
                      (FieldDict [("rsi", IndNumber 30)]))),
          s2).
Proof.
  destruct (log_market_scan_round_trip sample_dumps sample_loads fresh_store
              "BTCUSDT" "BUY" 50000 (Some "TEST") (Some "1h")
              [("rsi", IndNumber 30)])
    as [s1 [s2 (Hlog & _ & Hget & _)]].
  - reflexivity.
  - constructor.
  - intros r [].
  - discriminate.
  - discriminate.
  - reflexivity.
  - exists s1, s2. split; [exact Hlog | exact Hget].
Defined.

(** ** Further concrete runs *)

(** X2: closing [btc_store] twice. *)
Lemma close_is_idempotent_witness :
  conn btc_store = true
  /\ let (r, s1) := close btc_store in
     r = Ok tt
     /\ conn s1 = false
     /\ disk s1 = disk btc_store
     /\ (conn btc_store = true -> work s1 = disk btc_store)
     /\ trace s1 = trace btc_store ++ (if conn btc_store then [EvClose]
                                       else [])
     /\ close s1 = (Ok tt, s1).
Proof.
  split; [reflexivity |]. exact (close_is_idempotent btc_store).
Defined.

(** X9: reading the trades of [failing_store], whose SELECT fails. *)
Lemma run_read_is_read_only_witness :
  conn failing_store = true
  /\ exists s',
       run_read sample_loads (GetTrades None None None None None)
                failing_store
       = (Ok (TradesFrame []), s')
       /\ disk s' = disk failing_store
       /\ trace s' = [EvSelect "trades"; EvRollback].
Proof.
  split; [reflexivity |].
  pose proof (run_read_is_read_only sample_loads
                (GetTrades None None None None None) failing_store) as H.
  destruct (run_read sample_loads (GetTrades None None None None None)
                     failing_store) as [r s'] eqn:E.
  assert (Hr : r = Ok (TradesFrame []))
    by (injection E as <- _; reflexivity).
  subst r. destruct H as (Hdisk & _ & evs & Htrace & _ & _ & Hevs).
  exists s'. split; [reflexivity |]. split; [exact Hdisk |].
  rewrite Htrace, (Hevs eq_refl). reflexivity.
Defined.
